(** * horas_GPT: time-entry hours/value calculation and report aggregation

    A shallow embedding of the storage layer (server/storage.ts: [MemStorage]
    and [DatabaseStorage]) and of the billing helpers and time-entry routes
    of server/routes.ts, followed by the properties of the specification
    that concern them.

    JavaScript numbers are IEEE-754 binary64 values: they are modelled by
    [spec_float] at precision 53 and maximal exponent 1024, with the
    operations of [SpecFloat] ([SFadd], [SFsub], [SFmul], [SFdiv]), which
    round to nearest, ties to even, as the language does.  Strings are
    [string] (ASCII); [null] and [undefined] are [None], and a field of a
    request body that may be missing, [null] or present is an [optional].
    A promise is the value it resolves to or the error it rejects with,
    together with the store afterwards.

    The database is the list of rows of each table; what the database
    engine itself would add (foreign keys, the rounding of a [decimal]
    column to its scale) is outside the embedding: a row holds the strings
    the storage layer hands over. *)

From Stdlib Require Import ZArith PArith NArith List Bool Lia.
From Stdlib Require Import Ascii String DecimalString.
From Stdlib Require Import Permutation.
From Stdlib Require Import Floats.SpecFloat.
Import ListNotations.

Open Scope string_scope.
Open Scope Z_scope.

(** ** JavaScript numbers *)

Module JS.

Definition number := spec_float.

Definition prec : Z := 53.
Definition emax : Z := 1024.

Definition NaN : number := S754_nan.

Definition add : number -> number -> number := SFadd prec emax.
Definition sub : number -> number -> number := SFsub prec emax.
Definition mul : number -> number -> number := SFmul prec emax.
Definition div : number -> number -> number := SFdiv prec emax.

(** The number denoted by an integer literal (rounded when it needs more
    than 53 bits). *)
Definition ofZ (z : Z) : number := binary_normalize prec emax z 0 false.

(** Structural equality of two numbers ([+0] and [-0] are told apart). *)
Definition same (x y : number) : bool :=
  match x, y with
  | S754_zero a, S754_zero b => Bool.eqb a b
  | S754_infinity a, S754_infinity b => Bool.eqb a b
  | S754_nan, S754_nan => true
  | S754_finite a m e, S754_finite b m' e' =>
      Bool.eqb a b && Pos.eqb m m' && Z.eqb e e'
  | _, _ => false
  end.

(** [Math.max(a, b)]: [NaN] when either argument is, and [+0] above [-0]. *)
Definition Math_max (a b : number) : number :=
  match SFcompare a b with
  | None => NaN
  | Some Lt => b
  | Some Gt => a
  | Some Eq => match a with S754_zero true => b | _ => a end
  end.

(** ToBoolean on a number: [NaN], [+0] and [-0] are falsy. *)
Definition truthyNumber (x : number) : bool :=
  match x with
  | S754_nan | S754_zero _ => false
  | _ => true
  end.

(** ToNumber on a destructured array element that may be [undefined]. *)
Definition toNumber (o : option number) : number :=
  match o with
  | Some x => x
  | None => NaN
  end.

(** ToBoolean on [string | null | undefined]: only a non-empty string is
    truthy. *)
Definition truthy (o : option string) : bool :=
  match o with
  | Some (String _ _) => true
  | _ => false
  end.

(** ToBoolean on an integer-valued number: [0] is falsy. *)
Definition truthyId (o : option Z) : bool :=
  match o with
  | Some 0 | None => false
  | Some _ => true
  end.

(** ** Strings to numbers *)

Definition isDigit (c : ascii) : bool :=
  let n := N_of_ascii c in (48 <=? n)%N && (n <=? 57)%N.

Definition digitVal (c : ascii) : Z := Z.of_N (N_of_ascii c) - 48.

(** White space of the ASCII range: TAB, LF, VT, FF, CR and SP. *)
Definition isWhiteSpace (c : ascii) : bool :=
  let n := N_of_ascii c in ((9 <=? n)%N && (n <=? 13)%N) || (n =? 32)%N.

Fixpoint trimStart (s : string) : string :=
  match s with
  | String c r => if isWhiteSpace c then trimStart r else s
  | EmptyString => s
  end.

Fixpoint trimEnd (s : string) : string :=
  match s with
  | String c r =>
      match trimEnd r with
      | EmptyString => if isWhiteSpace c then EmptyString else String c EmptyString
      | r' => String c r'
      end
  | EmptyString => EmptyString
  end.

(** The longest run of decimal digits at the head of [s], accumulated onto
    [acc]; the number of digits read is added to [n]. *)
Fixpoint scanDigits (s : string) (acc n : Z) : Z * Z * string :=
  match s with
  | String c r =>
      if isDigit c then scanDigits r (10 * acc + digitVal c) (n + 1)
      else (acc, n, s)
  | EmptyString => (acc, n, s)
  end.

(** The exponent part [e[+-]digits], when one is present at the head. *)
Definition scanExponent (s : string) : Z * string :=
  match s with
  | String c r =>
      if (c =? "e")%char || (c =? "E")%char then
        let '(neg, r1) :=
          match r with
          | String "+" r' => (false, r')
          | String "-" r' => (true, r')
          | _ => (false, r)
          end in
        let '(v, n, r2) := scanDigits r1 0 0 in
        if n =? 0 then (0, s) else ((if neg then - v else v), r2)
      else (0, s)
  | EmptyString => (0, s)
  end.

(** The longest prefix of [s] that is an unsigned decimal literal
    (digits, optional fraction, optional exponent): its digits as an
    integer, its power of ten and what follows it. *)
Definition scanDecimal (s : string) : option (Z * Z * string) :=
  let '(ip, ni, r1) := scanDigits s 0 0 in
  let '(m, nf, r2) :=
    match r1 with
    | String "." r =>
        let '(fp, k, r') := scanDigits r ip 0 in
        if (ni =? 0) && (k =? 0) then (ip, 0, r1) else (fp, k, r')
    | _ => (ip, 0, r1)
    end in
  if (ni =? 0) && (nf =? 0) then None
  else
    let '(e, r3) := scanExponent r2 in
    Some (m, e - nf, r3).

(** The binary64 value nearest to [m * 10^e10], for [m >= 0]. *)
Definition decToNumber (neg : bool) (m e10 : Z) : number :=
  match m with
  | Zpos p =>
      if 0 <=? e10 then
        binary_normalize prec emax
          ((if neg then Zneg p else Zpos p) * 10 ^ e10) 0 false
      else
        div (S754_finite neg p 0)
            (S754_finite false (Z.to_pos (10 ^ (- e10))) 0)
  | _ => S754_zero neg
  end.

Definition splitSign (s : string) : bool * string :=
  match s with
  | String "+" r => (false, r)
  | String "-" r => (true, r)
  | _ => (false, s)
  end.

(** [parseFloat(s)]: the number denoted by the longest decimal literal at
    the head of [s], leading white space skipped; [NaN] without one. *)
Definition parseFloat (s : string) : number :=
  let '(neg, r) := splitSign (trimStart s) in
  if prefix "Infinity" r then S754_infinity neg
  else
    match scanDecimal r with
    | Some (m, e, _) => decToNumber neg m e
    | None => NaN
    end.

(** Digits of radix 2, 8 or 16 after a [0b], [0o] or [0x] prefix. *)
Definition radixDigit (radix : Z) (c : ascii) : option Z :=
  let n := Z.of_N (N_of_ascii c) in
  let v :=
    if (48 <=? n) && (n <=? 57) then n - 48
    else if (97 <=? n) && (n <=? 102) then n - 87
    else if (65 <=? n) && (n <=? 70) then n - 55
    else radix in
  if v <? radix then Some v else None.

Fixpoint scanRadix (radix : Z) (s : string) (acc : Z) : option Z :=
  match s with
  | String c r =>
      match radixDigit radix c with
      | Some v => scanRadix radix r (radix * acc + v)
      | None => None
      end
  | EmptyString => Some acc
  end.

Definition radixLiteral (radix : Z) (s : string) : number :=
  match s with
  | EmptyString => NaN
  | _ => match scanRadix radix s 0 with
         | Some v => ofZ v
         | None => NaN
         end
  end.

(** [Number(s)] on a string: the whole of [s], white space trimmed, must
    be a numeric literal; the empty string is [0]. *)
Definition Number (s : string) : number :=
  match trimEnd (trimStart s) with
  | EmptyString => S754_zero false
  | String "0" (String "x" r) | String "0" (String "X" r) => radixLiteral 16 r
  | String "0" (String "o" r) | String "0" (String "O" r) => radixLiteral 8 r
  | String "0" (String "b" r) | String "0" (String "B" r) => radixLiteral 2 r
  | t =>
      let '(neg, r) := splitSign t in
      if (r =? "Infinity")%string then S754_infinity neg
      else
        match scanDecimal r with
        | Some (m, e, EmptyString) => decToNumber neg m e
        | _ => NaN
        end
  end.

(** [s.split(sep)] for a one-character separator. *)
Fixpoint split (sep : ascii) (s : string) : list string :=
  match s with
  | EmptyString => [EmptyString]
  | String c r =>
      if (c =? sep)%char then EmptyString :: split sep r
      else
        match split sep r with
        | h :: t => String c h :: t
        | [] => [String c EmptyString]
        end
  end.

(** ** Numbers to strings *)

(** [10^n] as a fraction of two positive integers. *)
Definition pow10Frac (n : Z) : Z * Z :=
  if 0 <=? n then (10 ^ n, 1) else (1, 10 ^ (- n)).

(** The numerator and denominator of [m * 2^e]. *)
Definition valueFrac (m : positive) (e : Z) : Z * Z :=
  if 0 <=? e then (Zpos m * 2 ^ e, 1) else (Zpos m, 2 ^ (- e)).

(** Whether [m * 2^e < 10^n]. *)
Definition belowPow10 (m : positive) (e n : Z) : bool :=
  let '(p, q) := valueFrac m e in
  let '(a, b) := pow10Frac n in
  p * b <? a * q.

(** The [n] with [10^(n-1) <= m * 2^e < 10^n], from an estimate by the
    binary logarithm that is off by one at most. *)
Definition decade (m : positive) (e : Z) : Z :=
  let b := Zpos (digits2_pos m) + e in
  let n0 := (b - 1) * 30103 / 100000 in
  if belowPow10 m e n0 then n0
  else if belowPow10 m e (n0 + 1) then n0 + 1
  else n0 + 2.

(** With [k] digits: the integers [s] next to [m * 2^e / 10^(n-k)] for
    which [s * 10^(n-k)] reads back as the same number; the nearer one
    first when both do, the even one on a tie. *)
Definition digitsAt (m : positive) (e n k : Z) : option Z :=
  let x := S754_finite false m e in
  let sc := n - k in
  let '(p, q) := valueFrac m e in
  let '(a, b) := pow10Frac sc in
  let lo := (p * b) / (q * a) in
  let hi := lo + 1 in
  let okLo := same (decToNumber false lo sc) x in
  let okHi := same (decToNumber false hi sc) x in
  (* distances to the two candidates, over the common denominator q * b *)
  let dLo := p * b - lo * a * q in
  let dHi := hi * a * q - p * b in
  match okLo, okHi with
  | true, true =>
      if dLo <? dHi then Some lo
      else if dHi <? dLo then Some hi
      else if Z.even lo then Some lo else Some hi
  | true, false => Some lo
  | false, true => Some hi
  | false, false => None
  end.

Fixpoint shortest (fuel : nat) (m : positive) (e n k : Z) : Z * Z :=
  match fuel with
  | O => (0, 0)
  | S f =>
      match digitsAt m e n k with
      | Some s => (s, n - k)
      | None => shortest f m e n (k + 1)
      end
  end.

(** Trailing zeros of [s] moved into the power of ten. *)
Fixpoint stripZeros (fuel : nat) (s sc : Z) : Z * Z :=
  match fuel with
  | O => (s, sc)
  | S f => if (s mod 10 =? 0) && negb (s =? 0)
           then stripZeros f (s / 10) (sc + 1) else (s, sc)
  end.

Definition showZ (z : Z) : string := NilZero.string_of_uint (N.to_uint (Z.to_N z)).

Fixpoint zeros (n : nat) : string :=
  match n with
  | O => EmptyString
  | S k => String "0" (zeros k)
  end.

(** The decimal rendering of the positive number [m * 2^e]
    (Number::toString, radix 10). *)
Definition showFinite (m : positive) (e : Z) : string :=
  let '(s0, sc0) := shortest 17 m e (decade m e) 1 in
  let '(s, sc) := stripZeros 400 s0 sc0 in
  let d := showZ s in
  let k := Z.of_nat (String.length d) in
  let n := k + sc in
  if (k <=? n) && (n <=? 21) then d ++ zeros (Z.to_nat (n - k))
  else if (0 <? n) && (n <=? 21) then
    substring 0 (Z.to_nat n) d ++ "." ++ substring (Z.to_nat n) (Z.to_nat (k - n)) d
  else if (-6 <? n) && (n <=? 0) then "0." ++ zeros (Z.to_nat (- n)) ++ d
  else
    let ex := n - 1 in
    let sgn := if ex <? 0 then "-" else "+" in
    let mant :=
      if k =? 1 then d
      else substring 0 1 d ++ "." ++ substring 1 (Z.to_nat (k - 1)) d in
    mant ++ "e" ++ sgn ++ showZ (Z.abs ex).

(** [x.toString()]. *)
Definition toString (x : number) : string :=
  match x with
  | S754_nan => "NaN"
  | S754_zero _ => "0"
  | S754_infinity true => "-Infinity"
  | S754_infinity false => "Infinity"
  | S754_finite true m e => "-" ++ showFinite m e
  | S754_finite false m e => showFinite m e
  end.

End JS.

(** ** Optional fields, results and insertion-ordered maps *)

(** A field of a request body that may be missing, [null] or present. *)
Inductive optional (A : Type) : Type :=
| Undefined
| Null
| Value (a : A).
Arguments Undefined {A}.
Arguments Null {A}.
Arguments Value {A} a.

(** [x || undefined] and [x || null] on a string field. *)
Definition truthyString (o : optional string) : option string :=
  match o with
  | Value (String c r) => Some (String c r)
  | _ => None
  end.

(** [x || null] on an id field ([0] is falsy). *)
Definition truthyNumberId (o : optional Z) : option Z :=
  match o with
  | Value 0 | Undefined | Null => None
  | Value z => Some z
  end.

(** What a nullable column receives from an optional field. *)
Definition nullable {A : Type} (o : optional A) : option A :=
  match o with
  | Value a => Some a
  | _ => None
  end.

(** [{ ...old, ...upd }] on one field. *)
Definition overlay {A : Type} (old : A) (upd : option A) : A :=
  match upd with
  | Some v => v
  | None => old
  end.

Definition overlayNullable {A : Type} (old : option A) (upd : optional A) : option A :=
  match upd with
  | Undefined => old
  | Null => None
  | Value v => Some v
  end.

(** The result of an [async] method on a store of type [S]: the value the
    promise resolves to, or the message of the [Error] it rejects with,
    and the store afterwards. *)
Inductive outcome (S A : Type) : Type :=
| Returned (a : A) (s : S)
| Threw (msg : string) (s : S).
Arguments Returned {S A} a s.
Arguments Threw {S A} msg s.

(** A JavaScript [Map<number, V>]: keys are unique and iteration follows
    insertion order. *)
Module JsMap.

Definition t (V : Type) : Type := list (Z * V).

Definition get {V : Type} (k : Z) (m : t V) : option V :=
  match find (fun p => fst p =? k) m with
  | Some p => Some (snd p)
  | None => None
  end.

Fixpoint set {V : Type} (k : Z) (v : V) (m : t V) : t V :=
  match m with
  | [] => [(k, v)]
  | p :: r => if fst p =? k then (k, v) :: r else p :: set k v r
  end.

Definition delete {V : Type} (k : Z) (m : t V) : t V :=
  filter (fun p => negb (fst p =? k)) m.

Definition values {V : Type} (m : t V) : list V := map snd m.

End JsMap.

(** ** shared/schema.ts: the rows of the tables *)

Module Client.
Record t : Type := { id : Z; code : string; name : string; cnpj : string; email : string }.
End Client.

Module Consultant.
Record t : Type := { id : Z; code : string; name : string; password : string }.
End Consultant.

Module Service.
Record t : Type :=
  { id : Z; code : string; clientId : Z; description : string; hourlyRate : string }.
End Service.

Module Sector.
Record t : Type := { id : Z; code : string; clientId : option Z; description : string }.
End Sector.

Module ServiceType.
Record t : Type := { id : Z; code : string; description : string }.
End ServiceType.

Module TimeEntry.
Record t : Type :=
  { id : Z;
    date : string;
    consultantId : Z;
    clientId : Z;
    serviceId : Z;
    sectorId : option Z;
    serviceTypeId : option Z;
    projectId : option Z;
    startTime : string;
    endTime : string;
    breakStartTime : option string;
    breakEndTime : option string;
    description : option string;
    totalHours : string;
    totalValue : string;
    activityCompleted : option string;
    deliveryForecast : option string;
    actualDelivery : option string;
    serviceLocation : option string }.
End TimeEntry.

(** [insertTimeEntrySchema]: the columns of [time_entries] without [id],
    [totalHours] and [totalValue].  The schema checks the JSON type of each
    field and nothing else, so every inhabitant of this record parses. *)
Module InsertTimeEntry.
Record t : Type :=
  { date : string;
    consultantId : Z;
    clientId : Z;
    serviceId : Z;
    sectorId : optional Z;
    serviceTypeId : optional Z;
    projectId : optional Z;
    startTime : string;
    endTime : string;
    breakStartTime : optional string;
    breakEndTime : optional string;
    description : optional string;
    activityCompleted : optional string;
    deliveryForecast : optional string;
    actualDelivery : optional string;
    serviceLocation : optional string }.
End InsertTimeEntry.

(** [Partial<InsertTimeEntry>], as [insertTimeEntrySchema.partial()] parses
    it: a required field is [None] when the key is missing. *)
Module PartialTimeEntry.
Record t : Type :=
  { date : option string;
    consultantId : option Z;
    clientId : option Z;
    serviceId : option Z;
    sectorId : optional Z;
    serviceTypeId : optional Z;
    projectId : optional Z;
    startTime : option string;
    endTime : option string;
    breakStartTime : optional string;
    breakEndTime : optional string;
    description : optional string;
    activityCompleted : optional string;
    deliveryForecast : optional string;
    actualDelivery : optional string;
    serviceLocation : optional string }.
End PartialTimeEntry.

(** [{ ...timeEntry, ...updateData }]. *)
Definition spread (e : TimeEntry.t) (u : PartialTimeEntry.t) : TimeEntry.t :=
  {| TimeEntry.id := TimeEntry.id e;
     TimeEntry.date := overlay (TimeEntry.date e) (PartialTimeEntry.date u);
     TimeEntry.consultantId := overlay (TimeEntry.consultantId e) (PartialTimeEntry.consultantId u);
     TimeEntry.clientId := overlay (TimeEntry.clientId e) (PartialTimeEntry.clientId u);
     TimeEntry.serviceId := overlay (TimeEntry.serviceId e) (PartialTimeEntry.serviceId u);
     TimeEntry.sectorId := overlayNullable (TimeEntry.sectorId e) (PartialTimeEntry.sectorId u);
     TimeEntry.serviceTypeId :=
       overlayNullable (TimeEntry.serviceTypeId e) (PartialTimeEntry.serviceTypeId u);
     TimeEntry.projectId := overlayNullable (TimeEntry.projectId e) (PartialTimeEntry.projectId u);
     TimeEntry.startTime := overlay (TimeEntry.startTime e) (PartialTimeEntry.startTime u);
     TimeEntry.endTime := overlay (TimeEntry.endTime e) (PartialTimeEntry.endTime u);
     TimeEntry.breakStartTime :=
       overlayNullable (TimeEntry.breakStartTime e) (PartialTimeEntry.breakStartTime u);
     TimeEntry.breakEndTime :=
       overlayNullable (TimeEntry.breakEndTime e) (PartialTimeEntry.breakEndTime u);
     TimeEntry.description :=
       overlayNullable (TimeEntry.description e) (PartialTimeEntry.description u);
     TimeEntry.totalHours := TimeEntry.totalHours e;
     TimeEntry.totalValue := TimeEntry.totalValue e;
     TimeEntry.activityCompleted :=
       overlayNullable (TimeEntry.activityCompleted e) (PartialTimeEntry.activityCompleted u);
     TimeEntry.deliveryForecast :=
       overlayNullable (TimeEntry.deliveryForecast e) (PartialTimeEntry.deliveryForecast u);
     TimeEntry.actualDelivery :=
       overlayNullable (TimeEntry.actualDelivery e) (PartialTimeEntry.actualDelivery u);
     TimeEntry.serviceLocation :=
       overlayNullable (TimeEntry.serviceLocation e) (PartialTimeEntry.serviceLocation u) |}.

(** Assignment to the two derived fields of an entry. *)
Definition withTotals (e : TimeEntry.t) (hours value : string) : TimeEntry.t :=
  {| TimeEntry.id := TimeEntry.id e;
     TimeEntry.date := TimeEntry.date e;
     TimeEntry.consultantId := TimeEntry.consultantId e;
     TimeEntry.clientId := TimeEntry.clientId e;
     TimeEntry.serviceId := TimeEntry.serviceId e;
     TimeEntry.sectorId := TimeEntry.sectorId e;
     TimeEntry.serviceTypeId := TimeEntry.serviceTypeId e;
     TimeEntry.projectId := TimeEntry.projectId e;
     TimeEntry.startTime := TimeEntry.startTime e;
     TimeEntry.endTime := TimeEntry.endTime e;
     TimeEntry.breakStartTime := TimeEntry.breakStartTime e;
     TimeEntry.breakEndTime := TimeEntry.breakEndTime e;
     TimeEntry.description := TimeEntry.description e;
     TimeEntry.totalHours := hours;
     TimeEntry.totalValue := value;
     TimeEntry.activityCompleted := TimeEntry.activityCompleted e;
     TimeEntry.deliveryForecast := TimeEntry.deliveryForecast e;
     TimeEntry.actualDelivery := TimeEntry.actualDelivery e;
     TimeEntry.serviceLocation := TimeEntry.serviceLocation e |}.

(** The report of [getReportData]. *)
Module ClientGroup.
Record t : Type :=
  { clientId : Z; clientName : string; hours : JS.number; value : JS.number; entries : Z }.
End ClientGroup.

Module Report.
Record t : Type :=
  { totalHours : JS.number;
    totalValue : JS.number;
    totalEntries : Z;
    totalClients : Z;
    clientBreakdown : list ClientGroup.t }.
End Report.

Module Filters.
Record t : Type :=
  { startDate : option string;
    endDate : option string;
    clientId : option Z;
    consultantId : option Z }.
End Filters.

(** [insertClientSchema] and its [.partial()]: the columns of [clients]
    without [id]; a key that is missing from an update is [None]. *)
Module InsertClient.
Record t : Type := { code : string; name : string; cnpj : string; email : string }.
End InsertClient.

Module PartialClient.
Record t : Type :=
  { code : option string; name : option string; cnpj : option string; email : option string }.
End PartialClient.

(** What [insertServiceSchema] hands over: [hourlyRate] is the number its
    transform read with [parseFloat]. *)
Module InsertService.
Record t : Type :=
  { code : string; clientId : Z; description : string; hourlyRate : JS.number }.
End InsertService.

Module PartialService.
Record t : Type :=
  { code : option string;
    clientId : option Z;
    description : option string;
    hourlyRate : option JS.number }.
End PartialService.

(** [ServiceWithClient] and [TimeEntryDetailed]: a row with the rows it
    refers to. *)
Module ServiceWithClient.
Record t : Type := { service : Service.t; client : Client.t }.
End ServiceWithClient.

Module TimeEntryDetailed.
Record t : Type :=
  { entry : TimeEntry.t;
    consultant : Consultant.t;
    client : Client.t;
    service : Service.t }.
End TimeEntryDetailed.

(** A line of the summary of an invoice. *)
Module BillingGroup.
Record t : Type :=
  { project : string;
    sector : string;
    serviceType : string;
    hours : JS.number;
    value : JS.number;
    entries : Z }.
End BillingGroup.

(** The statistics of [getDashboardStats]. *)
Module Totals.
Record t : Type := { name : string; hours : JS.number; value : JS.number }.
End Totals.

Module ConsultantStat.
Record t : Type :=
  { consultantId : Z; consultantName : string; totalHours : JS.number; totalValue : JS.number }.
End ConsultantStat.

Module ClientStat.
Record t : Type :=
  { clientId : Z; clientName : string; totalHours : JS.number; totalValue : JS.number }.
End ClientStat.

Module DashboardStats.
Record t : Type :=
  { totalClients : Z;
    monthlyHours : JS.number;
    monthlyRevenue : JS.number;
    activeConsultants : Z;
    consultantStats : list ConsultantStat.t;
    clientStats : list ClientStat.t }.
End DashboardStats.

(** ** Array helpers shared by the two stores *)

(** [new Set(xs)]: the distinct elements in order of first occurrence. *)
Fixpoint distinct (xs seen : list Z) : list Z :=
  match xs with
  | [] => []
  | x :: r =>
      if existsb (Z.eqb x) seen then distinct r seen
      else x :: distinct r (x :: seen)
  end.

(** [xs.reduce((sum, e) => sum + parseFloat(f(e)), 0)]. *)
Definition sumOf {A : Type} (f : A -> string) (xs : list A) : JS.number :=
  fold_left (fun sum e => JS.add sum (JS.parseFloat (f e))) xs (JS.ofZ 0).

(** One insertion step of a stable sort under the comparator
    [(a, b) => b.value - a.value]: [g] goes before the first element that
    the comparator orders after it. *)
Fixpoint insertGroup (g : ClientGroup.t) (sorted : list ClientGroup.t) : list ClientGroup.t :=
  match sorted with
  | [] => [g]
  | h :: r =>
      if SFltb (JS.sub (ClientGroup.value h) (ClientGroup.value g)) (JS.ofZ 0)
      then g :: h :: r
      else h :: insertGroup g r
  end.

(** [clientBreakdown.sort((a, b) => b.value - a.value)]: descending by
    value, stable.  (With [NaN] values the comparator is inconsistent and
    the language leaves the order open.) *)
Definition sortByValue (gs : list ClientGroup.t) : list ClientGroup.t :=
  fold_left (fun sorted g => insertGroup g sorted) gs [].

(** [a || b] where [b] is a string, an id, or a nullable string. *)
Definition orString (a : option string) (b : string) : string :=
  match a with
  | Some (String c r) => String c r
  | _ => b
  end.

Definition orId (a : option Z) (b : Z) : Z :=
  match a with
  | Some 0 | None => b
  | Some z => z
  end.

Definition orNullable (a : optional string) (b : option string) : option string :=
  match truthyString a with
  | Some s => Some s
  | None => b
  end.

(** [const [hour, min] = time.split(':').map(Number)]: the first two
    fields, each [undefined] when the string has too few. *)
Definition hourAndMinute (time : string) : option JS.number * option JS.number :=
  let parts := map JS.Number (JS.split ":" time) in
  (nth_error parts 0, nth_error parts 1).

(** [hour * 60 + min] on such a pair. *)
Definition minutesOf (hm : option JS.number * option JS.number) : JS.number :=
  JS.add (JS.mul (JS.toNumber (fst hm)) (JS.ofZ 60)) (JS.toNumber (snd hm)).

(** One insertion step of a stable sort under a comparator [cmp]: [x]
    goes before the first element that [cmp] orders after it. *)
Fixpoint insertBy {A : Type} (cmp : A -> A -> JS.number) (x : A) (sorted : list A) : list A :=
  match sorted with
  | [] => [x]
  | h :: r =>
      if SFltb (cmp x h) (JS.ofZ 0) then x :: h :: r else h :: insertBy cmp x r
  end.

(** [xs.sort(cmp)], stable. *)
Definition sortBy {A : Type} (cmp : A -> A -> JS.number) (xs : list A) : list A :=
  fold_left (fun sorted x => insertBy cmp x sorted) xs [].

(** [s.padStart(2, '0')]. *)
Definition padStart2 (s : string) : string :=
  match s with
  | EmptyString => "00"
  | String c EmptyString => String "0" s
  | _ => s
  end.

(** One step of the aggregation of [getDashboardStats]: the totals of the
    party of [entry] are created at zero when the map has none, the hours
    and the value of [entry] are added to them, and they are put back under
    the same key.  Nothing happens when the party has no name to show. *)
Definition accumulate (key : TimeEntry.t -> Z) (nameOf : TimeEntry.t -> option string)
    (totals : JsMap.t Totals.t) (entry : TimeEntry.t) : JsMap.t Totals.t :=
  match nameOf entry with
  | None => totals
  | Some name =>
      let existing :=
        match JsMap.get (key entry) totals with
        | Some t => t
        | None => {| Totals.name := name; Totals.hours := JS.ofZ 0; Totals.value := JS.ofZ 0 |}
        end in
      JsMap.set (key entry)
        {| Totals.name := Totals.name existing;
           Totals.hours :=
             JS.add (Totals.hours existing) (JS.parseFloat (TimeEntry.totalHours entry));
           Totals.value :=
             JS.add (Totals.value existing) (JS.parseFloat (TimeEntry.totalValue entry)) |}
        totals
  end.

(** ** server/storage.ts: MemStorage *)

Module MemStorage.

Record t : Type :=
  { clients : JsMap.t Client.t;
    consultants : JsMap.t Consultant.t;
    services : JsMap.t Service.t;
    sectors : JsMap.t Sector.t;
    serviceTypes : JsMap.t ServiceType.t;
    timeEntries : JsMap.t TimeEntry.t;
    currentClientId : Z;
    currentConsultantId : Z;
    currentServiceId : Z;
    currentSectorId : Z;
    currentServiceTypeId : Z;
    currentTimeEntryId : Z }.

(** [this.timeEntries.set(id, entry)], the other fields left alone. *)
Definition setTimeEntry (id : Z) (e : TimeEntry.t) (st : t) : t :=
  {| clients := clients st;
     consultants := consultants st;
     services := services st;
     sectors := sectors st;
     serviceTypes := serviceTypes st;
     timeEntries := JsMap.set id e (timeEntries st);
     currentClientId := currentClientId st;
     currentConsultantId := currentConsultantId st;
     currentServiceId := currentServiceId st;
     currentSectorId := currentSectorId st;
     currentServiceTypeId := currentServiceTypeId st;
     currentTimeEntryId := currentTimeEntryId st |}.

(** [this.currentTimeEntryId++]. *)
Definition bumpTimeEntryId (st : t) : t :=
  {| clients := clients st;
     consultants := consultants st;
     services := services st;
     sectors := sectors st;
     serviceTypes := serviceTypes st;
     timeEntries := timeEntries st;
     currentClientId := currentClientId st;
     currentConsultantId := currentConsultantId st;
     currentServiceId := currentServiceId st;
     currentSectorId := currentSectorId st;
     currentServiceTypeId := currentServiceTypeId st;
     currentTimeEntryId := currentTimeEntryId st + 1 |}.

(** [this.clients] and [this.currentClientId] replaced, the rest left
    alone; likewise for the services and for the time entries. *)
Definition withClients (m : JsMap.t Client.t) (next : Z) (st : t) : t :=
  {| clients := m;
     consultants := consultants st;
     services := services st;
     sectors := sectors st;
     serviceTypes := serviceTypes st;
     timeEntries := timeEntries st;
     currentClientId := next;
     currentConsultantId := currentConsultantId st;
     currentServiceId := currentServiceId st;
     currentSectorId := currentSectorId st;
     currentServiceTypeId := currentServiceTypeId st;
     currentTimeEntryId := currentTimeEntryId st |}.

Definition withServices (m : JsMap.t Service.t) (next : Z) (st : t) : t :=
  {| clients := clients st;
     consultants := consultants st;
     services := m;
     sectors := sectors st;
     serviceTypes := serviceTypes st;
     timeEntries := timeEntries st;
     currentClientId := currentClientId st;
     currentConsultantId := currentConsultantId st;
     currentServiceId := next;
     currentSectorId := currentSectorId st;
     currentServiceTypeId := currentServiceTypeId st;
     currentTimeEntryId := currentTimeEntryId st |}.

Definition withTimeEntries (m : JsMap.t TimeEntry.t) (st : t) : t :=
  {| clients := clients st;
     consultants := consultants st;
     services := services st;
     sectors := sectors st;
     serviceTypes := serviceTypes st;
     timeEntries := m;
     currentClientId := currentClientId st;
     currentConsultantId := currentConsultantId st;
     currentServiceId := currentServiceId st;
     currentSectorId := currentSectorId st;
     currentServiceTypeId := currentServiceTypeId st;
     currentTimeEntryId := currentTimeEntryId st |}.

(** *** Clients *)

Definition getClients (st : t) : list Client.t := JsMap.values (clients st).

Definition getClient (id : Z) (st : t) : option Client.t := JsMap.get id (clients st).

Definition createClient (insertClient : InsertClient.t) (st : t) : Client.t * t :=
  let id := currentClientId st in
  let client :=
    {| Client.id := id;
       Client.code := InsertClient.code insertClient;
       Client.name := InsertClient.name insertClient;
       Client.cnpj := InsertClient.cnpj insertClient;
       Client.email := InsertClient.email insertClient |} in
  (client, withClients (JsMap.set id client (clients st)) (id + 1) st).

Definition updateClient (id : Z) (updateData : PartialClient.t) (st : t)
  : option Client.t * t :=
  match JsMap.get id (clients st) with
  | None => (None, st)
  | Some client =>
      let updatedClient :=
        {| Client.id := Client.id client;
           Client.code := overlay (Client.code client) (PartialClient.code updateData);
           Client.name := overlay (Client.name client) (PartialClient.name updateData);
           Client.cnpj := overlay (Client.cnpj client) (PartialClient.cnpj updateData);
           Client.email := overlay (Client.email client) (PartialClient.email updateData) |} in
      (Some updatedClient,
       withClients (JsMap.set id updatedClient (clients st)) (currentClientId st) st)
  end.

(** *** Services *)

(** A service whose client is not in the store is left out. *)
Definition withClient (st : t) (service : Service.t) : list ServiceWithClient.t :=
  match JsMap.get (Service.clientId service) (clients st) with
  | Some client => [ {| ServiceWithClient.service := service; ServiceWithClient.client := client |} ]
  | None => []
  end.

Definition getServices (st : t) : list ServiceWithClient.t :=
  flat_map (withClient st) (JsMap.values (services st)).

Definition getService (id : Z) (st : t) : option Service.t := JsMap.get id (services st).

Definition getServicesByClient (clientId : Z) (st : t) : list Service.t :=
  filter (fun service => Service.clientId service =? clientId) (JsMap.values (services st)).

Definition createService (insertService : InsertService.t) (st : t) : Service.t * t :=
  let id := currentServiceId st in
  let service :=
    {| Service.id := id;
       Service.code := InsertService.code insertService;
       Service.clientId := InsertService.clientId insertService;
       Service.description := InsertService.description insertService;
       Service.hourlyRate := JS.toString (InsertService.hourlyRate insertService) |} in
  (service, withServices (JsMap.set id service (services st)) (id + 1) st).

(** The rate is replaced only by a truthy number: [0] and [NaN] leave the
    stored rate as it is. *)
Definition updateService (id : Z) (updateData : PartialService.t) (st : t)
  : option Service.t * t :=
  match JsMap.get id (services st) with
  | None => (None, st)
  | Some service =>
      let updatedService :=
        {| Service.id := Service.id service;
           Service.code := overlay (Service.code service) (PartialService.code updateData);
           Service.clientId :=
             overlay (Service.clientId service) (PartialService.clientId updateData);
           Service.description :=
             overlay (Service.description service) (PartialService.description updateData);
           Service.hourlyRate :=
             match PartialService.hourlyRate updateData with
             | Some rate =>
                 if JS.truthyNumber rate then JS.toString rate else Service.hourlyRate service
             | None => Service.hourlyRate service
             end |} in
      (Some updatedService,
       withServices (JsMap.set id updatedService (services st)) (currentServiceId st) st)
  end.

(** *** Time entries *)

(** An entry with its consultant, client and service; an entry that refers
    to a missing one is left out. *)
Definition detailed (st : t) (entry : TimeEntry.t) : list TimeEntryDetailed.t :=
  match JsMap.get (TimeEntry.consultantId entry) (consultants st),
        JsMap.get (TimeEntry.clientId entry) (clients st),
        JsMap.get (TimeEntry.serviceId entry) (services st) with
  | Some consultant, Some client, Some service =>
      [ {| TimeEntryDetailed.entry := entry;
           TimeEntryDetailed.consultant := consultant;
           TimeEntryDetailed.client := client;
           TimeEntryDetailed.service := service |} ]
  | _, _, _ => []
  end.

Section Dates.

(** [new Date(s).getTime()] on a date string: how an implementation reads
    strings outside the ISO format is left open by the language. *)
Variable dateTime : string -> JS.number.

Definition byDateDescending (a b : TimeEntryDetailed.t) : JS.number :=
  JS.sub (dateTime (TimeEntry.date (TimeEntryDetailed.entry b)))
         (dateTime (TimeEntry.date (TimeEntryDetailed.entry a))).

Definition getTimeEntries (st : t) : list TimeEntryDetailed.t :=
  sortBy byDateDescending (flat_map (detailed st) (JsMap.values (timeEntries st))).

Definition getTimeEntriesByDateRange (startDate endDate : string) (st : t)
  : list TimeEntryDetailed.t :=
  filter (fun e =>
            String.leb startDate (TimeEntry.date (TimeEntryDetailed.entry e))
            && String.leb (TimeEntry.date (TimeEntryDetailed.entry e)) endDate)
         (getTimeEntries st).

Definition getTimeEntriesByClient (clientId : Z) (st : t) : list TimeEntryDetailed.t :=
  filter (fun e => TimeEntry.clientId (TimeEntryDetailed.entry e) =? clientId)
         (getTimeEntries st).

Definition getTimeEntriesByConsultant (consultantId : Z) (st : t)
  : list TimeEntryDetailed.t :=
  filter (fun e => TimeEntry.consultantId (TimeEntryDetailed.entry e) =? consultantId)
         (getTimeEntries st).

End Dates.

Definition getTimeEntry (id : Z) (st : t) : option TimeEntry.t :=
  JsMap.get id (timeEntries st).

Definition calculateHoursAndValue
    (startTime endTime hourlyRate : string)
    (breakStartTime breakEndTime : option string) : JS.number * JS.number :=
  let startMinutes := minutesOf (hourAndMinute startTime) in
  let endMinutes := minutesOf (hourAndMinute endTime) in
  let totalMinutes := JS.sub endMinutes startMinutes in
  let totalMinutes :=
    match breakStartTime, breakEndTime with
    | Some (String a b), Some (String c d) =>
        let breakStartMinutes := minutesOf (hourAndMinute (String a b)) in
        let breakEndMinutes := minutesOf (hourAndMinute (String c d)) in
        let breakDuration := JS.sub breakEndMinutes breakStartMinutes in
        JS.sub totalMinutes breakDuration
    | _, _ => totalMinutes
    end in
  let hours := JS.Math_max (JS.ofZ 0) (JS.div totalMinutes (JS.ofZ 60)) in
  let value := JS.mul hours (JS.parseFloat hourlyRate) in
  (hours, value).

Definition createTimeEntry (insertTimeEntry : InsertTimeEntry.t) (st : t)
  : outcome t TimeEntry.t :=
  match JsMap.get (InsertTimeEntry.serviceId insertTimeEntry) (services st) with
  | None => Threw "Service not found" st
  | Some service =>
      let '(hours, value) :=
        calculateHoursAndValue
          (InsertTimeEntry.startTime insertTimeEntry)
          (InsertTimeEntry.endTime insertTimeEntry)
          (Service.hourlyRate service)
          (truthyString (InsertTimeEntry.breakStartTime insertTimeEntry))
          (truthyString (InsertTimeEntry.breakEndTime insertTimeEntry)) in
      let id := currentTimeEntryId st in
      let timeEntry :=
        {| TimeEntry.id := id;
           TimeEntry.date := InsertTimeEntry.date insertTimeEntry;
           TimeEntry.consultantId := InsertTimeEntry.consultantId insertTimeEntry;
           TimeEntry.clientId := InsertTimeEntry.clientId insertTimeEntry;
           TimeEntry.serviceId := InsertTimeEntry.serviceId insertTimeEntry;
           TimeEntry.sectorId := truthyNumberId (InsertTimeEntry.sectorId insertTimeEntry);
           TimeEntry.serviceTypeId :=
             truthyNumberId (InsertTimeEntry.serviceTypeId insertTimeEntry);
           TimeEntry.projectId := truthyNumberId (InsertTimeEntry.projectId insertTimeEntry);
           TimeEntry.startTime := InsertTimeEntry.startTime insertTimeEntry;
           TimeEntry.endTime := InsertTimeEntry.endTime insertTimeEntry;
           TimeEntry.breakStartTime :=
             truthyString (InsertTimeEntry.breakStartTime insertTimeEntry);
           TimeEntry.breakEndTime :=
             truthyString (InsertTimeEntry.breakEndTime insertTimeEntry);
           TimeEntry.description := truthyString (InsertTimeEntry.description insertTimeEntry);
           TimeEntry.totalHours := JS.toString hours;
           TimeEntry.totalValue := JS.toString value;
           TimeEntry.activityCompleted :=
             truthyString (InsertTimeEntry.activityCompleted insertTimeEntry);
           TimeEntry.deliveryForecast :=
             truthyString (InsertTimeEntry.deliveryForecast insertTimeEntry);
           TimeEntry.actualDelivery :=
             truthyString (InsertTimeEntry.actualDelivery insertTimeEntry);
           TimeEntry.serviceLocation :=
             truthyString (InsertTimeEntry.serviceLocation insertTimeEntry) |} in
      Returned timeEntry (setTimeEntry id timeEntry (bumpTimeEntryId st))
  end.

(** The method never throws: it resolves to [undefined] ([None]) when the
    entry or the service is missing. *)
Definition updateTimeEntry (id : Z) (updateData : PartialTimeEntry.t) (st : t)
  : option TimeEntry.t * t :=
  match JsMap.get id (timeEntries st) with
  | None => (None, st)
  | Some timeEntry =>
      let updatedEntry := spread timeEntry updateData in
      if JS.truthy (PartialTimeEntry.startTime updateData)
         || JS.truthy (PartialTimeEntry.endTime updateData)
         || JS.truthyId (PartialTimeEntry.serviceId updateData)
      then
        let serviceId :=
          orId (PartialTimeEntry.serviceId updateData) (TimeEntry.serviceId timeEntry) in
        match JsMap.get serviceId (services st) with
        | None => (None, st)
        | Some service =>
            let startTime :=
              orString (PartialTimeEntry.startTime updateData) (TimeEntry.startTime timeEntry) in
            let endTime :=
              orString (PartialTimeEntry.endTime updateData) (TimeEntry.endTime timeEntry) in
            let '(hours, value) :=
              calculateHoursAndValue startTime endTime (Service.hourlyRate service)
                None None in
            let updatedEntry :=
              withTotals updatedEntry (JS.toString hours) (JS.toString value) in
            (Some updatedEntry, setTimeEntry id updatedEntry st)
        end
      else (Some updatedEntry, setTimeEntry id updatedEntry st)
  end.

Definition deleteTimeEntry (id : Z) (st : t) : bool * t :=
  (match JsMap.get id (timeEntries st) with Some _ => true | None => false end,
   withTimeEntries (JsMap.delete id (timeEntries st)) st).

(** [getDashboardStats(month, year)], called in month [nowMonth] (1 to 12)
    of year [nowYear]: a month or a year that is missing or [0] is taken
    from the clock. *)
Definition monthPrefix (nowYear nowMonth : Z) (month year : option Z) : string :=
  let targetYear := orId year nowYear in
  let targetMonth := orId month nowMonth in
  JS.toString (JS.ofZ targetYear) ++ "-" ++ padStart2 (JS.toString (JS.ofZ targetMonth)).

Definition consultantName (st : t) (entry : TimeEntry.t) : option string :=
  option_map Consultant.name (JsMap.get (TimeEntry.consultantId entry) (consultants st)).

Definition clientName (st : t) (entry : TimeEntry.t) : option string :=
  option_map Client.name (JsMap.get (TimeEntry.clientId entry) (clients st)).

Definition getDashboardStats (nowYear nowMonth : Z) (month year : option Z) (st : t)
  : DashboardStats.t :=
  let monthStr := monthPrefix nowYear nowMonth month year in
  let monthlyEntries :=
    filter (fun entry => prefix monthStr (TimeEntry.date entry))
           (JsMap.values (timeEntries st)) in
  let consultantMap :=
    fold_left (accumulate TimeEntry.consultantId (consultantName st)) monthlyEntries [] in
  let clientMap :=
    fold_left (accumulate TimeEntry.clientId (clientName st)) monthlyEntries [] in
  {| DashboardStats.totalClients := Z.of_nat (List.length (clients st));
     DashboardStats.monthlyHours := sumOf TimeEntry.totalHours monthlyEntries;
     DashboardStats.monthlyRevenue := sumOf TimeEntry.totalValue monthlyEntries;
     DashboardStats.activeConsultants := Z.of_nat (List.length consultantMap);
     DashboardStats.consultantStats :=
       map (fun p =>
              {| ConsultantStat.consultantId := fst p;
                 ConsultantStat.consultantName := Totals.name (snd p);
                 ConsultantStat.totalHours := Totals.hours (snd p);
                 ConsultantStat.totalValue := Totals.value (snd p) |})
           consultantMap;
     DashboardStats.clientStats :=
       map (fun p =>
              {| ClientStat.clientId := fst p;
                 ClientStat.clientName := Totals.name (snd p);
                 ClientStat.totalHours := Totals.hours (snd p);
                 ClientStat.totalValue := Totals.value (snd p) |})
           clientMap |}.

(** The entries a report is computed from: the filters whose value is
    truthy, applied one after the other. *)
Definition filterEntries (filters : Filters.t) (entries : list TimeEntry.t)
  : list TimeEntry.t :=
  let filteredEntries := entries in
  let filteredEntries :=
    match Filters.startDate filters with
    | Some (String a b) =>
        filter (fun entry => String.leb (String a b) (TimeEntry.date entry)) filteredEntries
    | _ => filteredEntries
    end in
  let filteredEntries :=
    match Filters.endDate filters with
    | Some (String a b) =>
        filter (fun entry => String.leb (TimeEntry.date entry) (String a b)) filteredEntries
    | _ => filteredEntries
    end in
  let filteredEntries :=
    match Filters.clientId filters with
    | Some 0 | None => filteredEntries
    | Some c => filter (fun entry => TimeEntry.clientId entry =? c) filteredEntries
    end in
  match Filters.consultantId filters with
  | Some 0 | None => filteredEntries
  | Some c => filter (fun entry => TimeEntry.consultantId entry =? c) filteredEntries
  end.

(** The group of one client id, or nothing when the client is not in the
    store ([if (!client) return]). *)
Definition clientGroup (st : t) (filteredEntries : list TimeEntry.t) (clientId : Z)
  : list ClientGroup.t :=
  match JsMap.get clientId (clients st) with
  | None => []
  | Some client =>
      let clientEntries :=
        filter (fun entry => TimeEntry.clientId entry =? clientId) filteredEntries in
      [ {| ClientGroup.clientId := clientId;
           ClientGroup.clientName := Client.name client;
           ClientGroup.hours := sumOf TimeEntry.totalHours clientEntries;
           ClientGroup.value := sumOf TimeEntry.totalValue clientEntries;
           ClientGroup.entries := Z.of_nat (List.length clientEntries) |} ]
  end.

Definition getReportData (filters : Filters.t) (st : t) : Report.t :=
  let filteredEntries := filterEntries filters (JsMap.values (timeEntries st)) in
  let clientIds := distinct (map TimeEntry.clientId filteredEntries) [] in
  {| Report.totalHours := sumOf TimeEntry.totalHours filteredEntries;
     Report.totalValue := sumOf TimeEntry.totalValue filteredEntries;
     Report.totalEntries := Z.of_nat (List.length filteredEntries);
     Report.totalClients := Z.of_nat (List.length clientIds);
     Report.clientBreakdown :=
       sortByValue (flat_map (clientGroup st filteredEntries) clientIds) |}.

(** [this.clients.delete(id)]: whether the key was present, and the store
    without it. *)
Definition deleteClient (id : Z) (st : t) : bool * t :=
  (match JsMap.get id (clients st) with Some _ => true | None => false end,
   {| clients := JsMap.delete id (clients st);
      consultants := consultants st;
      services := services st;
      sectors := sectors st;
      serviceTypes := serviceTypes st;
      timeEntries := timeEntries st;
      currentClientId := currentClientId st;
      currentConsultantId := currentConsultantId st;
      currentServiceId := currentServiceId st;
      currentSectorId := currentSectorId st;
      currentServiceTypeId := currentServiceTypeId st;
      currentTimeEntryId := currentTimeEntryId st |}).

(** [new MemStorage()]: the empty maps filled by [addSampleData]. *)
Definition sampleEntry (id : Z) (date : string) (serviceId : Z)
    (sectorId serviceTypeId : option Z) (startTime endTime : string)
    (breakStartTime breakEndTime : option string)
    (description activityCompleted : string) : TimeEntry.t :=
  {| TimeEntry.id := id;
     TimeEntry.date := date;
     TimeEntry.consultantId := 3;
     TimeEntry.clientId := 1;
     TimeEntry.serviceId := serviceId;
     TimeEntry.sectorId := sectorId;
     TimeEntry.serviceTypeId := serviceTypeId;
     TimeEntry.projectId := None;
     TimeEntry.startTime := startTime;
     TimeEntry.endTime := endTime;
     TimeEntry.breakStartTime := breakStartTime;
     TimeEntry.breakEndTime := breakEndTime;
     TimeEntry.description := Some description;
     TimeEntry.totalHours := "8.00";
     TimeEntry.totalValue := "1136.00";
     TimeEntry.activityCompleted := Some activityCompleted;
     TimeEntry.deliveryForecast := None;
     TimeEntry.actualDelivery := None;
     TimeEntry.serviceLocation := None |}.

Definition initial : t :=
  {| clients :=
       [ (1, {| Client.id := 1; Client.code := "CLI001"; Client.name := "SkyStoneBrasil";
                Client.cnpj := "12.345.678/0001-90"; Client.email := "contato@skystone.com.br" |});
         (2, {| Client.id := 2; Client.code := "CLI002"; Client.name := "TechCorp";
                Client.cnpj := "98.765.432/0001-10"; Client.email := "contato@techcorp.com" |});
         (3, {| Client.id := 3; Client.code := "CLI003"; Client.name := "InnovaSoft";
                Client.cnpj := "11.222.333/0001-44"; Client.email := "contato@innovasoft.com" |});
         (4, {| Client.id := 4; Client.code := "CLI004"; Client.name := "DataFlow Solutions";
                Client.cnpj := "55.666.777/0001-88"; Client.email := "contato@dataflow.com" |});
         (5, {| Client.id := 5; Client.code := "CLI005"; Client.name := "CloudTech";
                Client.cnpj := "99.888.777/0001-66"; Client.email := "contato@cloudtech.com" |}) ];
     consultants :=
       [ (1, {| Consultant.id := 1; Consultant.code := "CON001";
                Consultant.name := "João Silva"; Consultant.password := "senha123" |});
         (2, {| Consultant.id := 2; Consultant.code := "CON002";
                Consultant.name := "Maria Santos"; Consultant.password := "senha123" |});
         (3, {| Consultant.id := 3; Consultant.code := "LEON";
                Consultant.name := "Leon T. Firme"; Consultant.password := "C@sull45" |}) ];
     services :=
       [ (1, {| Service.id := 1; Service.code := "DEV001"; Service.clientId := 1;
                Service.description := "Desenvolvimento de Sistema ERP";
                Service.hourlyRate := "142" |});
         (2, {| Service.id := 2; Service.code := "CONS001"; Service.clientId := 1;
                Service.description := "Consultoria em Processos";
                Service.hourlyRate := "142" |});
         (3, {| Service.id := 3; Service.code := "SUP001"; Service.clientId := 2;
                Service.description := "Suporte Técnico";
                Service.hourlyRate := "120" |}) ];
     sectors :=
       [ (1, {| Sector.id := 1; Sector.code := "TI"; Sector.clientId := Some 1;
                Sector.description := "Tecnologia da Informação" |});
         (2, {| Sector.id := 2; Sector.code := "FIN"; Sector.clientId := Some 1;
                Sector.description := "Financeiro" |});
         (3, {| Sector.id := 3; Sector.code := "ADM"; Sector.clientId := None;
                Sector.description := "Administrativo" |}) ];
     serviceTypes :=
       [ (1, {| ServiceType.id := 1; ServiceType.code := "CONS";
                ServiceType.description := "Consultoria" |});
         (2, {| ServiceType.id := 2; ServiceType.code := "IMPL";
                ServiceType.description := "Implementação" |});
         (3, {| ServiceType.id := 3; ServiceType.code := "SUPT";
                ServiceType.description := "Suporte Técnico" |});
         (4, {| ServiceType.id := 4; ServiceType.code := "TREI";
                ServiceType.description := "Treinamento" |}) ];
     timeEntries :=
       [ (1, sampleEntry 1 "2024-12-01" 1 (Some 1) (Some 1) "08:00" "17:00"
               (Some "12:00") (Some "13:00")
               "Desenvolvimento de funcionalidades do sistema ERP"
               "Implementação completa do módulo de vendas");
         (2, sampleEntry 2 "2024-12-02" 2 (Some 2) (Some 2) "09:00" "18:00"
               (Some "12:30") (Some "13:30")
               "Consultoria em processos financeiros"
               "Revisão e otimização dos processos de faturamento");
         (3, sampleEntry 3 "2024-12-03" 1 None (Some 3) "08:30" "16:30"
               None None
               "Manutenção preventiva do sistema"
               "Sistema atualizado e funcionando perfeitamente") ];
     currentClientId := 6;
     currentConsultantId := 4;
     currentServiceId := 4;
     currentSectorId := 4;
     currentServiceTypeId := 5;
     currentTimeEntryId := 4 |}.

End MemStorage.

(** ** server/storage.ts: DatabaseStorage *)

(** The tables the time-entry methods read and write.  A table is the list
    of its rows; [time_entries.id] is a serial column fed by a sequence.
    Rows come back from a query in table order. *)
Module DatabaseStorage.

Record t : Type :=
  { clients : list Client.t;
    services : list Service.t;
    timeEntries : list TimeEntry.t;
    timeEntriesIdSeq : Z }.

(** [db.select().from(services).where(eq(services.id, id))], first row. *)
Definition getService (id : Z) (db : t) : option Service.t :=
  find (fun row => Service.id row =? id) (services db).

Definition getTimeEntry (id : Z) (db : t) : option TimeEntry.t :=
  find (fun row => TimeEntry.id row =? id) (timeEntries db).

Definition timeToMinutes (time : string) : JS.number :=
  minutesOf (hourAndMinute time).

Definition calculateHours (startTime endTime : string)
    (breakStartTime breakEndTime : option string) : JS.number :=
  let start := timeToMinutes startTime in
  let end_ := timeToMinutes endTime in
  let workMinutes := JS.sub end_ start in
  let workMinutes :=
    match breakStartTime, breakEndTime with
    | Some (String a b), Some (String c d) =>
        let breakStart := timeToMinutes (String a b) in
        let breakEnd := timeToMinutes (String c d) in
        JS.sub workMinutes (JS.sub breakEnd breakStart)
    | _, _ => workMinutes
    end in
  JS.div workMinutes (JS.ofZ 60).

(** [db.insert(timeEntries).values(v).returning()]: the row gets the next
    id of the sequence, a missing or [null] optional column is [NULL], and
    a missing [description] takes the column default [""]. *)
Definition insertRow (v : InsertTimeEntry.t) (totalHours totalValue : string) (db : t)
  : TimeEntry.t * t :=
  let row :=
    {| TimeEntry.id := timeEntriesIdSeq db;
       TimeEntry.date := InsertTimeEntry.date v;
       TimeEntry.consultantId := InsertTimeEntry.consultantId v;
       TimeEntry.clientId := InsertTimeEntry.clientId v;
       TimeEntry.serviceId := InsertTimeEntry.serviceId v;
       TimeEntry.sectorId := nullable (InsertTimeEntry.sectorId v);
       TimeEntry.serviceTypeId := nullable (InsertTimeEntry.serviceTypeId v);
       TimeEntry.projectId := nullable (InsertTimeEntry.projectId v);
       TimeEntry.startTime := InsertTimeEntry.startTime v;
       TimeEntry.endTime := InsertTimeEntry.endTime v;
       TimeEntry.breakStartTime := nullable (InsertTimeEntry.breakStartTime v);
       TimeEntry.breakEndTime := nullable (InsertTimeEntry.breakEndTime v);
       TimeEntry.description :=
         match InsertTimeEntry.description v with
         | Undefined => Some ""
         | o => nullable o
         end;
       TimeEntry.totalHours := totalHours;
       TimeEntry.totalValue := totalValue;
       TimeEntry.activityCompleted := nullable (InsertTimeEntry.activityCompleted v);
       TimeEntry.deliveryForecast := nullable (InsertTimeEntry.deliveryForecast v);
       TimeEntry.actualDelivery := nullable (InsertTimeEntry.actualDelivery v);
       TimeEntry.serviceLocation := nullable (InsertTimeEntry.serviceLocation v) |} in
  (row,
   {| clients := clients db;
      services := services db;
      timeEntries := timeEntries db ++ [row];
      timeEntriesIdSeq := timeEntriesIdSeq db + 1 |}).

(** [db.update(timeEntries).set(...).where(eq(timeEntries.id, id))]: every
    row with that id is rewritten by [change]. *)
Definition updateRows (id : Z) (change : TimeEntry.t -> TimeEntry.t) (db : t) : t :=
  {| clients := clients db;
     services := services db;
     timeEntries :=
       map (fun row => if TimeEntry.id row =? id then change row else row) (timeEntries db);
     timeEntriesIdSeq := timeEntriesIdSeq db |}.

(** [.returning()] of such an update, first row. *)
Definition returning (id : Z) (db : t) : option TimeEntry.t := getTimeEntry id db.

Definition createTimeEntry (insertTimeEntry : InsertTimeEntry.t) (db : t)
  : outcome t TimeEntry.t :=
  match getService (InsertTimeEntry.serviceId insertTimeEntry) db with
  | None => Threw "Service not found" db
  | Some service =>
      let totalHours :=
        calculateHours
          (InsertTimeEntry.startTime insertTimeEntry)
          (InsertTimeEntry.endTime insertTimeEntry)
          (nullable (InsertTimeEntry.breakStartTime insertTimeEntry))
          (nullable (InsertTimeEntry.breakEndTime insertTimeEntry)) in
      let totalValue := JS.mul totalHours (JS.parseFloat (Service.hourlyRate service)) in
      let '(timeEntry, db') :=
        insertRow insertTimeEntry (JS.toString totalHours) (JS.toString totalValue) db in
      Returned timeEntry db'
  end.

Definition updateTimeEntry (id : Z) (updateData : PartialTimeEntry.t) (db : t)
  : outcome t (option TimeEntry.t) :=
  if JS.truthy (PartialTimeEntry.startTime updateData)
     || JS.truthy (PartialTimeEntry.endTime updateData)
     || JS.truthy (truthyString (PartialTimeEntry.breakStartTime updateData))
     || JS.truthy (truthyString (PartialTimeEntry.breakEndTime updateData))
     || JS.truthyId (PartialTimeEntry.serviceId updateData)
  then
    match getTimeEntry id db with
    | None => Returned None db
    | Some existing =>
        let serviceId :=
          orId (PartialTimeEntry.serviceId updateData) (TimeEntry.serviceId existing) in
        match getService serviceId db with
        | None => Threw "Service not found" db
        | Some service =>
            let startTime :=
              orString (PartialTimeEntry.startTime updateData) (TimeEntry.startTime existing) in
            let endTime :=
              orString (PartialTimeEntry.endTime updateData) (TimeEntry.endTime existing) in
            let breakStartTime :=
              orNullable (PartialTimeEntry.breakStartTime updateData)
                (TimeEntry.breakStartTime existing) in
            let breakEndTime :=
              orNullable (PartialTimeEntry.breakEndTime updateData)
                (TimeEntry.breakEndTime existing) in
            let totalHours := calculateHours startTime endTime breakStartTime breakEndTime in
            let totalValue := JS.mul totalHours (JS.parseFloat (Service.hourlyRate service)) in
            let db' :=
              updateRows id
                (fun row =>
                   withTotals (spread row updateData)
                     (JS.toString totalHours) (JS.toString totalValue)) db in
            Returned (returning id db') db'
        end
    end
  else
    let db' := updateRows id (fun row => spread row updateData) db in
    Returned (returning id db') db'.

(** [db.delete(timeEntries).where(eq(timeEntries.id, id))]: the rows with
    that id are removed, and [rowCount] is their number. *)
Definition deleteTimeEntry (id : Z) (db : t) : bool * t :=
  let kept := filter (fun row => negb (TimeEntry.id row =? id)) (timeEntries db) in
  let rowCount := Z.of_nat (List.length (timeEntries db)) - Z.of_nat (List.length kept) in
  (0 <? rowCount,
   {| clients := clients db;
      services := services db;
      timeEntries := kept;
      timeEntriesIdSeq := timeEntriesIdSeq db |}).

(** A row of [time_entries] left-joined with its client. *)
Definition joined : Type := TimeEntry.t * option Client.t.

Definition leftJoinClients (db : t) (rows : list TimeEntry.t) : list joined :=
  map (fun row =>
         (row, find (fun c => Client.id c =? TimeEntry.clientId row) (clients db)))
      rows.

(** The conjunction of the conditions pushed for the truthy filters. *)
Definition conditions (filters : Filters.t) (row : TimeEntry.t) : bool :=
  match Filters.startDate filters with
  | Some (String a b) => String.leb (String a b) (TimeEntry.date row)
  | _ => true
  end
  && match Filters.endDate filters with
     | Some (String a b) => String.leb (TimeEntry.date row) (String a b)
     | _ => true
     end
  && match Filters.clientId filters with
     | Some 0 | None => true
     | Some c => TimeEntry.clientId row =? c
     end
  && match Filters.consultantId filters with
     | Some 0 | None => true
     | Some c => TimeEntry.consultantId row =? c
     end.

Definition hoursOf (entry : joined) : string := TimeEntry.totalHours (fst entry).
Definition valueOf (entry : joined) : string := TimeEntry.totalValue (fst entry).

(** The group of one client id; a group whose client row is missing is
    named ['Unknown']. *)
Definition clientGroup (entries : list joined) (clientId : Z) : ClientGroup.t :=
  let clientEntries :=
    filter (fun entry => TimeEntry.clientId (fst entry) =? clientId) entries in
  let clientName :=
    match clientEntries with
    | (_, Some client) :: _ =>
        match Client.name client with
        | EmptyString => "Unknown"
        | n => n
        end
    | _ => "Unknown"
    end in
  {| ClientGroup.clientId := clientId;
     ClientGroup.clientName := clientName;
     ClientGroup.hours := sumOf hoursOf clientEntries;
     ClientGroup.value := sumOf valueOf clientEntries;
     ClientGroup.entries := Z.of_nat (List.length clientEntries) |}.

Definition getReportData (filters : Filters.t) (db : t) : Report.t :=
  let entries := leftJoinClients db (filter (conditions filters) (timeEntries db)) in
  let uniqueClients := distinct (map (fun entry => TimeEntry.clientId (fst entry)) entries) [] in
  {| Report.totalHours := sumOf hoursOf entries;
     Report.totalValue := sumOf valueOf entries;
     Report.totalEntries := Z.of_nat (List.length entries);
     Report.totalClients := Z.of_nat (List.length uniqueClients);
     Report.clientBreakdown := sortByValue (map (clientGroup entries) uniqueClients) |}.

End DatabaseStorage.

(** ** server/routes.ts: billing helpers and the time-entry routes *)

Module Routes.

(** What a synchronous helper completes with. *)
Inductive completion (A : Type) : Type :=
| Normal (a : A)
| TypeError.
Arguments Normal {A} a.
Arguments TypeError {A}.

(** The fields the billing helpers read of their argument [entry: any]:
    [entry.service] may be missing, and so may its [hourlyRate]. *)
Record serviceRef : Type := { hourlyRate : option string }.

Record billingEntry : Type :=
  { startTime : string;
    endTime : string;
    breakStartTime : option string;
    breakEndTime : option string;
    service : option serviceRef }.

Definition twoDigits (a b : ascii) : option Z :=
  if JS.isDigit a && JS.isDigit b then Some (10 * JS.digitVal a + JS.digitVal b)
  else None.

(** [new Date(`2000-01-01T${time}`).getTime()] for a time of the form
    [HH:mm] or [HH:mm:ss], read as local time [utcOffset] minutes ahead of
    UTC; any other string is taken as an invalid date, whose time is
    [NaN]. *)
Definition getTime (utcOffset : Z) (time : string) : JS.number :=
  match time with
  | String a (String b (String ":" (String c (String d rest)))) =>
      match twoDigits a b, twoDigits c d with
      | Some h, Some m =>
          let seconds :=
            match rest with
            | EmptyString => Some 0
            | String ":" (String e (String f EmptyString)) => twoDigits e f
            | _ => None
            end in
          match seconds with
          | Some s =>
              if (h <=? 23) && (m <=? 59) && (s <=? 59)
              then JS.ofZ (946684800000 - utcOffset * 60000
                           + ((h * 60 + m) * 60 + s) * 1000)
              else JS.NaN
          | None => JS.NaN
          end
      | _, _ => JS.NaN
      end
  | _ => JS.NaN
  end.

Definition calculateEntryHours (utcOffset : Z) (entry : billingEntry) : JS.number :=
  let start := getTime utcOffset (startTime entry) in
  let end_ := getTime utcOffset (endTime entry) in
  let hours := JS.div (JS.sub end_ start) (JS.ofZ (1000 * 60 * 60)) in
  match breakStartTime entry, breakEndTime entry with
  | Some (String a b), Some (String c d) =>
      let breakStart := getTime utcOffset (String a b) in
      let breakEnd := getTime utcOffset (String c d) in
      let breakHours := JS.div (JS.sub breakEnd breakStart) (JS.ofZ (1000 * 60 * 60)) in
      JS.sub hours breakHours
  | _, _ => hours
  end.

(** [parseFloat(entry.service.hourlyRate) || 0]; reading [hourlyRate] of a
    missing [service] is a [TypeError]. *)
Definition calculateEntryValue (utcOffset : Z) (entry : billingEntry)
  : completion JS.number :=
  let hours := calculateEntryHours utcOffset entry in
  match service entry with
  | None => TypeError
  | Some svc =>
      let parsed :=
        match hourlyRate svc with
        | Some s => JS.parseFloat s
        | None => JS.NaN
        end in
      let hourlyRate := if JS.truthyNumber parsed then parsed else JS.ofZ 0 in
      Normal (JS.mul hours hourlyRate)
  end.

(** The response of a route: a status with the entry as JSON, or a status
    with a message. *)
Inductive response : Type :=
| Json (status : Z) (entry : TimeEntry.t)
| Message (status : Z) (message : string).

(** [POST /api/time-entries] on a body that [insertTimeEntrySchema]
    parses (a body of another shape is answered 400 "Invalid data"). *)
Definition postTimeEntry (body : InsertTimeEntry.t) (db : DatabaseStorage.t)
  : response * DatabaseStorage.t :=
  match DatabaseStorage.createTimeEntry body db with
  | Returned timeEntry db' => (Json 201 timeEntry, db')
  | Threw _ db' => (Message 500 "Failed to create time entry", db')
  end.


(** [GET /api/time-entries]: with a month and a year that are both truthy,
    the entries are asked for between the first and the 31st of the month,
    as date strings; otherwise all entries are asked for. *)
Definition monthRange (month year : option Z) : option (string * string) :=
  match month, year with
  | Some m, Some y =>
      if JS.truthyId month && JS.truthyId year then
        let monthStr := padStart2 (JS.toString (JS.ofZ m)) in
        let startDate := JS.toString (JS.ofZ y) ++ "-" ++ monthStr ++ "-01" in
        let endDate := JS.toString (JS.ofZ y) ++ "-" ++ monthStr ++ "-31" in
        Some (startDate, endDate)
      else None
  | _, _ => None
  end.

(** [POST /api/billing/generate-pdf]: the totals and the summary lines of
    the selected entries.  An entry is handed to the billing helpers as it
    comes from the store, with its service. *)
Definition billingOf (d : TimeEntryDetailed.t) : billingEntry :=
  {| startTime := TimeEntry.startTime (TimeEntryDetailed.entry d);
     endTime := TimeEntry.endTime (TimeEntryDetailed.entry d);
     breakStartTime := TimeEntry.breakStartTime (TimeEntryDetailed.entry d);
     breakEndTime := TimeEntry.breakEndTime (TimeEntryDetailed.entry d);
     service := Some {| hourlyRate := Some (Service.hourlyRate (TimeEntryDetailed.service d)) |} |}.

Definition sectorName (sectorId : option Z) : string :=
  match sectorId with
  | Some 0 | None => "Sem Setor"
  | Some id => "Setor " ++ JS.toString (JS.ofZ id)
  end.

(** [groups.find(...)] followed by the update of the line found, or by the
    [push] of a new line when there is none. *)
Fixpoint addToGroup (project sector : string) (hours value : JS.number)
    (groups : list BillingGroup.t) : list BillingGroup.t :=
  match groups with
  | [] =>
      [ {| BillingGroup.project := project;
           BillingGroup.sector := sector;
           BillingGroup.serviceType := "Padrão";
           BillingGroup.hours := hours;
           BillingGroup.value := value;
           BillingGroup.entries := 1 |} ]
  | g :: r =>
      if (BillingGroup.project g =? project)%string
         && (BillingGroup.sector g =? sector)%string
         && (BillingGroup.serviceType g =? "Padrão")%string
      then
        {| BillingGroup.project := BillingGroup.project g;
           BillingGroup.sector := BillingGroup.sector g;
           BillingGroup.serviceType := BillingGroup.serviceType g;
           BillingGroup.hours := JS.add (BillingGroup.hours g) hours;
           BillingGroup.value := JS.add (BillingGroup.value g) value;
           BillingGroup.entries := BillingGroup.entries g + 1 |} :: r
      else g :: addToGroup project sector hours value r
  end.

Definition groupStep (utcOffset : Z) (groups : completion (list BillingGroup.t))
    (d : TimeEntryDetailed.t) : completion (list BillingGroup.t) :=
  match groups with
  | TypeError => TypeError
  | Normal groups =>
      let hours := calculateEntryHours utcOffset (billingOf d) in
      match calculateEntryValue utcOffset (billingOf d) with
      | TypeError => TypeError
      | Normal value =>
          Normal (addToGroup (Service.description (TimeEntryDetailed.service d))
                             (sectorName (TimeEntry.sectorId (TimeEntryDetailed.entry d)))
                             hours value groups)
      end
  end.

Definition groupedData (utcOffset : Z) (selectedEntries : list TimeEntryDetailed.t)
  : completion (list BillingGroup.t) :=
  fold_left (groupStep utcOffset) selectedEntries (Normal []).

(** The response of a route that sends no entry: a status alone, or a
    status with a message. *)
Inductive reply : Type :=
| Empty (status : Z)
| Text (status : Z) (message : string).

(** [DELETE /api/time-entries/:id], for an id that [parseInt] reads. *)
Definition deleteTimeEntry (id : Z) (db : DatabaseStorage.t) : reply * DatabaseStorage.t :=
  let '(deleted, db') := DatabaseStorage.deleteTimeEntry id db in
  if deleted then (Empty 204, db') else (Text 404 "Time entry not found", db').

End Routes.

(** ** Vocabulary of the specification *)

Definition digitChar (d : Z) : ascii := ascii_of_N (Z.to_N (48 + d)).

Definition twoDigit (n : Z) : string :=
  String (digitChar (n / 10)) (String (digitChar (n mod 10)) EmptyString).

(** The well-formed time string [HH:MM] of hour [h] and minute [m]. *)
Definition clock (h m : Z) : string := twoDigit h ++ ":" ++ twoDigit m.

Definition validClock (h m : Z) : Prop := 0 <= h < 24 /\ 0 <= m < 60.

(** Minutes since midnight. *)
Definition minutes (h m : Z) : Z := 60 * h + m.

(** The integers [0 .. n-1]. *)
Definition upto (n : nat) : list Z := map Z.of_nat (seq 0 n).

(** A request body for a new entry of consultant 3. *)
Definition newEntry (clientId serviceId : Z) (startTime endTime : string)
    (breakStartTime breakEndTime : optional string) : InsertTimeEntry.t :=
  {| InsertTimeEntry.date := "2024-12-04";
     InsertTimeEntry.consultantId := 3;
     InsertTimeEntry.clientId := clientId;
     InsertTimeEntry.serviceId := serviceId;
     InsertTimeEntry.sectorId := Undefined;
     InsertTimeEntry.serviceTypeId := Undefined;
     InsertTimeEntry.projectId := Undefined;
     InsertTimeEntry.startTime := startTime;
     InsertTimeEntry.endTime := endTime;
     InsertTimeEntry.breakStartTime := breakStartTime;
     InsertTimeEntry.breakEndTime := breakEndTime;
     InsertTimeEntry.description := Undefined;
     InsertTimeEntry.activityCompleted := Undefined;
     InsertTimeEntry.deliveryForecast := Undefined;
     InsertTimeEntry.actualDelivery := Undefined;
     InsertTimeEntry.serviceLocation := Undefined |}.

(** An update body that names at most these fields. *)
Definition patch (startTime endTime : option string)
    (breakStartTime breakEndTime : optional string)
    (serviceId : option Z) (projectId : optional Z) : PartialTimeEntry.t :=
  {| PartialTimeEntry.date := None;
     PartialTimeEntry.consultantId := None;
     PartialTimeEntry.clientId := None;
     PartialTimeEntry.serviceId := serviceId;
     PartialTimeEntry.sectorId := Undefined;
     PartialTimeEntry.serviceTypeId := Undefined;
     PartialTimeEntry.projectId := projectId;
     PartialTimeEntry.startTime := startTime;
     PartialTimeEntry.endTime := endTime;
     PartialTimeEntry.breakStartTime := breakStartTime;
     PartialTimeEntry.breakEndTime := breakEndTime;
     PartialTimeEntry.description := Undefined;
     PartialTimeEntry.activityCompleted := Undefined;
     PartialTimeEntry.deliveryForecast := Undefined;
     PartialTimeEntry.actualDelivery := Undefined;
     PartialTimeEntry.serviceLocation := Undefined |}.

(** A database that holds the sample rows of [MemStorage]. *)
Definition seeded : DatabaseStorage.t :=
  {| DatabaseStorage.clients := JsMap.values (MemStorage.clients MemStorage.initial);
     DatabaseStorage.services := JsMap.values (MemStorage.services MemStorage.initial);
     DatabaseStorage.timeEntries := JsMap.values (MemStorage.timeEntries MemStorage.initial);
     DatabaseStorage.timeEntriesIdSeq := 4 |}.


Definition isNaN (x : JS.number) : bool :=
  match x with
  | S754_nan => true
  | _ => false
  end.



(** The hours that the duration calculation of a store derives from the
    time fields an entry holds. *)
Definition derivedHoursMem (rate : string) (e : TimeEntry.t) : JS.number :=
  fst (MemStorage.calculateHoursAndValue (TimeEntry.startTime e) (TimeEntry.endTime e) rate
         (TimeEntry.breakStartTime e) (TimeEntry.breakEndTime e)).

Definition derivedHoursDb (e : TimeEntry.t) : JS.number :=
  DatabaseStorage.calculateHours (TimeEntry.startTime e) (TimeEntry.endTime e)
    (TimeEntry.breakStartTime e) (TimeEntry.breakEndTime e).

(** A billing entry from 08:00 to 17:00 whose service carries no rate. *)
Definition entryWithoutRate : Routes.billingEntry :=
  {| Routes.startTime := "08:00"; Routes.endTime := "17:00";
     Routes.breakStartTime := None; Routes.breakEndTime := None;
     Routes.service := Some {| Routes.hourlyRate := None |} |}.


(** The entries of a list that belong to client [c]. *)
Definition ofClient (c : Z) (entries : list TimeEntry.t) : list TimeEntry.t :=
  filter (fun entry => TimeEntry.clientId entry =? c) entries.

(** Sums over the groups of a breakdown, in the order of the breakdown. *)
Definition sumEntries (gs : list ClientGroup.t) : Z :=
  fold_right (fun g n => ClientGroup.entries g + n) 0 gs.




Definition noFilters : Filters.t :=
  {| Filters.startDate := None; Filters.endDate := None;
     Filters.clientId := None; Filters.consultantId := None |}.

(** The sample database with the given rows in [time_entries]. *)
Definition withRows (rows : list TimeEntry.t) : DatabaseStorage.t :=
  {| DatabaseStorage.clients := DatabaseStorage.clients seeded;
     DatabaseStorage.services := DatabaseStorage.services seeded;
     DatabaseStorage.timeEntries := rows;
     DatabaseStorage.timeEntriesIdSeq := 10 |}.

(** Whether client [c] is in the store. *)
Definition hasClient (st : MemStorage.t) (c : Z) : bool :=
  match JsMap.get c (MemStorage.clients st) with
  | Some _ => true
  | None => false
  end.


(** The group of client [c] over the entries [rows], as each store builds
    it for a client that occurs in [rows]. *)
Definition memGroup (st : MemStorage.t) (rows : list TimeEntry.t) (c : Z) : ClientGroup.t :=
  {| ClientGroup.clientId := c;
     ClientGroup.clientName :=
       match JsMap.get c (MemStorage.clients st) with
       | Some client => Client.name client
       | None => EmptyString
       end;
     ClientGroup.hours := sumOf TimeEntry.totalHours (ofClient c rows);
     ClientGroup.value := sumOf TimeEntry.totalValue (ofClient c rows);
     ClientGroup.entries := Z.of_nat (List.length (ofClient c rows)) |}.

Definition dbGroup (db : DatabaseStorage.t) (rows : list TimeEntry.t) (c : Z) : ClientGroup.t :=
  {| ClientGroup.clientId := c;
     ClientGroup.clientName :=
       match find (fun client => Client.id client =? c) (DatabaseStorage.clients db) with
       | Some client =>
           match Client.name client with
           | EmptyString => "Unknown"
           | n => n
           end
       | None => "Unknown"
       end;
     ClientGroup.hours := sumOf TimeEntry.totalHours (ofClient c rows);
     ClientGroup.value := sumOf TimeEntry.totalValue (ofClient c rows);
     ClientGroup.entries := Z.of_nat (List.length (ofClient c rows)) |}.


(** The database after a [createTimeEntry] call. *)
Definition inserting (db : DatabaseStorage.t) (body : InsertTimeEntry.t)
  : DatabaseStorage.t :=
  match DatabaseStorage.createTimeEntry body db with
  | Returned _ db' => db'
  | Threw _ db' => db'
  end.

(** Entries of 6, 12 and 18 minutes (0.1, 0.2 and 0.3 hours): the first
    for client [c1], the other two for client [c2]. *)
Definition shortEntries (c1 c2 : Z) : list InsertTimeEntry.t :=
  [ newEntry c1 1 "00:00" "00:06" Undefined Undefined;
    newEntry c2 1 "00:00" "00:12" Undefined Undefined;
    newEntry c2 1 "00:00" "00:18" Undefined Undefined ].

(** The database after these three entries are created in it. *)
Definition shortRows (c1 c2 : Z) : DatabaseStorage.t :=
  fold_left inserting (shortEntries c1 c2) (withRows []).


(** ** Vocabulary of the properties of the stores *)

(** Every client of the store is filed under its own id, no id is filed
    twice, and every id is below the next one to hand out. *)
Definition clientsKeyed (st : MemStorage.t) : Prop :=
  NoDup (map fst (MemStorage.clients st))
  /\ Forall (fun p => Client.id (snd p) = fst p /\ fst p < MemStorage.currentClientId st)
            (MemStorage.clients st).

(** The same for the time entries. *)
Definition timeEntriesKeyed (st : MemStorage.t) : Prop :=
  NoDup (map fst (MemStorage.timeEntries st))
  /\ Forall (fun p => TimeEntry.id (snd p) = fst p /\ fst p < MemStorage.currentTimeEntryId st)
            (MemStorage.timeEntries st).

(** The ids of the rows of [time_entries] are distinct and below the next
    value of the sequence. *)
Definition rowsKeyed (db : DatabaseStorage.t) : Prop :=
  NoDup (map TimeEntry.id (DatabaseStorage.timeEntries db))
  /\ Forall (fun row => TimeEntry.id row < DatabaseStorage.timeEntriesIdSeq db)
            (DatabaseStorage.timeEntries db).

(** The consultant, the client and the service of an entry are all in the
    store. *)
Definition resolves (st : MemStorage.t) (entry : TimeEntry.t) : bool :=
  match JsMap.get (TimeEntry.consultantId entry) (MemStorage.consultants st),
        JsMap.get (TimeEntry.clientId entry) (MemStorage.clients st),
        JsMap.get (TimeEntry.serviceId entry) (MemStorage.services st) with
  | Some _, Some _, Some _ => true
  | _, _, _ => false
  end.

(** An update asks [MemStorage.updateTimeEntry] for a recalculation. *)
Definition recalculates (u : PartialTimeEntry.t) : bool :=
  JS.truthy (PartialTimeEntry.startTime u)
  || JS.truthy (PartialTimeEntry.endTime u)
  || JS.truthyId (PartialTimeEntry.serviceId u).


(** A string without a colon. *)
Fixpoint colonFree (s : string) : bool :=
  match s with
  | EmptyString => true
  | String c r => negb (c =? ":")%char && colonFree r
  end.

(** A billing entry with the given times and no break. *)
Definition spanEntry (startTime endTime : string) (service : option Routes.serviceRef)
  : Routes.billingEntry :=
  {| Routes.startTime := startTime; Routes.endTime := endTime;
     Routes.breakStartTime := None; Routes.breakEndTime := None;
     Routes.service := service |}.

(** A billing entry with the given times and break. *)
Definition pausedEntry (startTime endTime breakStartTime breakEndTime : string)
    (service : option Routes.serviceRef) : Routes.billingEntry :=
  {| Routes.startTime := startTime; Routes.endTime := endTime;
     Routes.breakStartTime := Some breakStartTime; Routes.breakEndTime := Some breakEndTime;
     Routes.service := service |}.

(** The order the comparator [(a, b) => b.value - a.value] asks for: no
    group is followed by one that the comparator puts before it. *)
Fixpoint byValueDescending (gs : list ClientGroup.t) : Prop :=
  match gs with
  | [] => True
  | a :: r =>
      match r with
      | [] => True
      | b :: _ => SFltb (JS.ofZ 0) (JS.sub (ClientGroup.value b) (ClientGroup.value a)) = false
      end
      /\ byValueDescending r
  end.

(** Whether consultant [k] is in the store. *)
Definition hasConsultant (st : MemStorage.t) (k : Z) : bool :=
  match JsMap.get k (MemStorage.consultants st) with
  | Some _ => true
  | None => false
  end.

(** The statistics of consultant [k], and of client [k], over the entries
    [monthly]: the name the store has for [k] and the sums of the hours and
    of the values of the entries of [k], taken from left to right. *)
Definition consultantStatOf (st : MemStorage.t) (monthly : list TimeEntry.t) (k : Z)
  : ConsultantStat.t :=
  let mine := filter (fun e => TimeEntry.consultantId e =? k) monthly in
  {| ConsultantStat.consultantId := k;
     ConsultantStat.consultantName :=
       match JsMap.get k (MemStorage.consultants st) with
       | Some consultant => Consultant.name consultant
       | None => EmptyString
       end;
     ConsultantStat.totalHours := sumOf TimeEntry.totalHours mine;
     ConsultantStat.totalValue := sumOf TimeEntry.totalValue mine |}.

Definition clientStatOf (st : MemStorage.t) (monthly : list TimeEntry.t) (k : Z)
  : ClientStat.t :=
  let mine := filter (fun e => TimeEntry.clientId e =? k) monthly in
  {| ClientStat.clientId := k;
     ClientStat.clientName :=
       match JsMap.get k (MemStorage.clients st) with
       | Some client => Client.name client
       | None => EmptyString
       end;
     ClientStat.totalHours := sumOf TimeEntry.totalHours mine;
     ClientStat.totalValue := sumOf TimeEntry.totalValue mine |}.

(** The line of the invoice summary an entry goes to: the description of
    its service and the name of its sector. *)
Definition lineOf (d : TimeEntryDetailed.t) : string * string :=
  (Service.description (TimeEntryDetailed.service d),
   Routes.sectorName (TimeEntry.sectorId (TimeEntryDetailed.entry d))).

Definition lineKey (g : BillingGroup.t) : string * string :=
  (BillingGroup.project g, BillingGroup.sector g).

Definition sameLine (a b : string * string) : bool :=
  (fst a =? fst b)%string && (snd a =? snd b)%string.

(** The line [g] after one more entry of [hours] and [value]. *)
Definition bumped (hours value : JS.number) (g : BillingGroup.t) : BillingGroup.t :=
  {| BillingGroup.project := BillingGroup.project g;
     BillingGroup.sector := BillingGroup.sector g;
     BillingGroup.serviceType := BillingGroup.serviceType g;
     BillingGroup.hours := JS.add (BillingGroup.hours g) hours;
     BillingGroup.value := JS.add (BillingGroup.value g) value;
     BillingGroup.entries := BillingGroup.entries g + 1 |}.

(** The number of entries that go to line [k]. *)
Definition entriesOf (k : string * string) (selected : list TimeEntryDetailed.t) : Z :=
  Z.of_nat (List.length (filter (fun d => sameLine (lineOf d) k) selected)).

(** The sum of the entry counts of the lines. *)
Definition countedEntries (groups : list BillingGroup.t) : Z :=
  fold_right (fun g n => BillingGroup.entries g + n) 0 groups.


(** * Properties *)

(** ** Rounding of binary floats *)

Section BinaryLemmas.

Variables prec emax : Z.

Lemma iter_pos_nat {A : Type} (f : A -> A) (p : positive) (x : A) :
  iter_pos f p x = Nat.iter (Pos.to_nat p) f x.
Proof.
  revert x; induction p as [p IH | p IH | ]; intros x; cbn [iter_pos].
  - rewrite !IH, Pos2Nat.inj_xI.
    replace (S (2 * Pos.to_nat p))%nat with (Pos.to_nat p + (Pos.to_nat p + 1))%nat by lia.
    rewrite !Nat.iter_add. reflexivity.
  - rewrite !IH, Pos2Nat.inj_xO.
    replace (2 * Pos.to_nat p)%nat with (Pos.to_nat p + Pos.to_nat p)%nat by lia.
    rewrite Nat.iter_add. reflexivity.
  - reflexivity.
Qed.

Lemma iter_pos_succ_r {A : Type} (f : A -> A) (p : positive) (x : A) :
  iter_pos f (Pos.succ p) x = iter_pos f p (f x).
Proof.
  rewrite !iter_pos_nat, Pos2Nat.inj_succ, Nat.iter_succ_r. reflexivity.
Qed.

Lemma digits2_pos_xO (m : positive) :
  Zpos (digits2_pos m~0) = Zpos (digits2_pos m) + 1.
Proof. cbn [digits2_pos]. lia. Qed.

(** Doubling the mantissa and decrementing the exponent does not change
    what [binary_round] returns. *)
Lemma binary_round_double (s : bool) (m : positive) (e : Z) :
  binary_round prec emax s m~0 (e - 1) = binary_round prec emax s m e.
Proof.
  unfold binary_round.
  rewrite digits2_pos_xO.
  replace (Zpos (digits2_pos m) + 1 + (e - 1)) with (Zpos (digits2_pos m) + e) by lia.
  remember (fexp prec emax (Zpos (digits2_pos m) + e)) as f eqn:Hf.
  unfold shl_align.
  destruct (Z.compare_spec f e) as [Heq | Hlt | Hgt].
  - (* f = e : the doubled mantissa is shifted right once *)
    replace (f - (e - 1)) with 1 by lia.
    replace (f - e) with 0 by lia.
    unfold binary_round_aux, shr_fexp.
    cbn [Zdigits2]. rewrite digits2_pos_xO.
    replace (Zpos (digits2_pos m) + 1 + (e - 1)) with (Zpos (digits2_pos m) + e) by lia.
    rewrite <- Hf.
    replace (f - (e - 1)) with 1 by lia.
    replace (f - e) with 0 by lia.
    cbn [shr shr_record_of_loc iter_pos shr_1 orb].
    replace (e - 1 + 1) with e by lia. reflexivity.
  - (* f < e *)
    destruct (f - e) as [ | d | d] eqn:Hd; try lia.
    destruct (f - (e - 1)) as [ | d' | d'] eqn:Hd'; try lia.
    + assert (d = 1%positive) by lia. subst d.
      replace (e - 1) with f by lia. reflexivity.
    + assert (d = Pos.succ d') by lia. subst d.
      rewrite Pos.iter_succ_r. reflexivity.
  - (* e < f *)
    destruct (f - e) as [ | d | d] eqn:Hd; try lia.
    destruct (f - (e - 1)) as [ | d' | d'] eqn:Hd'; try lia.
    assert (d' = Pos.succ d) by lia. subst d'.
    unfold binary_round_aux, shr_fexp.
    cbn [Zdigits2]. rewrite digits2_pos_xO.
    replace (Zpos (digits2_pos m) + 1 + (e - 1)) with (Zpos (digits2_pos m) + e) by lia.
    rewrite <- Hf, Hd, Hd'.
    cbn [shr shr_record_of_loc].
    rewrite iter_pos_succ_r. cbn [shr_1 orb].
    replace (e - 1 + Zpos (Pos.succ d)) with (e + Zpos d) by lia.
    reflexivity.
Qed.

Lemma binary_round_shift (s : bool) (m : positive) (e : Z) (k : nat) :
  binary_round prec emax s (Pos.iter xO m (Pos.of_succ_nat k)) (e - Z.of_nat (S k))
  = binary_round prec emax s m e.
Proof.
  revert m e; induction k as [ | k IH]; intros m e.
  - cbn [Pos.of_succ_nat Pos.iter]. apply binary_round_double.
  - replace (Pos.of_succ_nat (S k)) with (Pos.succ (Pos.of_succ_nat k)) by reflexivity.
    rewrite Pos.iter_succ_r.
    replace (e - Z.of_nat (S (S k))) with ((e - 1) - Z.of_nat (S k)) by lia.
    rewrite IH. apply binary_round_double.
Qed.


Lemma iter_xO_value (m k : positive) :
  Zpos (Pos.iter xO m k) = Zpos m * 2 ^ Zpos k.
Proof.
  change (Pos.iter xO m k) with (Zpower.shift_pos k m).
  rewrite Zpower.shift_pos_correct. change (Z.pow_pos 2 k) with (2 ^ Zpos k). lia.
Qed.

Lemma binary_normalize_shift (z e : Z) (k : Z) (sz : bool) :
  0 <= k ->
  binary_normalize prec emax (z * 2 ^ k) (e - k) sz = binary_normalize prec emax z e sz.
Proof.
  intros Hk.
  destruct (Z.eq_dec k 0) as [-> | Hne].
  { rewrite Z.pow_0_r, Z.mul_1_r, Z.sub_0_r. reflexivity. }
  destruct k as [ | k | k]; try lia.
  destruct (Pos2Nat.is_succ k) as [n Hn].
  assert (Hk' : Zpos k = Z.of_nat (S n)) by lia.
  assert (Hp : k = Pos.of_succ_nat n) by lia.
  destruct z as [ | p | p].
  - reflexivity.
  - replace (Zpos p * 2 ^ Zpos k) with (Zpos (Pos.iter xO p k)) by apply iter_xO_value.
    cbn [binary_normalize]. rewrite Hk', Hp. apply binary_round_shift.
  - replace (Zneg p * 2 ^ Zpos k) with (Zneg (Pos.iter xO p k)).
    2:{ rewrite <- !Pos2Z.opp_pos, iter_xO_value. lia. }
    cbn [binary_normalize]. rewrite Hk', Hp. apply binary_round_shift.
Qed.

Lemma shl_align_value (m : positive) (e e' : Z) :
  e' <= e ->
  Zpos (fst (shl_align m e e')) = Zpos m * 2 ^ (e - e').
Proof.
  intros He. unfold shl_align.
  destruct (e' - e) as [ | d | d] eqn:Hd; try lia; cbn [fst].
  - replace (e - e') with 0 by lia. lia.
  - rewrite iter_xO_value. f_equal. f_equal. lia.
Qed.

End BinaryLemmas.

(** ** binary64 *)

Lemma digits2_pos_iter_xO (m k : positive) :
  Zpos (digits2_pos (Pos.iter xO m k)) = Zpos (digits2_pos m) + Zpos k.
Proof.
  induction k as [ | k IH] using Pos.peano_ind.
  - cbn. lia.
  - rewrite Pos.iter_succ. cbn [digits2_pos]. lia.
Qed.

(** A mantissa that already has its canonical exponent is returned as it is. *)
Lemma binary_round_aux_canonical (s : bool) (m : positive) (e : Z) :
  fexp JS.prec JS.emax (Zpos (digits2_pos m) + e) = e ->
  e <= JS.emax - JS.prec ->
  binary_round_aux JS.prec JS.emax s (Zpos m) e loc_Exact = S754_finite s m e.
Proof.
  intros Hc He.
  unfold binary_round_aux, shr_fexp. cbn [Zdigits2 shr_record_of_loc].
  rewrite Hc, Z.sub_diag. cbn [shr shr_m loc_of_shr_record round_nearest_even Zdigits2].
  rewrite Hc, Z.sub_diag. cbn [shr shr_m].
  destruct (Z.leb_spec e (JS.emax - JS.prec)); [reflexivity | lia].
Qed.

(** The float of a non-zero integer of at most 53 bits: its sign, the
    mantissa shifted to 53 bits, and the matching exponent. *)
Lemma ofZ_finite (s : bool) (p : positive) :
  Zpos (digits2_pos p) <= 53 ->
  let e := Zpos (digits2_pos p) - 53 in
  JS.ofZ (cond_Zopp s (Zpos p)) = S754_finite s (fst (shl_align p 0 e)) e.
Proof.
  intros Hd e.
  assert (He : e = Zpos (digits2_pos p) - 53) by reflexivity. clearbody e.
  assert (Hround : binary_round JS.prec JS.emax s p 0 = S754_finite s (fst (shl_align p 0 e)) e).
  { unfold binary_round.
    assert (Hf : fexp JS.prec JS.emax (Zpos (digits2_pos p) + 0) = e).
    { unfold fexp, emin, JS.prec, JS.emax. lia. }
    rewrite Hf.
    destruct (shl_align p 0 e) as [mz ez] eqn:Hs. cbn [fst].
    unfold shl_align in Hs.
    destruct (e - 0) as [ | d | d] eqn:Hd0; try lia.
    - injection Hs as <- <-.
      assert (H0 : e = 0) by lia. rewrite H0 in Hf |- *.
      apply binary_round_aux_canonical; [ exact Hf | unfold JS.emax, JS.prec; lia].
    - injection Hs as <- <-.
      apply binary_round_aux_canonical; [ | unfold JS.emax, JS.prec; lia].
      rewrite digits2_pos_iter_xO.
      unfold fexp, emin, JS.prec, JS.emax. lia. }
  unfold JS.ofZ. destruct s; cbn [cond_Zopp Z.opp binary_normalize]; exact Hround.
Qed.

Lemma digits2_pos_le (p : positive) (k : Z) :
  0 <= k -> Zpos p < 2 ^ k -> Zpos (digits2_pos p) <= k.
Proof.
  intros Hk Hp.
  assert (Hsize : forall q, digits2_pos q = Pos.size q).
  { induction q as [q IH | q IH | ]; cbn [digits2_pos Pos.size]; rewrite ?IH; reflexivity. }
  rewrite Hsize.
  pose proof (Pos.size_le p) as Hle.
  apply Pos2Z.pos_le_pos in Hle. rewrite Pos2Z.inj_pow in Hle.
  change (Zpos p~0) with (2 * Zpos p) in Hle.
  destruct (Z.le_gt_cases (Zpos (Pos.size p)) k) as [ | Hgt]; [assumption | exfalso].
  assert (2 ^ (k + 1) <= 2 ^ Zpos (Pos.size p)) by (apply Z.pow_le_mono_r; lia).
  rewrite Z.pow_add_r in H by lia. lia.
Qed.

Lemma cond_Zopp_mul (s : bool) (x y : Z) : cond_Zopp s x * y = cond_Zopp s (x * y).
Proof. destruct s; cbn [cond_Zopp]; lia. Qed.

(** Subtraction of two integers of at most 53 bits is the float of their
    difference. *)
Lemma sub_exact_finite (s1 s2 : bool) (p1 p2 : positive) :
  Zpos (digits2_pos p1) <= 53 -> Zpos (digits2_pos p2) <= 53 ->
  JS.sub (JS.ofZ (cond_Zopp s1 (Zpos p1))) (JS.ofZ (cond_Zopp s2 (Zpos p2)))
  = JS.ofZ (cond_Zopp s1 (Zpos p1) - cond_Zopp s2 (Zpos p2)).
Proof.
  intros H1 H2.
  rewrite (ofZ_finite s1 p1 H1), (ofZ_finite s2 p2 H2).
  set (e1 := Zpos (digits2_pos p1) - 53).
  set (e2 := Zpos (digits2_pos p2) - 53).
  assert (He1 : e1 <= 0) by (unfold e1; lia).
  assert (He2 : e2 <= 0) by (unfold e2; lia).
  unfold JS.sub, SFsub.
  set (ez := Z.min e1 e2).
  assert (Hez : ez <= 0 /\ ez <= e1 /\ ez <= e2) by (unfold ez; lia).
  rewrite !shl_align_value by lia.
  rewrite <- !Z.mul_assoc, <- !Z.pow_add_r by lia.
  replace (0 - e1 + (e1 - ez)) with (- ez) by lia.
  replace (0 - e2 + (e2 - ez)) with (- ez) by lia.
  rewrite <- !cond_Zopp_mul, <- Z.mul_sub_distr_r.
  replace ez with (0 - - ez) at 2 by lia.
  rewrite binary_normalize_shift by lia.
  reflexivity.
Qed.

Lemma Z_sign_magnitude (z : Z) :
  z <> 0 -> exists s p, z = cond_Zopp s (Zpos p) /\ Zpos p = Z.abs z.
Proof.
  destruct z as [ | p | p]; intros Hz; [congruence | | ].
  - exists false, p. split; reflexivity.
  - exists true, p. split; reflexivity.
Qed.

Lemma sub_exact (a b : Z) :
  Z.abs a < 2 ^ 53 -> Z.abs b < 2 ^ 53 ->
  JS.sub (JS.ofZ a) (JS.ofZ b) = JS.ofZ (a - b).
Proof.
  intros Ha Hb.
  destruct (Z.eq_dec b 0) as [-> | Hb0].
  { rewrite Z.sub_0_r. destruct (Z.eq_dec a 0) as [-> | Ha0]; [reflexivity | ].
    destruct (Z_sign_magnitude a Ha0) as (s & p & -> & Hp).
    rewrite ofZ_finite by (apply digits2_pos_le; lia). reflexivity. }
  destruct (Z_sign_magnitude b Hb0) as (s2 & p2 & -> & Hp2).
  destruct (Z.eq_dec a 0) as [-> | Ha0].
  { replace (0 - cond_Zopp s2 (Zpos p2)) with (cond_Zopp (negb s2) (Zpos p2))
      by (destruct s2; reflexivity).
    rewrite !ofZ_finite by (apply digits2_pos_le; lia). reflexivity. }
  destruct (Z_sign_magnitude a Ha0) as (s1 & p1 & -> & Hp1).
  apply sub_exact_finite; apply digits2_pos_le; lia.
Qed.

(** ** Well-formed times *)

Lemma in_upto (n : nat) (z : Z) : 0 <= z < Z.of_nat n -> In z (upto n).
Proof.
  intros Hz. unfold upto. apply in_map_iff. exists (Z.to_nat z). split; [lia | ].
  apply in_seq. lia.
Qed.

Lemma same_eq (x y : JS.number) : JS.same x y = true -> x = y.
Proof.
  destruct x as [a | a | | a m e], y as [b | b | | b m' e']; cbn [JS.same];
    try discriminate; try reflexivity.
  - intros H. apply Bool.eqb_prop in H. congruence.
  - intros H. apply Bool.eqb_prop in H. congruence.
  - intros H. apply andb_prop in H. destruct H as [H He].
    apply andb_prop in H. destruct H as [Hs Hm].
    apply Bool.eqb_prop in Hs. apply Pos.eqb_eq in Hm. apply Z.eqb_eq in He. congruence.
Qed.

Lemma minutesOf_clock_checked :
  forallb (fun h =>
    forallb (fun m =>
      JS.same (minutesOf (hourAndMinute (clock h m))) (JS.ofZ (minutes h m)))
      (upto 60)) (upto 24) = true.
Proof. vm_compute. reflexivity. Qed.

Lemma minutesOf_clock (h m : Z) :
  validClock h m -> minutesOf (hourAndMinute (clock h m)) = JS.ofZ (minutes h m).
Proof.
  intros [Hh Hm]. apply same_eq.
  pose proof minutesOf_clock_checked as H.
  rewrite forallb_forall in H. specialize (H h (in_upto 24 h Hh)).
  rewrite forallb_forall in H. exact (H m (in_upto 60 m Hm)).
Qed.



(** ** The duration calculation *)

Lemma clock_nonempty (h m : Z) : exists a r, clock h m = String a r.
Proof. unfold clock, twoDigit. cbn [append]. eauto. Qed.

Lemma Mem_hours_unfold (startTime endTime rate : string) (brk : option (string * string)) :
  fst (MemStorage.calculateHoursAndValue startTime endTime rate
         (option_map fst brk) (option_map snd brk))
  = JS.Math_max (JS.ofZ 0)
      (JS.div
         (match brk with
          | Some (String a b, String c d) =>
              JS.sub (JS.sub (minutesOf (hourAndMinute endTime))
                             (minutesOf (hourAndMinute startTime)))
                     (JS.sub (minutesOf (hourAndMinute (String c d)))
                             (minutesOf (hourAndMinute (String a b))))
          | _ => JS.sub (minutesOf (hourAndMinute endTime))
                        (minutesOf (hourAndMinute startTime))
          end)
         (JS.ofZ 60)).
Proof.
  unfold MemStorage.calculateHoursAndValue.
  destruct brk as [[[ | a b] [ | c d]] | ]; reflexivity.
Qed.


(** A whole number of hours is computed exactly. *)
Lemma whole_hours (k : Z) :
  0 <= k < 24 -> JS.div (JS.ofZ (60 * k)) (JS.ofZ 60) = JS.ofZ k.
Proof.
  intros Hk. apply same_eq.
  assert (H : forallb (fun k => JS.same (JS.div (JS.ofZ (60 * k)) (JS.ofZ 60)) (JS.ofZ k))
                (upto 24) = true) by (vm_compute; reflexivity).
  rewrite forallb_forall in H. exact (H k (in_upto 24 k Hk)).
Qed.


(** ** Clamping of negative durations *)

Lemma max_clamp_checked :
  forallb (fun t =>
    JS.same (JS.Math_max (JS.ofZ 0) (JS.div (JS.ofZ (- t)) (JS.ofZ 60))) (JS.ofZ 0))
    (upto 2880) = true.
Proof. vm_compute. reflexivity. Qed.

Lemma max_clamp (t : Z) :
  -2880 < t <= 0 ->
  JS.Math_max (JS.ofZ 0) (JS.div (JS.ofZ t) (JS.ofZ 60)) = JS.ofZ 0.
Proof.
  intros Ht. apply same_eq.
  pose proof max_clamp_checked as H.
  rewrite forallb_forall in H.
  replace t with (- - t) by lia. apply H, in_upto. lia.
Qed.

(** In [MemStorage] a start that is not before the end yields zero hours. *)
Lemma MemStorage_hours_clamped (sh sm eh em : Z) (rate : string) :
  validClock sh sm -> validClock eh em ->
  minutes eh em <= minutes sh sm ->
  fst (MemStorage.calculateHoursAndValue (clock sh sm) (clock eh em) rate None None)
  = JS.ofZ 0.
Proof.
  intros Hs He Hle.
  rewrite (Mem_hours_unfold _ _ _ None), !minutesOf_clock by assumption.
  unfold validClock, minutes in *.
  rewrite sub_exact by lia.
  apply max_clamp. lia.
Qed.

(** C2.  [DatabaseStorage.calculateHours] and the billing helper do not
    clamp: from 17:00 to 08:00 they give -9 hours, where
    [MemStorage.calculateHoursAndValue] gives 0; the route stores the
    entry with -9 hours and the value -1278. *)
Theorem DatabaseStorage_hours_negative :
  DatabaseStorage.calculateHours "17:00" "08:00" None None = JS.ofZ (-9)
  /\ SFltb (DatabaseStorage.calculateHours "17:00" "08:00" None None) (JS.ofZ 0) = true
  /\ Routes.calculateEntryHours 0
       {| Routes.startTime := "17:00"; Routes.endTime := "08:00";
          Routes.breakStartTime := None; Routes.breakEndTime := None;
          Routes.service := None |} = JS.ofZ (-9)
  /\ fst (MemStorage.calculateHoursAndValue "17:00" "08:00" "142" None None) = JS.ofZ 0
  /\ exists e db',
      Routes.postTimeEntry (newEntry 1 1 "17:00" "08:00" Undefined Undefined) seeded
        = (Routes.Json 201 e, db')
      /\ DatabaseStorage.getTimeEntry 4 db' = Some e
      /\ TimeEntry.totalHours e = "-9"
      /\ TimeEntry.totalValue e = "-1278".
Proof.
  refine (conj _ (conj _ (conj _ (conj _ _)))); try (vm_compute; reflexivity).
  eexists. eexists. split; [vm_compute; reflexivity | ].
  repeat split; vm_compute; reflexivity.
Qed.

(** ** Scaling by two *)
















(** ** Failure and frame properties of the stores *)

(** C9.  [MemStorage.createTimeEntry] with a service id that is not in the
    services map rejects with "Service not found" and leaves the store as
    it was: no entry is added and the id counter is not advanced. *)
Theorem createTimeEntry_missing_service
    (insertTimeEntry : InsertTimeEntry.t) (st : MemStorage.t) :
  JsMap.get (InsertTimeEntry.serviceId insertTimeEntry) (MemStorage.services st) = None ->
  MemStorage.createTimeEntry insertTimeEntry st = Threw "Service not found" st.
Proof.
  intros Hmissing. unfold MemStorage.createTimeEntry. rewrite Hmissing. reflexivity.
Qed.

Lemma createTimeEntry_missing_service_witness :
  MemStorage.createTimeEntry (newEntry 1 99 "08:00" "17:00" Undefined Undefined)
    MemStorage.initial
  = Threw "Service not found" MemStorage.initial.
Proof.
  apply (createTimeEntry_missing_service
           (newEntry 1 99 "08:00" "17:00" Undefined Undefined) MemStorage.initial).
  reflexivity.
Defined.





(** ** Recalculation on update *)

(** C3.  Stored totals go stale on update.  On the sample entry 1 (08:00 to
    17:00, break 12:00 to 13:00, 8 hours stored): [MemStorage] keeps 8 hours
    when the break is shortened to half an hour (the calculation gives 8.5)
    and stores 10 hours when the end moves to 18:00 (the calculation, with
    the break, gives 9); [DatabaseStorage] keeps 8 hours when the break is
    removed (the calculation gives 9). *)
Theorem totals_stale_after_update :
  (exists e st',
      MemStorage.updateTimeEntry 1
        (patch None None (Value "12:00") (Value "12:30") None Undefined) MemStorage.initial
        = (Some e, st')
      /\ JsMap.get 1 (MemStorage.timeEntries st') = Some e
      /\ TimeEntry.breakEndTime e = Some "12:30"
      /\ JS.parseFloat (TimeEntry.totalHours e) = JS.ofZ 8
      /\ derivedHoursMem "142" e = JS.parseFloat "8.5")
  /\ (exists e st',
      MemStorage.updateTimeEntry 1
        (patch None (Some "18:00") Undefined Undefined None Undefined) MemStorage.initial
        = (Some e, st')
      /\ JsMap.get 1 (MemStorage.timeEntries st') = Some e
      /\ JS.parseFloat (TimeEntry.totalHours e) = JS.ofZ 10
      /\ derivedHoursMem "142" e = JS.ofZ 9)
  /\ (exists e db',
      DatabaseStorage.updateTimeEntry 1
        (patch None None Null Null None Undefined) seeded
        = Returned (Some e) db'
      /\ DatabaseStorage.getTimeEntry 1 db' = Some e
      /\ TimeEntry.breakStartTime e = None
      /\ JS.parseFloat (TimeEntry.totalHours e) = JS.ofZ 8
      /\ derivedHoursDb e = JS.ofZ 9).
Proof.
  split; [ | split].
  - eexists. eexists. split; [vm_compute; reflexivity | ].
    repeat split; vm_compute; reflexivity.
  - eexists. eexists. split; [vm_compute; reflexivity | ].
    repeat split; vm_compute; reflexivity.
  - eexists. eexists. split; [vm_compute; reflexivity | ].
    repeat split; vm_compute; reflexivity.
Qed.

(** ** A missing service *)

(** C4, as stated, fails: the billing helper takes a missing hourly rate
    as 0 and completes with the value 0, and [MemStorage.updateTimeEntry]
    resolves to [undefined] for a service that does not exist, with no
    error raised. *)
Lemma missing_service_not_reported :
  Routes.calculateEntryValue 0 entryWithoutRate = Routes.Normal (JS.ofZ 0)
  /\ JsMap.get 99 (MemStorage.services MemStorage.initial) = None
  /\ MemStorage.updateTimeEntry 1 (patch None None Undefined Undefined (Some 99) Undefined)
       MemStorage.initial
     = (None, MemStorage.initial).
Proof. repeat split; vm_compute; reflexivity. Qed.


(** C4, amended.  When the referenced service does not exist,
    [createTimeEntry] of both stores and a recalculating
    [DatabaseStorage.updateTimeEntry] reject with "Service not found" and
    store nothing; the billing helper raises a [TypeError] on an entry
    without a service, and multiplies the hours by 0 when the hourly rate
    is missing or does not parse to a non-zero number. *)
Theorem missing_service_outcomes :
  (forall insertTimeEntry st,
      JsMap.get (InsertTimeEntry.serviceId insertTimeEntry) (MemStorage.services st) = None ->
      MemStorage.createTimeEntry insertTimeEntry st = Threw "Service not found" st)
  /\ (forall insertTimeEntry db,
      DatabaseStorage.getService (InsertTimeEntry.serviceId insertTimeEntry) db = None ->
      DatabaseStorage.createTimeEntry insertTimeEntry db = Threw "Service not found" db)
  /\ (forall id updateData db existing,
      JS.truthy (PartialTimeEntry.startTime updateData)
      || JS.truthy (PartialTimeEntry.endTime updateData)
      || JS.truthy (truthyString (PartialTimeEntry.breakStartTime updateData))
      || JS.truthy (truthyString (PartialTimeEntry.breakEndTime updateData))
      || JS.truthyId (PartialTimeEntry.serviceId updateData) = true ->
      DatabaseStorage.getTimeEntry id db = Some existing ->
      DatabaseStorage.getService
        (orId (PartialTimeEntry.serviceId updateData) (TimeEntry.serviceId existing)) db = None ->
      DatabaseStorage.updateTimeEntry id updateData db = Threw "Service not found" db)
  /\ (forall utcOffset entry,
      Routes.service entry = None ->
      Routes.calculateEntryValue utcOffset entry = Routes.TypeError)
  /\ (forall utcOffset entry svc,
      Routes.service entry = Some svc ->
      JS.truthyNumber
        (match Routes.hourlyRate svc with
         | Some s => JS.parseFloat s
         | None => JS.NaN
         end) = false ->
      Routes.calculateEntryValue utcOffset entry
      = Routes.Normal (JS.mul (Routes.calculateEntryHours utcOffset entry) (JS.ofZ 0))).
Proof.
  refine (conj _ (conj _ (conj _ (conj _ _)))).
  - intros ins st H. unfold MemStorage.createTimeEntry. rewrite H. reflexivity.
  - intros ins db H. unfold DatabaseStorage.createTimeEntry. rewrite H. reflexivity.
  - intros id u db existing Hguard Hrow Hsvc.
    unfold DatabaseStorage.updateTimeEntry. rewrite Hguard, Hrow, Hsvc. reflexivity.
  - intros tz entry H. unfold Routes.calculateEntryValue. rewrite H. reflexivity.
  - intros tz entry svc Hs Hrate. unfold Routes.calculateEntryValue. rewrite Hs, Hrate.
    reflexivity.
Qed.

(** ** Grouping by client *)

Section Lists.

Context {A : Type}.

Lemma filter_Permutation (p : A -> bool) (l l' : list A) :
  Permutation l l' -> Permutation (filter p l) (filter p l').
Proof.
  induction 1 as [ | x l l' _ IH | x y l | l l' l'' _ IH1 _ IH2]; cbn [filter].
  - constructor.
  - destruct (p x); [constructor | ]; exact IH.
  - destruct (p x), (p y); try reflexivity. constructor.
  - etransitivity; eassumption.
Qed.



Lemma NoDup_filter (p : A -> bool) (l : list A) :
  NoDup l -> NoDup (filter p l).
Proof.
  induction 1 as [ | x l Hx _ IH]; cbn [filter]; [constructor | ].
  destruct (p x); [ | exact IH].
  constructor; [ | exact IH]. intros Hin. apply filter_In in Hin. tauto.
Qed.

Lemma filter_all (p : A -> bool) (l : list A) :
  (forall x, In x l -> p x = true) -> filter p l = l.
Proof.
  induction l as [ | x l IH]; intros H; cbn [filter]; [reflexivity | ].
  rewrite (H x (or_introl eq_refl)), IH; [reflexivity | ].
  intros y Hy. apply H. right. exact Hy.
Qed.

End Lists.

Lemma distinct_spec (xs seen : list Z) :
  NoDup (distinct xs seen)
  /\ forall x, In x (distinct xs seen) <-> In x xs /\ ~ In x seen.
Proof.
  revert seen. induction xs as [ | x xs IH]; intros seen; cbn [distinct].
  - split; [constructor | ]. intros x. cbn. tauto.
  - destruct (existsb (Z.eqb x) seen) eqn:Hseen.
    + apply existsb_exists in Hseen. destruct Hseen as (y & Hy & Heq).
      apply Z.eqb_eq in Heq. subst y.
      destruct (IH seen) as [Hnd Hin]. split; [exact Hnd | ].
      intros z. rewrite Hin. cbn [In]. split; [tauto | ].
      intros [[-> | Hz] Hn]; [contradiction | tauto].
    + assert (Hnot : ~ In x seen).
      { intros Hx. assert (existsb (Z.eqb x) seen = true); [ | congruence].
        apply existsb_exists. exists x. split; [exact Hx | apply Z.eqb_refl]. }
      destruct (IH (x :: seen)) as [Hnd Hin]. split.
      * constructor; [ | exact Hnd]. rewrite Hin. cbn [In]. tauto.
      * intros z. cbn [In]. rewrite Hin. cbn [In].
        destruct (Z.eq_dec x z) as [-> | Hne]; [tauto | ]. tauto.
Qed.

Lemma distinct_nil_spec (xs : list Z) :
  NoDup (distinct xs []) /\ forall x, In x (distinct xs []) <-> In x xs.
Proof.
  destruct (distinct_spec xs []) as [Hnd Hin]. split; [exact Hnd | ].
  intros x. rewrite Hin. cbn [In]. tauto.
Qed.

Section Partition.

Context {A : Type} (key : A -> Z).

Let pick (l : list A) (c : Z) : list A := filter (fun e => key e =? c) l.



Lemma pick_Permutation (c : Z) (l l' : list A) :
  Permutation l l' -> Permutation (pick l c) (pick l' c).
Proof. apply filter_Permutation. Qed.

End Partition.

Section Find.

Context {B : Type} (key : B -> Z).



End Find.

Lemma existsb_eqb_In (c : Z) (ids : list Z) :
  existsb (Z.eqb c) ids = true <-> In c ids.
Proof.
  rewrite existsb_exists. split.
  - intros (x & Hx & Heq). apply Z.eqb_eq in Heq. subst. exact Hx.
  - intros H. exists c. split; [exact H | apply Z.eqb_refl].
Qed.

Lemma existsb_eqb_Permutation (c : Z) (ids ids' : list Z) :
  (forall x, In x ids <-> In x ids') ->
  existsb (Z.eqb c) ids = existsb (Z.eqb c) ids'.
Proof.
  intros H.
  destruct (existsb (Z.eqb c) ids) eqn:E, (existsb (Z.eqb c) ids') eqn:E'; try reflexivity.
  - apply existsb_eqb_In, H, existsb_eqb_In in E. congruence.
  - apply existsb_eqb_In, H, existsb_eqb_In in E'. congruence.
Qed.

(** *** The stable sort rearranges the groups *)

Lemma insertGroup_Permutation (g : ClientGroup.t) (l : list ClientGroup.t) :
  Permutation (insertGroup g l) (g :: l).
Proof.
  induction l as [ | h l IH]; cbn [insertGroup]; [reflexivity | ].
  destruct (SFltb _ _); [reflexivity | ].
  rewrite IH. constructor.
Qed.

Lemma sortByValue_Permutation (gs : list ClientGroup.t) :
  Permutation (sortByValue gs) gs.
Proof.
  unfold sortByValue.
  assert (H : forall acc, Permutation (fold_left (fun s g => insertGroup g s) gs acc) (gs ++ acc)%list).
  { induction gs as [ | g gs IH]; intros acc; cbn [fold_left app]; [reflexivity | ].
    rewrite IH, insertGroup_Permutation. symmetry. apply Permutation_middle. }
  rewrite H, app_nil_r. reflexivity.
Qed.

(** *** Breakdowns that partition the entries *)



Lemma sumEntries_Permutation (gs gs' : list ClientGroup.t) :
  Permutation gs gs' -> sumEntries gs = sumEntries gs'.
Proof.
  induction 1; cbn [sumEntries fold_right] in *; try lia.
  unfold sumEntries in *. lia.
Qed.


(** *** DatabaseStorage *)

Lemma sumOf_joined (f : TimeEntry.t -> string) (db : DatabaseStorage.t)
    (rows : list TimeEntry.t) :
  sumOf (fun entry : DatabaseStorage.joined => f (fst entry))
        (DatabaseStorage.leftJoinClients db rows)
  = sumOf f rows.
Proof.
  unfold sumOf, DatabaseStorage.leftJoinClients.
  generalize (JS.ofZ 0). induction rows as [ | e rows IH]; intros acc; cbn [map fold_left];
    [reflexivity | apply IH].
Qed.

Lemma ofClient_joined (db : DatabaseStorage.t) (rows : list TimeEntry.t) (c : Z) :
  filter (fun entry : DatabaseStorage.joined => TimeEntry.clientId (fst entry) =? c)
         (DatabaseStorage.leftJoinClients db rows)
  = DatabaseStorage.leftJoinClients db (ofClient c rows).
Proof.
  unfold DatabaseStorage.leftJoinClients, ofClient.
  induction rows as [ | e rows IH]; cbn [map filter fst]; [reflexivity | ].
  destruct (TimeEntry.clientId e =? c); cbn [map]; rewrite IH; reflexivity.
Qed.

Lemma DatabaseStorage_clientGroup (db : DatabaseStorage.t) (rows : list TimeEntry.t) (c : Z) :
  In c (map TimeEntry.clientId rows) ->
  DatabaseStorage.clientGroup (DatabaseStorage.leftJoinClients db rows) c = dbGroup db rows c.
Proof.
  intros Hin. unfold DatabaseStorage.clientGroup, dbGroup.
  rewrite ofClient_joined.
  unfold DatabaseStorage.hoursOf, DatabaseStorage.valueOf.
  rewrite !sumOf_joined.
  unfold DatabaseStorage.leftJoinClients at 2. rewrite length_map.
  f_equal.
  assert (Hne : exists e r, ofClient c rows = e :: r /\ TimeEntry.clientId e = c).
  { apply in_map_iff in Hin. destruct Hin as (e & He & Hin).
    assert (Hmine : In e (ofClient c rows)).
    { apply filter_In. split; [exact Hin | ]. rewrite He. apply Z.eqb_refl. }
    destruct (ofClient c rows) as [ | e' r] eqn:Heq; [destruct Hmine | ].
    exists e', r. split; [reflexivity | ].
    assert (He' : In e' (ofClient c rows)) by (rewrite Heq; left; reflexivity).
    apply filter_In in He'. destruct He' as [_ He']. apply Z.eqb_eq. exact He'. }
  destruct Hne as (e & r & -> & He).
  unfold DatabaseStorage.leftJoinClients. cbn [map]. rewrite He. reflexivity.
Qed.



(** The breakdown of [DatabaseStorage.getReportData], before sorting. *)
Lemma DatabaseStorage_breakdown (filters : Filters.t) (db : DatabaseStorage.t) :
  let rows := filter (DatabaseStorage.conditions filters) (DatabaseStorage.timeEntries db) in
  Report.clientBreakdown (DatabaseStorage.getReportData filters db)
  = sortByValue (map (dbGroup db rows) (distinct (map TimeEntry.clientId rows) [])).
Proof.
  intros rows. subst rows. unfold DatabaseStorage.getReportData.
  cbn [Report.clientBreakdown].
  set (rows := filter (DatabaseStorage.conditions filters) (DatabaseStorage.timeEntries db)).
  match goal with
  | |- context [distinct (map ?f (DatabaseStorage.leftJoinClients db rows)) []] =>
      replace (map f (DatabaseStorage.leftJoinClients db rows))
        with (map TimeEntry.clientId rows)
        by (unfold DatabaseStorage.leftJoinClients; rewrite map_map; reflexivity)
  end.
  f_equal. apply map_ext_in. intros c Hc.
  apply DatabaseStorage_clientGroup. apply (proj2 (distinct_nil_spec _)). exact Hc.
Qed.

(** *** MemStorage *)

Lemma MemStorage_groups (st : MemStorage.t) (rows : list TimeEntry.t) (ids : list Z) :
  flat_map (MemStorage.clientGroup st rows) ids
  = map (memGroup st rows) (filter (hasClient st) ids).
Proof.
  induction ids as [ | c ids IH]; cbn [flat_map filter]; [reflexivity | ].
  rewrite IH. unfold MemStorage.clientGroup, hasClient at 2.
  destruct (JsMap.get c (MemStorage.clients st)) as [client | ] eqn:Hget; cbn [map app];
    [ | reflexivity].
  unfold memGroup at 2. rewrite Hget. reflexivity.
Qed.

Lemma MemStorage_breakdown (filters : Filters.t) (st : MemStorage.t) :
  let rows := MemStorage.filterEntries filters (JsMap.values (MemStorage.timeEntries st)) in
  Report.clientBreakdown (MemStorage.getReportData filters st)
  = sortByValue (map (memGroup st rows)
                     (filter (hasClient st) (distinct (map TimeEntry.clientId rows) []))).
Proof.
  intros rows. subst rows. unfold MemStorage.getReportData.
  cbn [Report.clientBreakdown]. rewrite MemStorage_groups. reflexivity.
Qed.




(** ** Malformed time strings *)










(** ** Order of the entries *)






(** * Further properties of the stores *)

(** ** Insertion-ordered maps *)

Section JsMapLemmas.

Context {V : Type}.
Implicit Types (m : JsMap.t V) (k : Z) (v : V).

Lemma JsMap_get_set_same k v m : JsMap.get k (JsMap.set k v m) = Some v.
Proof.
  unfold JsMap.get.
  induction m as [ | [k0 v0] m IH]; cbn.
  - rewrite Z.eqb_refl. reflexivity.
  - destruct (k0 =? k) eqn:E; cbn.
    + rewrite Z.eqb_refl. reflexivity.
    + rewrite E. exact IH.
Qed.

Lemma JsMap_get_set_other k k' v m :
  k' <> k -> JsMap.get k' (JsMap.set k v m) = JsMap.get k' m.
Proof.
  intros Hne. unfold JsMap.get.
  induction m as [ | [k0 v0] m IH]; cbn.
  - destruct (k =? k') eqn:E; [apply Z.eqb_eq in E; congruence | reflexivity].
  - destruct (k0 =? k) eqn:E; cbn.
    + apply Z.eqb_eq in E. subst k0.
      destruct (k =? k') eqn:E'; [apply Z.eqb_eq in E'; congruence | reflexivity].
    + destruct (k0 =? k'); [reflexivity | exact IH].
Qed.

Lemma JsMap_get_None k m : JsMap.get k m = None <-> ~ In k (map fst m).
Proof.
  unfold JsMap.get.
  induction m as [ | [k0 v0] m IH]; cbn.
  - tauto.
  - destruct (k0 =? k) eqn:E.
    + apply Z.eqb_eq in E. split; [discriminate | intros H; exfalso; apply H; now left].
    + apply Z.eqb_neq in E. rewrite IH. tauto.
Qed.

Lemma JsMap_get_In k v m : JsMap.get k m = Some v -> In (k, v) m.
Proof.
  unfold JsMap.get.
  induction m as [ | [k0 v0] m IH]; cbn.
  - discriminate.
  - destruct (k0 =? k) eqn:E.
    + apply Z.eqb_eq in E. intros H. inversion H. subst. now left.
    + intros H. right. exact (IH H).
Qed.

Lemma JsMap_set_absent k v m :
  JsMap.get k m = None -> JsMap.set k v m = (m ++ [(k, v)])%list.
Proof.
  unfold JsMap.get.
  induction m as [ | [k0 v0] m IH]; cbn.
  - reflexivity.
  - destruct (k0 =? k); [discriminate | ].
    intros H. rewrite (IH H). reflexivity.
Qed.

Lemma JsMap_set_keys k v m :
  JsMap.get k m <> None -> map fst (JsMap.set k v m) = map fst m.
Proof.
  unfold JsMap.get.
  induction m as [ | [k0 v0] m IH]; cbn.
  - congruence.
  - destruct (k0 =? k) eqn:E; cbn.
    + apply Z.eqb_eq in E. now subst.
    + intros H. rewrite (IH H). reflexivity.
Qed.

Lemma JsMap_get_delete_same k m : JsMap.get k (JsMap.delete k m) = None.
Proof.
  apply JsMap_get_None. unfold JsMap.delete. intros Hin.
  apply in_map_iff in Hin. destruct Hin as [[k0 v0] [Hk Hin]].
  apply filter_In in Hin. cbn in *. subst k0.
  rewrite Z.eqb_refl in Hin. destruct Hin. discriminate.
Qed.

Lemma JsMap_get_delete_other k k' m :
  k' <> k -> JsMap.get k' (JsMap.delete k m) = JsMap.get k' m.
Proof.
  intros Hne. unfold JsMap.get, JsMap.delete.
  induction m as [ | [k0 v0] m IH]; cbn.
  - reflexivity.
  - destruct (k0 =? k) eqn:E; cbn.
    + apply Z.eqb_eq in E. subst k0.
      destruct (k =? k') eqn:E'; [apply Z.eqb_eq in E'; congruence | exact IH].
    + destruct (k0 =? k'); [reflexivity | exact IH].
Qed.

Lemma JsMap_delete_absent k m : JsMap.get k m = None -> JsMap.delete k m = m.
Proof.
  unfold JsMap.get, JsMap.delete.
  induction m as [ | [k0 v0] m IH]; cbn.
  - reflexivity.
  - destruct (k0 =? k); [discriminate | ].
    cbn. intros H. rewrite (IH H). reflexivity.
Qed.

Lemma JsMap_delete_keys k m :
  map fst (JsMap.delete k m) = filter (fun k0 => negb (k0 =? k)) (map fst m).
Proof.
  unfold JsMap.delete.
  induction m as [ | [k0 v0] m IH]; cbn.
  - reflexivity.
  - destruct (k0 =? k); cbn; [exact IH | now rewrite IH].
Qed.

Lemma JsMap_set_NoDup k v m :
  NoDup (map fst m) -> NoDup (map fst (JsMap.set k v m)).
Proof.
  intros Hnd. destruct (JsMap.get k m) eqn:Hget.
  - rewrite JsMap_set_keys by congruence. exact Hnd.
  - rewrite (JsMap_set_absent _ _ _ Hget), map_app. cbn.
    apply JsMap_get_None in Hget.
    apply NoDup_app; [exact Hnd | repeat constructor; intros [] | ].
    intros x Hx [Hk | []]. subst x. exact (Hget Hx).
Qed.

Lemma JsMap_set_Forall (P : Z * V -> Prop) k v m :
  P (k, v) -> Forall P m -> Forall P (JsMap.set k v m).
Proof.
  intros Hp Hm.
  induction Hm as [ | [k0 v0] m Hp0 Hm IH]; cbn.
  - constructor; [exact Hp | constructor].
  - destruct (k0 =? k); constructor; assumption.
Qed.

Lemma JsMap_delete_NoDup k m :
  NoDup (map fst m) -> NoDup (map fst (JsMap.delete k m)).
Proof.
  intros Hnd. rewrite JsMap_delete_keys. apply NoDup_filter. exact Hnd.
Qed.

Lemma JsMap_delete_Forall (P : Z * V -> Prop) k m :
  Forall P m -> Forall P (JsMap.delete k m).
Proof.
  intros Hm. apply Forall_forall. intros p Hp.
  apply filter_In in Hp. destruct Hp as [Hp _].
  revert p Hp. apply Forall_forall. exact Hm.
Qed.

Lemma JsMap_fresh (next : Z) m :
  Forall (fun p => fst p < next) m -> JsMap.get next m = None.
Proof.
  intros Hm. apply JsMap_get_None. intros Hin.
  apply in_map_iff in Hin. destruct Hin as [p [Hk Hin]].
  rewrite Forall_forall in Hm. specialize (Hm p Hin). lia.
Qed.

End JsMapLemmas.
(** ** MemStorage: clients *)

Lemma clientsKeyed_weaken (m : JsMap.t Client.t) (next next' : Z) :
  next <= next' ->
  Forall (fun p => Client.id (snd p) = fst p /\ fst p < next) m ->
  Forall (fun p => Client.id (snd p) = fst p /\ fst p < next') m.
Proof.
  intros Hle. apply Forall_impl. intros p [H1 H2]. split; [exact H1 | lia].
Qed.

Lemma clientsKeyed_fresh (st : MemStorage.t) :
  clientsKeyed st ->
  JsMap.get (MemStorage.currentClientId st) (MemStorage.clients st) = None.
Proof.
  intros [_ Hk]. apply JsMap_fresh. revert Hk. apply Forall_impl. tauto.
Qed.

(** X1.  [MemStorage.createClient] on a store whose clients are filed
    under their ids, below the next id: the new client takes the next id,
    which no client had; it is appended after the clients there were and
    [getClient] finds it; every other lookup is as before; and the store is
    again well filed. *)
Theorem createClient_appends (insertClient : InsertClient.t) (st : MemStorage.t) :
  clientsKeyed st ->
  let client := fst (MemStorage.createClient insertClient st) in
  let st' := snd (MemStorage.createClient insertClient st) in
  Client.id client = MemStorage.currentClientId st
  /\ MemStorage.getClient (Client.id client) st = None
  /\ MemStorage.getClient (Client.id client) st' = Some client
  /\ (forall id, id <> Client.id client ->
        MemStorage.getClient id st' = MemStorage.getClient id st)
  /\ MemStorage.getClients st' = (MemStorage.getClients st ++ [client])%list
  /\ MemStorage.currentClientId st' = MemStorage.currentClientId st + 1
  /\ clientsKeyed st'.
Proof.
  intros Hk. pose proof (clientsKeyed_fresh st Hk) as Hfresh.
  destruct Hk as [Hnd Hk].
  cbn zeta. unfold MemStorage.createClient, MemStorage.getClient, MemStorage.getClients.
  cbn [fst snd Client.id MemStorage.withClients MemStorage.clients
       MemStorage.currentClientId].
  refine (conj eq_refl (conj Hfresh (conj _ (conj _ (conj _ (conj eq_refl _)))))).
  - apply JsMap_get_set_same.
  - intros id Hne. apply JsMap_get_set_other. exact Hne.
  - rewrite (JsMap_set_absent _ _ _ Hfresh). unfold JsMap.values.
    rewrite map_app. reflexivity.
  - split; cbn [MemStorage.clients MemStorage.currentClientId].
    + apply JsMap_set_NoDup. exact Hnd.
    + apply JsMap_set_Forall.
      * cbn [fst snd Client.id MemStorage.currentClientId MemStorage.withClients].
        split; [reflexivity | lia].
      * apply (clientsKeyed_weaken _ (MemStorage.currentClientId st)); [ | exact Hk].
        cbn [MemStorage.currentClientId MemStorage.withClients]. lia.
Qed.

Lemma createClient_appends_witness :
  let insertClient :=
    {| InsertClient.code := "CLI006"; InsertClient.name := "Acme";
       InsertClient.cnpj := "00.000.000/0001-00"; InsertClient.email := "acme@example.com" |} in
  let st' := snd (MemStorage.createClient insertClient MemStorage.initial) in
  map Client.id (MemStorage.getClients st') = [1; 2; 3; 4; 5; 6]
  /\ option_map Client.name (MemStorage.getClient 6 st') = Some "Acme"
  /\ clientsKeyed st'.
Proof.
  assert (Hk : clientsKeyed MemStorage.initial).
  { split; cbn.
    - repeat constructor; cbn; intuition discriminate.
    - repeat constructor. }
  pose proof (createClient_appends
                {| InsertClient.code := "CLI006"; InsertClient.name := "Acme";
                   InsertClient.cnpj := "00.000.000/0001-00";
                   InsertClient.email := "acme@example.com" |}
                MemStorage.initial Hk) as H.
  cbn zeta in H. destruct H as (_ & _ & _ & _ & _ & _ & Hk').
  cbn zeta. refine (conj eq_refl (conj eq_refl Hk')).
Defined.

(** X2.  [MemStorage.updateClient]: for an id that is not in the store it
    resolves to [undefined] and changes nothing; otherwise it files the
    merged client under the same id and at the same place, the client
    keeps its id, the fields the update names are replaced and no other,
    every other lookup is as before, and a well-filed store stays so. *)
Theorem updateClient_replaces (id : Z) (updateData : PartialClient.t) (st : MemStorage.t) :
  (MemStorage.getClient id st = None ->
   MemStorage.updateClient id updateData st = (None, st))
  /\ (forall old,
        MemStorage.getClient id st = Some old ->
        exists new st',
          MemStorage.updateClient id updateData st = (Some new, st')
          /\ Client.id new = Client.id old
          /\ Client.code new = overlay (Client.code old) (PartialClient.code updateData)
          /\ Client.name new = overlay (Client.name old) (PartialClient.name updateData)
          /\ Client.cnpj new = overlay (Client.cnpj old) (PartialClient.cnpj updateData)
          /\ Client.email new = overlay (Client.email old) (PartialClient.email updateData)
          /\ MemStorage.getClient id st' = Some new
          /\ (forall id', id' <> id ->
                MemStorage.getClient id' st' = MemStorage.getClient id' st)
          /\ map fst (MemStorage.clients st') = map fst (MemStorage.clients st)
          /\ MemStorage.currentClientId st' = MemStorage.currentClientId st
          /\ (clientsKeyed st -> clientsKeyed st')).
Proof.
  unfold MemStorage.getClient, MemStorage.updateClient. split.
  - intros H. rewrite H. reflexivity.
  - intros old H. rewrite H. eexists. eexists.
    split; [reflexivity | ].
    cbn [Client.id Client.code Client.name Client.cnpj Client.email
         MemStorage.withClients MemStorage.clients MemStorage.currentClientId].
    repeat (split; [reflexivity | ]).
    split; [apply JsMap_get_set_same | ].
    split; [intros id' Hne; apply JsMap_get_set_other; exact Hne | ].
    split; [apply JsMap_set_keys; congruence | ].
    split; [reflexivity | ].
    intros [Hnd Hk]. split.
    + apply JsMap_set_NoDup. exact Hnd.
    + apply JsMap_set_Forall; [ | exact Hk].
      apply JsMap_get_In in H. rewrite Forall_forall in Hk.
      exact (Hk _ H).
Qed.

(** X3.  [MemStorage.deleteClient]: afterwards the id is not in the store
    and every other lookup is as before; the answer is [true] exactly when
    the id was there, and when it is [false] the store is unchanged, so
    that deleting a second time answers [false]; the services and the time
    entries of the client stay in the store; a well-filed store stays so,
    with the same next id. *)
Theorem deleteClient_removes (id : Z) (st : MemStorage.t) :
  let st' := snd (MemStorage.deleteClient id st) in
  MemStorage.getClient id st' = None
  /\ (forall id', id' <> id -> MemStorage.getClient id' st' = MemStorage.getClient id' st)
  /\ (fst (MemStorage.deleteClient id st) = true <-> MemStorage.getClient id st <> None)
  /\ (fst (MemStorage.deleteClient id st) = false -> st' = st)
  /\ MemStorage.deleteClient id st' = (false, st')
  /\ MemStorage.services st' = MemStorage.services st
  /\ MemStorage.timeEntries st' = MemStorage.timeEntries st
  /\ MemStorage.currentClientId st' = MemStorage.currentClientId st
  /\ (clientsKeyed st -> clientsKeyed st').
Proof.
  cbn zeta. unfold MemStorage.getClient, MemStorage.deleteClient.
  cbn [fst snd MemStorage.clients MemStorage.services MemStorage.timeEntries
       MemStorage.currentClientId].
  split; [apply JsMap_get_delete_same | ].
  split; [intros id' Hne; apply JsMap_get_delete_other; exact Hne | ].
  split; [destruct (JsMap.get id (MemStorage.clients st)); split; congruence | ].
  split.
  { destruct (JsMap.get id (MemStorage.clients st)) eqn:Hget; [discriminate | ].
    intros _. rewrite (JsMap_delete_absent _ _ Hget). destruct st. reflexivity. }
  split.
  { rewrite JsMap_get_delete_same.
    rewrite (JsMap_delete_absent id (JsMap.delete id (MemStorage.clients st)))
      by apply JsMap_get_delete_same.
    reflexivity. }
  repeat (split; [reflexivity | ]).
  intros [Hnd Hk]. split; cbn [MemStorage.clients MemStorage.currentClientId].
  - apply JsMap_delete_NoDup. exact Hnd.
  - apply JsMap_delete_Forall. exact Hk.
Qed.
(** ** MemStorage: services *)

Lemma withClient_deleteClient (c : Z) (st : MemStorage.t) (service : Service.t) :
  MemStorage.withClient (snd (MemStorage.deleteClient c st)) service
  = filter (fun sc => negb (Service.clientId (ServiceWithClient.service sc) =? c))
           (MemStorage.withClient st service).
Proof.
  unfold MemStorage.withClient, MemStorage.deleteClient.
  cbn [snd MemStorage.clients].
  destruct (Z.eq_dec (Service.clientId service) c) as [Heq | Hne].
  - rewrite Heq, JsMap_get_delete_same.
    destruct (JsMap.get c (MemStorage.clients st)); [ | reflexivity].
    cbn. rewrite Heq, Z.eqb_refl. reflexivity.
  - rewrite JsMap_get_delete_other by exact Hne.
    destruct (JsMap.get (Service.clientId service) (MemStorage.clients st)); [ | reflexivity].
    cbn. apply Z.eqb_neq in Hne. rewrite Hne. reflexivity.
Qed.

Lemma flat_map_filter {X Y : Type} (f : X -> list Y) (keep : Y -> bool) (xs : list X) :
  flat_map (fun x => filter keep (f x)) xs = filter keep (flat_map f xs).
Proof.
  induction xs as [ | x xs IH]; cbn [flat_map filter]; [reflexivity | ].
  rewrite filter_app, IH. reflexivity.
Qed.

(** X4.  [MemStorage.getServices] lists, in the order of the store, the
    services whose client is in the store, each with the client filed under
    its [clientId]; a service whose client is missing is left out.
    [deleteClient] removes no service: the services of the deleted client
    drop out of [getServices], while [getServicesByClient] still lists
    them. *)
Theorem getServices_needs_client (st : MemStorage.t) :
  map ServiceWithClient.service (MemStorage.getServices st)
  = filter (fun service => hasClient st (Service.clientId service))
           (JsMap.values (MemStorage.services st))
  /\ Forall (fun sc =>
               MemStorage.getClient (Service.clientId (ServiceWithClient.service sc)) st
               = Some (ServiceWithClient.client sc))
            (MemStorage.getServices st)
  /\ forall c,
       let st' := snd (MemStorage.deleteClient c st) in
       MemStorage.getServicesByClient c st' = MemStorage.getServicesByClient c st
       /\ MemStorage.getServices st'
          = filter (fun sc => negb (Service.clientId (ServiceWithClient.service sc) =? c))
                   (MemStorage.getServices st)
       /\ Forall (fun sc => Service.clientId (ServiceWithClient.service sc) <> c)
                 (MemStorage.getServices st').
Proof.
  assert (Hdel : forall c,
            MemStorage.getServices (snd (MemStorage.deleteClient c st))
            = filter (fun sc => negb (Service.clientId (ServiceWithClient.service sc) =? c))
                     (MemStorage.getServices st)).
  { intros c. unfold MemStorage.getServices. rewrite <- flat_map_filter.
    apply flat_map_ext. intros service. apply withClient_deleteClient. }
  split; [ | split].
  - unfold MemStorage.getServices, MemStorage.withClient, hasClient.
    induction (JsMap.values (MemStorage.services st)) as [ | service l IH]; cbn;
      [reflexivity | ].
    rewrite map_app, IH.
    destruct (JsMap.get (Service.clientId service) (MemStorage.clients st)); reflexivity.
  - unfold MemStorage.getServices, MemStorage.getClient.
    apply Forall_forall. intros sc Hin.
    apply in_flat_map in Hin. destruct Hin as [service [_ Hin]].
    unfold MemStorage.withClient in Hin.
    destruct (JsMap.get (Service.clientId service) (MemStorage.clients st)) eqn:Hget;
      [ | contradiction].
    destruct Hin as [Heq | []]. subst sc. exact Hget.
  - intros c. cbn zeta. split; [reflexivity | split; [apply Hdel | ]].
    rewrite Hdel. apply Forall_forall. intros sc Hin.
    apply filter_In in Hin. destruct Hin as [_ Hin].
    apply negb_true_iff, Z.eqb_neq in Hin. exact Hin.
Qed.

(** X5.  [MemStorage.updateService] replaces the rate only by a truthy
    number.  An update whose [hourlyRate] is [0] (or [NaN]) succeeds and
    leaves the rate of the service as it was, so that the time entries
    created afterwards are valued at the old rate. *)
Theorem updateService_ignores_zero_rate
    (id : Z) (updateData : PartialService.t) (rate : JS.number)
    (service : Service.t) (st : MemStorage.t) :
  MemStorage.getService id st = Some service ->
  PartialService.hourlyRate updateData = Some rate ->
  JS.truthyNumber rate = false ->
  exists updated st',
    MemStorage.updateService id updateData st = (Some updated, st')
    /\ MemStorage.getService id st' = Some updated
    /\ Service.hourlyRate updated = Service.hourlyRate service
    /\ forall body,
         InsertTimeEntry.serviceId body = id ->
         exists e st1 st2,
           MemStorage.createTimeEntry body st = Returned e st1
           /\ MemStorage.createTimeEntry body st' = Returned e st2.
Proof.
  unfold MemStorage.getService, MemStorage.updateService.
  intros Hget Hrate Hfalsy. rewrite Hget, Hrate, Hfalsy.
  eexists. eexists. split; [reflexivity | ].
  cbn [MemStorage.withServices MemStorage.services Service.hourlyRate].
  split; [apply JsMap_get_set_same | ].
  split; [reflexivity | ].
  intros body Hid. unfold MemStorage.createTimeEntry.
  cbn [MemStorage.withServices MemStorage.services MemStorage.currentTimeEntryId].
  rewrite Hid, Hget, JsMap_get_set_same.
  cbn [Service.hourlyRate].
  destruct (MemStorage.calculateHoursAndValue _ _ _ _ _) as [hours value].
  eexists. eexists. eexists. split; reflexivity.
Qed.

Lemma updateService_ignores_zero_rate_witness :
  exists updated st',
    MemStorage.updateService 1
      {| PartialService.code := None; PartialService.clientId := None;
         PartialService.description := None;
         PartialService.hourlyRate := Some (JS.ofZ 0) |} MemStorage.initial
    = (Some updated, st')
    /\ Service.hourlyRate updated = "142"
    /\ exists e st2,
        MemStorage.createTimeEntry (newEntry 1 1 "08:00" "17:00" Undefined Undefined) st'
        = Returned e st2
        /\ TimeEntry.totalValue e = "1278".
Proof.
  destruct (updateService_ignores_zero_rate 1
              {| PartialService.code := None; PartialService.clientId := None;
                 PartialService.description := None;
                 PartialService.hourlyRate := Some (JS.ofZ 0) |}
              (JS.ofZ 0) _ MemStorage.initial eq_refl eq_refl eq_refl)
    as (updated & st' & Hupd & _ & Hr & Hcreate).
  exists updated, st'. split; [exact Hupd | split; [exact Hr | ]].
  destruct (Hcreate (newEntry 1 1 "08:00" "17:00" Undefined Undefined) eq_refl)
    as (e & st1 & st2 & H1 & H2).
  exists e, st2. split; [exact H2 | ].
  vm_compute in H1. inversion H1. reflexivity.
Defined.
(** ** MemStorage: time entries *)

Lemma insertBy_Permutation {A : Type} (cmp : A -> A -> JS.number) (x : A) (l : list A) :
  Permutation (insertBy cmp x l) (x :: l).
Proof.
  induction l as [ | h r IH]; cbn.
  - apply Permutation_refl.
  - destruct (SFltb _ _).
    + apply Permutation_refl.
    + apply Permutation_trans with (h :: x :: r).
      * apply perm_skip. exact IH.
      * apply perm_swap.
Qed.

Lemma sortBy_Permutation {A : Type} (cmp : A -> A -> JS.number) (l : list A) :
  Permutation (sortBy cmp l) l.
Proof.
  unfold sortBy.
  assert (H : forall acc, Permutation (fold_left (fun sorted x => insertBy cmp x sorted) l acc)
                                      (acc ++ l)%list).
  { induction l as [ | x l IH]; intros acc; cbn.
    - rewrite app_nil_r. apply Permutation_refl.
    - apply Permutation_trans with (insertBy cmp x acc ++ l)%list; [apply IH | ].
      apply Permutation_trans with ((x :: acc) ++ l)%list.
      + apply Permutation_app_tail. apply insertBy_Permutation.
      + cbn. apply Permutation_middle. }
  exact (H []).
Qed.

Lemma detailed_entries (st : MemStorage.t) (l : list TimeEntry.t) :
  map TimeEntryDetailed.entry (flat_map (MemStorage.detailed st) l) = filter (resolves st) l.
Proof.
  unfold MemStorage.detailed, resolves.
  induction l as [ | e l IH]; cbn; [reflexivity | ].
  rewrite map_app, IH.
  destruct (JsMap.get (TimeEntry.consultantId e) (MemStorage.consultants st));
    [ | reflexivity].
  destruct (JsMap.get (TimeEntry.clientId e) (MemStorage.clients st)); [ | reflexivity].
  destruct (JsMap.get (TimeEntry.serviceId e) (MemStorage.services st)); reflexivity.
Qed.

Lemma map_filter_comm {A B : Type} (f : A -> B) (p : B -> bool) (l : list A) :
  map f (filter (fun x => p (f x)) l) = filter p (map f l).
Proof.
  induction l as [ | x l IH]; cbn; [reflexivity | ].
  destruct (p (f x)); cbn; now rewrite IH.
Qed.

(** X6.  [MemStorage.getTimeEntries], however the dates are read: its
    entries are, up to the order, the stored entries whose consultant,
    client and service are all in the store (an entry with a dangling
    reference is left out, none is listed twice), and each comes with the
    three records its ids refer to.  [getTimeEntriesByClient] and
    [getTimeEntriesByConsultant] list those of them that have the given
    id, and [getTimeEntriesByDateRange] those whose date is between the
    two given dates, both included, as strings compare. *)
Theorem getTimeEntries_joins (dateTime : string -> JS.number) (st : MemStorage.t) :
  Permutation (map TimeEntryDetailed.entry (MemStorage.getTimeEntries dateTime st))
              (filter (resolves st) (JsMap.values (MemStorage.timeEntries st)))
  /\ Forall (fun d =>
               let e := TimeEntryDetailed.entry d in
               JsMap.get (TimeEntry.consultantId e) (MemStorage.consultants st)
               = Some (TimeEntryDetailed.consultant d)
               /\ JsMap.get (TimeEntry.clientId e) (MemStorage.clients st)
                  = Some (TimeEntryDetailed.client d)
               /\ JsMap.get (TimeEntry.serviceId e) (MemStorage.services st)
                  = Some (TimeEntryDetailed.service d))
            (MemStorage.getTimeEntries dateTime st)
  /\ (forall c,
        Permutation
          (map TimeEntryDetailed.entry (MemStorage.getTimeEntriesByClient dateTime c st))
          (filter (fun e => TimeEntry.clientId e =? c)
                  (filter (resolves st) (JsMap.values (MemStorage.timeEntries st)))))
  /\ (forall c,
        Permutation
          (map TimeEntryDetailed.entry (MemStorage.getTimeEntriesByConsultant dateTime c st))
          (filter (fun e => TimeEntry.consultantId e =? c)
                  (filter (resolves st) (JsMap.values (MemStorage.timeEntries st)))))
  /\ (forall startDate endDate,
        Permutation
          (map TimeEntryDetailed.entry
               (MemStorage.getTimeEntriesByDateRange dateTime startDate endDate st))
          (filter (fun e => String.leb startDate (TimeEntry.date e)
                            && String.leb (TimeEntry.date e) endDate)
                  (filter (resolves st) (JsMap.values (MemStorage.timeEntries st))))).
Proof.
  assert (Hall : Permutation
                   (map TimeEntryDetailed.entry (MemStorage.getTimeEntries dateTime st))
                   (filter (resolves st) (JsMap.values (MemStorage.timeEntries st)))).
  { unfold MemStorage.getTimeEntries. rewrite <- detailed_entries.
    apply Permutation_map, sortBy_Permutation. }
  split; [exact Hall | split; [ | split; [ | split]]].
  - unfold MemStorage.getTimeEntries. apply Forall_forall. intros d Hin.
    apply (Permutation_in _ (sortBy_Permutation _ _)) in Hin.
    apply in_flat_map in Hin. destruct Hin as [e [_ Hin]].
    unfold MemStorage.detailed in Hin.
    destruct (JsMap.get (TimeEntry.consultantId e) (MemStorage.consultants st)) eqn:H1;
      [ | contradiction].
    destruct (JsMap.get (TimeEntry.clientId e) (MemStorage.clients st)) eqn:H2;
      [ | contradiction].
    destruct (JsMap.get (TimeEntry.serviceId e) (MemStorage.services st)) eqn:H3;
      [ | contradiction].
    destruct Hin as [Heq | []]. subst d. cbn. auto.
  - intros c. unfold MemStorage.getTimeEntriesByClient.
    rewrite (map_filter_comm TimeEntryDetailed.entry (fun e => TimeEntry.clientId e =? c)).
    apply filter_Permutation. exact Hall.
  - intros c. unfold MemStorage.getTimeEntriesByConsultant.
    rewrite (map_filter_comm TimeEntryDetailed.entry
               (fun e => TimeEntry.consultantId e =? c)).
    apply filter_Permutation. exact Hall.
  - intros startDate endDate. unfold MemStorage.getTimeEntriesByDateRange.
    rewrite (map_filter_comm TimeEntryDetailed.entry
               (fun e => String.leb startDate (TimeEntry.date e)
                         && String.leb (TimeEntry.date e) endDate)).
    apply filter_Permutation. exact Hall.
Qed.

Lemma timeEntriesKeyed_fresh (st : MemStorage.t) :
  timeEntriesKeyed st ->
  JsMap.get (MemStorage.currentTimeEntryId st) (MemStorage.timeEntries st) = None.
Proof.
  intros [_ Hk]. apply JsMap_fresh. revert Hk. apply Forall_impl. tauto.
Qed.

Lemma timeEntriesKeyed_weaken (m : JsMap.t TimeEntry.t) (next next' : Z) :
  next <= next' ->
  Forall (fun p => TimeEntry.id (snd p) = fst p /\ fst p < next) m ->
  Forall (fun p => TimeEntry.id (snd p) = fst p /\ fst p < next') m.
Proof.
  intros Hle. apply Forall_impl. intros p [H1 H2]. split; [exact H1 | lia].
Qed.

(** X7.  [MemStorage.createTimeEntry] for a service that is in the store,
    on a store whose entries are filed under their ids, below the next id:
    the new entry takes the next id, which no entry had, and is appended
    after the entries there were; [getTimeEntry] finds it and every other
    lookup is as before; its stored totals are the strings of the hours and
    of the value that the calculation gives on the times and the break it
    stores and on the rate of the service; the store is again well
    filed. *)
Theorem createTimeEntry_stores
    (body : InsertTimeEntry.t) (service : Service.t) (st : MemStorage.t) :
  timeEntriesKeyed st ->
  JsMap.get (InsertTimeEntry.serviceId body) (MemStorage.services st) = Some service ->
  exists e st',
    MemStorage.createTimeEntry body st = Returned e st'
    /\ TimeEntry.id e = MemStorage.currentTimeEntryId st
    /\ MemStorage.getTimeEntry (TimeEntry.id e) st = None
    /\ MemStorage.getTimeEntry (TimeEntry.id e) st' = Some e
    /\ (forall id, id <> TimeEntry.id e ->
          MemStorage.getTimeEntry id st' = MemStorage.getTimeEntry id st)
    /\ JsMap.values (MemStorage.timeEntries st')
       = (JsMap.values (MemStorage.timeEntries st) ++ [e])%list
    /\ TimeEntry.totalHours e
       = JS.toString (derivedHoursMem (Service.hourlyRate service) e)
    /\ TimeEntry.totalValue e
       = JS.toString (JS.mul (derivedHoursMem (Service.hourlyRate service) e)
                             (JS.parseFloat (Service.hourlyRate service)))
    /\ MemStorage.currentTimeEntryId st' = MemStorage.currentTimeEntryId st + 1
    /\ timeEntriesKeyed st'.
Proof.
  intros Hk Hsvc. pose proof (timeEntriesKeyed_fresh st Hk) as Hfresh.
  destruct Hk as [Hnd Hk].
  unfold MemStorage.createTimeEntry. rewrite Hsvc.
  unfold MemStorage.calculateHoursAndValue at 1. cbn zeta.
  eexists. eexists. split; [reflexivity | ].
  unfold MemStorage.getTimeEntry, derivedHoursMem, MemStorage.calculateHoursAndValue.
  cbn [fst TimeEntry.id TimeEntry.totalHours TimeEntry.totalValue TimeEntry.startTime
       TimeEntry.endTime TimeEntry.breakStartTime TimeEntry.breakEndTime
       MemStorage.setTimeEntry MemStorage.bumpTimeEntryId MemStorage.timeEntries
       MemStorage.currentTimeEntryId].
  split; [reflexivity | ].
  split; [exact Hfresh | ].
  split; [apply JsMap_get_set_same | ].
  split; [intros id Hne; apply JsMap_get_set_other; exact Hne | ].
  split.
  { rewrite (JsMap_set_absent _ _ _ Hfresh). unfold JsMap.values.
    rewrite map_app. reflexivity. }
  split; [reflexivity | ].
  split; [reflexivity | ].
  split; [reflexivity | ].
  split; cbn [MemStorage.timeEntries MemStorage.currentTimeEntryId].
  - apply JsMap_set_NoDup. exact Hnd.
  - apply JsMap_set_Forall.
    + cbn [fst snd TimeEntry.id MemStorage.currentTimeEntryId MemStorage.setTimeEntry
           MemStorage.bumpTimeEntryId].
      split; [reflexivity | lia].
    + apply (timeEntriesKeyed_weaken _ (MemStorage.currentTimeEntryId st)); [ | exact Hk].
      cbn [MemStorage.currentTimeEntryId MemStorage.setTimeEntry MemStorage.bumpTimeEntryId].
      lia.
Qed.

Lemma createTimeEntry_stores_witness :
  exists e st',
    MemStorage.createTimeEntry (newEntry 1 1 "08:00" "17:00" (Value "12:00") (Value "12:30"))
      MemStorage.initial = Returned e st'
    /\ TimeEntry.id e = 4
    /\ MemStorage.getTimeEntry 4 st' = Some e
    /\ TimeEntry.totalHours e = "8.5"
    /\ TimeEntry.totalValue e = "1207"
    /\ timeEntriesKeyed st'.
Proof.
  assert (Hk : timeEntriesKeyed MemStorage.initial).
  { split; cbn.
    - repeat constructor; cbn; intuition discriminate.
    - repeat constructor. }
  destruct (createTimeEntry_stores
              (newEntry 1 1 "08:00" "17:00" (Value "12:00") (Value "12:30"))
              _ MemStorage.initial Hk eq_refl)
    as (e & st' & Hc & Hid & _ & Hget & _ & _ & _ & _ & _ & Hk').
  exists e, st'.
  split; [exact Hc | split; [exact Hid | ]].
  split; [replace 4 with (TimeEntry.id e) by exact Hid; exact Hget | ].
  vm_compute in Hc. inversion Hc.
  split; [reflexivity | split; [reflexivity | ]].
  subst st'. exact Hk'.
Defined.

Lemma createTimeEntry_Returned
    (body : InsertTimeEntry.t) (service : Service.t) (st : MemStorage.t) :
  JsMap.get (InsertTimeEntry.serviceId body) (MemStorage.services st) = Some service ->
  exists e,
    MemStorage.createTimeEntry body st
    = Returned e (MemStorage.setTimeEntry (MemStorage.currentTimeEntryId st) e
                    (MemStorage.bumpTimeEntryId st))
    /\ TimeEntry.id e = MemStorage.currentTimeEntryId st.
Proof.
  intros Hsvc. unfold MemStorage.createTimeEntry. rewrite Hsvc.
  destruct (MemStorage.calculateHoursAndValue _ _ _ _ _) as [hours value].
  eexists. split; reflexivity.
Qed.

(** X8.  The ids of [MemStorage] are not handed out twice.  On a store
    whose entries are filed below the next id, an entry that is created and
    then deleted leaves the entries as they were, [deleteTimeEntry]
    answers [true], and the next entry created takes the id after the
    deleted one, which stays without an entry. *)
Theorem timeEntry_ids_not_reused
    (body body' : InsertTimeEntry.t) (service service' : Service.t) (st : MemStorage.t) :
  timeEntriesKeyed st ->
  JsMap.get (InsertTimeEntry.serviceId body) (MemStorage.services st) = Some service ->
  JsMap.get (InsertTimeEntry.serviceId body') (MemStorage.services st) = Some service' ->
  exists e st1 st2 e' st3,
    MemStorage.createTimeEntry body st = Returned e st1
    /\ MemStorage.deleteTimeEntry (TimeEntry.id e) st1 = (true, st2)
    /\ MemStorage.timeEntries st2 = MemStorage.timeEntries st
    /\ MemStorage.deleteTimeEntry (TimeEntry.id e) st2 = (false, st2)
    /\ MemStorage.createTimeEntry body' st2 = Returned e' st3
    /\ TimeEntry.id e' = TimeEntry.id e + 1
    /\ MemStorage.getTimeEntry (TimeEntry.id e) st3 = None
    /\ MemStorage.getTimeEntry (TimeEntry.id e') st3 = Some e'.
Proof.
  intros Hk Hsvc Hsvc'. pose proof (timeEntriesKeyed_fresh st Hk) as Hfresh.
  destruct (createTimeEntry_Returned body service st Hsvc) as (e & Hc & Hid).
  set (st1 := MemStorage.setTimeEntry (MemStorage.currentTimeEntryId st) e
                (MemStorage.bumpTimeEntryId st)) in *.
  set (st2 := snd (MemStorage.deleteTimeEntry (TimeEntry.id e) st1)).
  assert (Hentries : MemStorage.timeEntries st2 = MemStorage.timeEntries st).
  { unfold st2, st1, MemStorage.deleteTimeEntry.
    cbn [snd MemStorage.withTimeEntries MemStorage.timeEntries MemStorage.setTimeEntry
         MemStorage.bumpTimeEntryId].
    rewrite Hid, (JsMap_set_absent _ _ _ Hfresh).
    unfold JsMap.delete. rewrite filter_app. cbn [filter fst].
    rewrite Z.eqb_refl. cbn [negb]. rewrite app_nil_r.
    apply (JsMap_delete_absent _ _ Hfresh). }
  assert (Hnext : MemStorage.currentTimeEntryId st2 = MemStorage.currentTimeEntryId st + 1)
    by reflexivity.
  assert (Hservices : MemStorage.services st2 = MemStorage.services st) by reflexivity.
  rewrite <- Hservices in Hsvc'.
  destruct (createTimeEntry_Returned body' service' st2 Hsvc') as (e' & Hc' & Hid').
  exists e, st1, st2, e'. eexists.
  split; [exact Hc | ].
  split.
  { unfold st2, MemStorage.deleteTimeEntry. cbn [snd].
    unfold st1 at 1. cbn [MemStorage.timeEntries MemStorage.setTimeEntry].
    rewrite Hid, JsMap_get_set_same. reflexivity. }
  split; [exact Hentries | ].
  split.
  { unfold MemStorage.deleteTimeEntry. rewrite Hentries, Hid, Hfresh.
    rewrite (JsMap_delete_absent _ _ Hfresh), <- Hentries.
    destruct st2. reflexivity. }
  split; [exact Hc' | ].
  split; [rewrite Hid', Hid; exact Hnext | ].
  unfold MemStorage.getTimeEntry.
  cbn [MemStorage.timeEntries MemStorage.setTimeEntry MemStorage.bumpTimeEntryId].
  split.
  - rewrite JsMap_get_set_other by (rewrite Hnext, Hid; lia).
    rewrite Hentries, Hid. exact Hfresh.
  - rewrite Hid'. apply JsMap_get_set_same.
Qed.

Lemma timeEntry_ids_not_reused_witness :
  exists e st1 st2 e' st3,
    MemStorage.createTimeEntry (newEntry 1 1 "08:00" "17:00" Undefined Undefined)
      MemStorage.initial = Returned e st1
    /\ MemStorage.deleteTimeEntry 4 st1 = (true, st2)
    /\ MemStorage.createTimeEntry (newEntry 2 3 "09:00" "10:00" Undefined Undefined) st2
       = Returned e' st3
    /\ TimeEntry.id e = 4
    /\ TimeEntry.id e' = 5
    /\ MemStorage.getTimeEntry 4 st3 = None.
Proof.
  assert (Hk : timeEntriesKeyed MemStorage.initial).
  { split; cbn.
    - repeat constructor; cbn; intuition discriminate.
    - repeat constructor. }
  destruct (timeEntry_ids_not_reused
              (newEntry 1 1 "08:00" "17:00" Undefined Undefined)
              (newEntry 2 3 "09:00" "10:00" Undefined Undefined)
              _ _ MemStorage.initial Hk eq_refl eq_refl)
    as (e & st1 & st2 & e' & st3 & Hc & Hd & _ & _ & Hc' & Hid' & Hnone & _).
  assert (Hid : TimeEntry.id e = 4).
  { vm_compute in Hc. inversion Hc. reflexivity. }
  rewrite Hid in *.
  exists e, st1, st2, e', st3.
  split; [exact Hc | split; [exact Hd | split; [exact Hc' | ]]].
  split; [exact Hid | split; [exact Hid' | exact Hnone]].
Defined.

(** X9.  [MemStorage.updateTimeEntry] resolves to [undefined] exactly when
    the id has no entry, or when a recalculation is asked for and the
    service to use is not in the store; the store is then unchanged.
    Otherwise the updated entry is filed under the same id, at the same
    place and with the same [id] field.  In every case the other entries,
    the next id, the clients and the services are as before, and a
    well-filed store stays so. *)
Theorem MemStorage_updateTimeEntry_frame
    (id : Z) (updateData : PartialTimeEntry.t) (st : MemStorage.t) :
  let result := fst (MemStorage.updateTimeEntry id updateData st) in
  let st' := snd (MemStorage.updateTimeEntry id updateData st) in
  (result = None <->
   MemStorage.getTimeEntry id st = None
   \/ exists old,
        MemStorage.getTimeEntry id st = Some old
        /\ recalculates updateData = true
        /\ JsMap.get (orId (PartialTimeEntry.serviceId updateData) (TimeEntry.serviceId old))
                     (MemStorage.services st) = None)
  /\ (result = None -> st' = st)
  /\ (forall e,
        result = Some e ->
        MemStorage.getTimeEntry id st' = Some e
        /\ map fst (MemStorage.timeEntries st') = map fst (MemStorage.timeEntries st)
        /\ exists old,
             MemStorage.getTimeEntry id st = Some old /\ TimeEntry.id e = TimeEntry.id old)
  /\ (forall id', id' <> id ->
        MemStorage.getTimeEntry id' st' = MemStorage.getTimeEntry id' st)
  /\ MemStorage.currentTimeEntryId st' = MemStorage.currentTimeEntryId st
  /\ MemStorage.clients st' = MemStorage.clients st
  /\ MemStorage.services st' = MemStorage.services st
  /\ (timeEntriesKeyed st -> timeEntriesKeyed st').
Proof.
  cbn zeta. unfold MemStorage.updateTimeEntry, MemStorage.getTimeEntry.
  fold (recalculates updateData).
  destruct (JsMap.get id (MemStorage.timeEntries st)) as [old | ] eqn:Hget.
  2: { cbn [fst snd].
       split; [split; [intros _; left | ]; reflexivity | ].
       split; [reflexivity | ].
       split; [discriminate | ].
       split; [reflexivity | ].
       repeat (split; [reflexivity | ]). exact (fun H => H). }
  assert (Hset : forall e,
            TimeEntry.id e = TimeEntry.id old ->
            let st' := MemStorage.setTimeEntry id e st in
            JsMap.get id (MemStorage.timeEntries st') = Some e
            /\ map fst (MemStorage.timeEntries st') = map fst (MemStorage.timeEntries st)
            /\ (forall id', id' <> id ->
                  JsMap.get id' (MemStorage.timeEntries st')
                  = JsMap.get id' (MemStorage.timeEntries st))
            /\ (timeEntriesKeyed st -> timeEntriesKeyed st')).
  { intros e He. cbn zeta. cbn [MemStorage.setTimeEntry MemStorage.timeEntries].
    split; [apply JsMap_get_set_same | ].
    split; [apply JsMap_set_keys; congruence | ].
    split; [intros id' Hne; apply JsMap_get_set_other; exact Hne | ].
    intros [Hnd Hk]. split; cbn [MemStorage.timeEntries MemStorage.currentTimeEntryId].
    - apply JsMap_set_NoDup. exact Hnd.
    - apply JsMap_set_Forall; [ | exact Hk].
      apply JsMap_get_In in Hget. rewrite Forall_forall in Hk.
      specialize (Hk _ Hget). cbn [fst snd] in *. rewrite He. exact Hk. }
  destruct (recalculates updateData) eqn:Hrec.
  - destruct (JsMap.get (orId (PartialTimeEntry.serviceId updateData)
                              (TimeEntry.serviceId old)) (MemStorage.services st))
      as [service | ] eqn:Hsvc.
    + destruct (MemStorage.calculateHoursAndValue _ _ _ _ _) as [hours value].
      cbn [fst snd].
      destruct (Hset (withTotals (spread old updateData) (JS.toString hours)
                        (JS.toString value)) eq_refl) as (H1 & H2 & H3 & H4).
      split.
      { split; [discriminate | ].
        intros [H | (old' & H & _ & Hnone)]; [discriminate H | ].
        inversion H. subst old'. congruence. }
      split; [discriminate | ].
      split.
      { intros e He. inversion He. subst e.
        split; [exact H1 | split; [exact H2 | ]].
        exists old. split; reflexivity. }
      split; [exact H3 | ].
      repeat (split; [reflexivity | ]). exact H4.
    + cbn [fst snd]. split.
      { split; [ | reflexivity]. intros _. right. exists old. auto. }
      split; [reflexivity | ].
      split; [discriminate | ].
      split; [reflexivity | ].
      repeat (split; [reflexivity | ]). exact (fun H => H).
  - cbn [fst snd].
    destruct (Hset (spread old updateData) eq_refl) as (H1 & H2 & H3 & H4).
    split.
    { split; [discriminate | ].
      intros [H | (old' & _ & H & _)]; discriminate H. }
    split; [discriminate | ].
    split.
    { intros e He. inversion He. subst e.
      split; [exact H1 | split; [exact H2 | ]].
      exists old. split; reflexivity. }
    split; [exact H3 | ].
    repeat (split; [reflexivity | ]). exact H4.
Qed.
(** ** DatabaseStorage: time entries *)

Lemma find_None_forall {A : Type} (p : A -> bool) (l : list A) :
  find p l = None <-> forall x, In x l -> p x = false.
Proof.
  split.
  - intros H x Hin. exact (find_none p l H x Hin).
  - induction l as [ | a l IH]; cbn; intros H; [reflexivity | ].
    rewrite (H a) by now left. apply IH. intros x Hin. apply H. now right.
Qed.




Lemma filter_length_le {A : Type} (p : A -> bool) (l : list A) :
  (List.length (filter p l) <= List.length l)%nat.
Proof.
  induction l as [ | x l IH]; cbn; [lia | ].
  destruct (p x); cbn; lia.
Qed.

Lemma filter_length_eq {A : Type} (p : A -> bool) (l : list A) :
  List.length (filter p l) = List.length l -> filter p l = l.
Proof.
  induction l as [ | x l IH]; cbn; [reflexivity | ].
  destruct (p x); cbn; intros H.
  - f_equal. apply IH. lia.
  - pose proof (filter_length_le p l). lia.
Qed.

Lemma find_filter_other (id id' : Z) (rows : list TimeEntry.t) :
  id' <> id ->
  find (fun row => TimeEntry.id row =? id')
       (filter (fun row => negb (TimeEntry.id row =? id)) rows)
  = find (fun row => TimeEntry.id row =? id') rows.
Proof.
  intros Hne. induction rows as [ | row rows IH]; cbn; [reflexivity | ].
  destruct (TimeEntry.id row =? id) eqn:E; cbn.
  - apply Z.eqb_eq in E. rewrite E.
    destruct (id =? id') eqn:E'; [apply Z.eqb_eq in E'; congruence | exact IH].
  - destruct (TimeEntry.id row =? id'); [reflexivity | exact IH].
Qed.

(** X11.  [DatabaseStorage.deleteTimeEntry] removes the rows of the given
    id and no other: afterwards no row has the id and every other lookup is
    as before.  It answers [true] exactly when some row had the id, and
    [DELETE /api/time-entries/:id] then answers 204; when no row had it the
    table is unchanged and the route answers 404, as it does when the same
    id is deleted a second time. *)
Theorem DatabaseStorage_deleteTimeEntry_removes (id : Z) (db : DatabaseStorage.t) :
  let deleted := fst (DatabaseStorage.deleteTimeEntry id db) in
  let db' := snd (DatabaseStorage.deleteTimeEntry id db) in
  (deleted = true <-> DatabaseStorage.getTimeEntry id db <> None)
  /\ DatabaseStorage.getTimeEntry id db' = None
  /\ (forall id', id' <> id ->
        DatabaseStorage.getTimeEntry id' db' = DatabaseStorage.getTimeEntry id' db)
  /\ (deleted = false -> db' = db)
  /\ (DatabaseStorage.getTimeEntry id db <> None ->
      Routes.deleteTimeEntry id db = (Routes.Empty 204, db'))
  /\ (DatabaseStorage.getTimeEntry id db = None ->
      Routes.deleteTimeEntry id db = (Routes.Text 404 "Time entry not found", db))
  /\ Routes.deleteTimeEntry id db' = (Routes.Text 404 "Time entry not found", db')
  /\ (rowsKeyed db -> rowsKeyed db').
Proof.
  cbn zeta.
  set (rows := DatabaseStorage.timeEntries db).
  set (kept := filter (fun row => negb (TimeEntry.id row =? id)) rows).
  assert (Hafter : DatabaseStorage.getTimeEntry id
                     (snd (DatabaseStorage.deleteTimeEntry id db)) = None).
  { unfold DatabaseStorage.getTimeEntry, DatabaseStorage.deleteTimeEntry.
    cbn [snd DatabaseStorage.timeEntries]. apply find_None_forall.
    intros row Hin. apply filter_In in Hin. destruct Hin as [_ Hin].
    apply negb_true_iff in Hin. exact Hin. }
  assert (Hnone : DatabaseStorage.getTimeEntry id db = None ->
                  DatabaseStorage.deleteTimeEntry id db = (false, db)).
  { intros H. unfold DatabaseStorage.deleteTimeEntry. fold rows. fold kept.
    assert (Hkept : kept = rows).
    { unfold kept. apply filter_all. intros row Hin.
      unfold DatabaseStorage.getTimeEntry in H. rewrite find_None_forall in H.
      rewrite (H row Hin). reflexivity. }
    rewrite Hkept, Z.sub_diag. cbn [Z.ltb Z.compare]. unfold rows.
    destruct db. reflexivity. }
  assert (Hdeleted : fst (DatabaseStorage.deleteTimeEntry id db) = true
                     <-> DatabaseStorage.getTimeEntry id db <> None).
  { split.
    - intros H Hn. rewrite (Hnone Hn) in H. discriminate.
    - intros H. unfold DatabaseStorage.deleteTimeEntry. fold rows. fold kept.
      cbn [fst]. apply Z.ltb_lt.
      pose proof (filter_length_le (fun row => negb (TimeEntry.id row =? id)) rows) as Hle.
      fold kept in Hle.
      destruct (Nat.eq_dec (List.length kept) (List.length rows)) as [Heq | Hneq]; [ | lia].
      exfalso. apply H. apply filter_length_eq in Heq.
      unfold DatabaseStorage.getTimeEntry. fold rows. apply find_None_forall.
      intros row Hin. rewrite <- Heq in Hin. apply filter_In in Hin.
      destruct Hin as [_ Hin]. apply negb_true_iff in Hin. exact Hin. }
  split; [exact Hdeleted | ].
  split; [exact Hafter | ].
  split.
  { intros id' Hne. unfold DatabaseStorage.getTimeEntry, DatabaseStorage.deleteTimeEntry.
    cbn [snd DatabaseStorage.timeEntries]. apply find_filter_other. exact Hne. }
  split.
  { intros H. destruct (DatabaseStorage.getTimeEntry id db) eqn:Hget.
    - assert (Ht : fst (DatabaseStorage.deleteTimeEntry id db) = true)
        by (apply Hdeleted; discriminate).
      congruence.
    - rewrite (Hnone eq_refl). reflexivity. }
  split.
  { intros H. apply Hdeleted in H. unfold Routes.deleteTimeEntry.
    destruct (DatabaseStorage.deleteTimeEntry id db) as [deleted db'].
    cbn [fst snd] in *. rewrite H. reflexivity. }
  split.
  { intros H. unfold Routes.deleteTimeEntry. rewrite (Hnone H). reflexivity. }
  split.
  { unfold Routes.deleteTimeEntry.
    assert (H : DatabaseStorage.deleteTimeEntry id
                  (snd (DatabaseStorage.deleteTimeEntry id db))
                = (false, snd (DatabaseStorage.deleteTimeEntry id db))).
    { clear - Hafter. revert Hafter.
      generalize (snd (DatabaseStorage.deleteTimeEntry id db)). intros d Hd.
      unfold DatabaseStorage.deleteTimeEntry.
      assert (Hkept : filter (fun row => negb (TimeEntry.id row =? id))
                        (DatabaseStorage.timeEntries d) = DatabaseStorage.timeEntries d).
      { apply filter_all. intros row Hin.
        unfold DatabaseStorage.getTimeEntry in Hd. rewrite find_None_forall in Hd.
        rewrite (Hd row Hin). reflexivity. }
      rewrite Hkept, Z.sub_diag. cbn [Z.ltb Z.compare]. destruct d. reflexivity. }
    rewrite H. reflexivity. }
  intros [Hnd Hk]. unfold DatabaseStorage.deleteTimeEntry.
  split; cbn [snd DatabaseStorage.timeEntries DatabaseStorage.timeEntriesIdSeq].
  - pose proof (map_filter_comm TimeEntry.id (fun k => negb (k =? id))
                  (DatabaseStorage.timeEntries db)) as Hm.
    cbn beta in Hm. rewrite Hm. apply NoDup_filter. exact Hnd.
  - apply Forall_forall. intros row Hin. apply filter_In in Hin.
    rewrite Forall_forall in Hk. exact (Hk _ (proj1 Hin)).
Qed.




(** ** The billing helper and the calculation of the stores *)

Lemma twoDigits_digitChar_checked :
  forallb (fun n =>
    match Routes.twoDigits (digitChar (n / 10)) (digitChar (n mod 10)) with
    | Some k => k =? n
    | None => false
    end) (upto 100) = true.
Proof. vm_compute. reflexivity. Qed.

Lemma twoDigits_digitChar (n : Z) :
  0 <= n < 100 -> Routes.twoDigits (digitChar (n / 10)) (digitChar (n mod 10)) = Some n.
Proof.
  intros Hn.
  pose proof twoDigits_digitChar_checked as H.
  rewrite forallb_forall in H. specialize (H n (in_upto 100 n Hn)).
  destruct (Routes.twoDigits _ _) as [k | ]; [ | discriminate].
  apply Z.eqb_eq in H. now subst.
Qed.

Lemma getTime_clock (utcOffset h m : Z) :
  validClock h m ->
  Routes.getTime utcOffset (clock h m)
  = JS.ofZ (946684800000 - utcOffset * 60000 + minutes h m * 60000).
Proof.
  intros [Hh Hm]. unfold clock, twoDigit.
  cbn [append Routes.getTime].
  rewrite (twoDigits_digitChar h) by lia.
  rewrite (twoDigits_digitChar m) by lia.
  replace (h <=? 23) with true by (symmetry; apply Z.leb_le; lia).
  replace (m <=? 59) with true by (symmetry; apply Z.leb_le; lia).
  cbn [andb Z.leb Z.compare]. f_equal. unfold minutes. lia.
Qed.

Lemma hours_of_milliseconds_checked :
  forallb (fun t =>
    JS.same (JS.div (JS.ofZ ((t - 1439) * 60000)) (JS.ofZ (1000 * 60 * 60)))
            (JS.div (JS.ofZ (t - 1439)) (JS.ofZ 60)))
    (upto 2879) = true.
Proof. vm_compute. reflexivity. Qed.

Lemma hours_of_milliseconds (d : Z) :
  -1440 < d < 1440 ->
  JS.div (JS.ofZ (d * 60000)) (JS.ofZ (1000 * 60 * 60)) = JS.div (JS.ofZ d) (JS.ofZ 60).
Proof.
  intros Hd.
  pose proof hours_of_milliseconds_checked as H.
  rewrite forallb_forall in H.
  specialize (H (d + 1439) (in_upto 2879 (d + 1439) ltac:(lia))).
  replace (d + 1439 - 1439) with d in H by lia.
  apply same_eq. exact H.
Qed.

Lemma getTime_difference (utcOffset h m h' m' : Z) :
  validClock h m -> validClock h' m' -> -1440 <= utcOffset <= 1440 ->
  JS.div (JS.sub (Routes.getTime utcOffset (clock h' m')) (Routes.getTime utcOffset (clock h m)))
         (JS.ofZ (1000 * 60 * 60))
  = JS.div (JS.ofZ (minutes h' m' - minutes h m)) (JS.ofZ 60).
Proof.
  intros Hv Hv' Hoff.
  rewrite !getTime_clock by assumption.
  assert (Hb : 0 <= minutes h m < 1440) by (unfold minutes, validClock in *; lia).
  assert (Hb' : 0 <= minutes h' m' < 1440) by (unfold minutes, validClock in *; lia).
  rewrite sub_exact.
  - replace (946684800000 - utcOffset * 60000 + minutes h' m' * 60000
             - (946684800000 - utcOffset * 60000 + minutes h m * 60000))
      with ((minutes h' m' - minutes h m) * 60000) by lia.
    apply hours_of_milliseconds. lia.
  - change (2 ^ 53) with 9007199254740992. lia.
  - change (2 ^ 53) with 9007199254740992. lia.
Qed.

Lemma calculateHours_span (sh sm eh em : Z) :
  validClock sh sm -> validClock eh em ->
  DatabaseStorage.calculateHours (clock sh sm) (clock eh em) None None
  = JS.div (JS.ofZ (minutes eh em - minutes sh sm)) (JS.ofZ 60).
Proof.
  intros Hs He.
  unfold DatabaseStorage.calculateHours, DatabaseStorage.timeToMinutes.
  rewrite !minutesOf_clock by assumption.
  rewrite sub_exact; [reflexivity | | ];
    unfold minutes, validClock in *; change (2 ^ 53) with 9007199254740992; lia.
Qed.

(** X13.  For well-formed [HH:MM] times and a time zone within a day of
    UTC, the billing helper [calculateEntryHours] does not depend on the
    time zone.  Without a break it gives the same hours as
    [DatabaseStorage.calculateHours].  With a break it subtracts the rounded
    hours of the break from the rounded hours of the span, where the store
    divides the net minutes once; the two can differ in the last digit:
    from 08:00 to 08:50 with a break from 08:10 to 08:20 the helper gives
    0.6666666666666667 and the store 0.6666666666666666. *)
Theorem billing_hours_and_stored_hours
    (utcOffset sh sm eh em bh bm ch cm : Z) (service : option Routes.serviceRef) :
  validClock sh sm -> validClock eh em -> validClock bh bm -> validClock ch cm ->
  -1440 <= utcOffset <= 1440 ->
  Routes.calculateEntryHours utcOffset (spanEntry (clock sh sm) (clock eh em) service)
  = DatabaseStorage.calculateHours (clock sh sm) (clock eh em) None None
  /\ Routes.calculateEntryHours utcOffset
       (pausedEntry (clock sh sm) (clock eh em) (clock bh bm) (clock ch cm) service)
     = JS.sub (JS.div (JS.ofZ (minutes eh em - minutes sh sm)) (JS.ofZ 60))
              (JS.div (JS.ofZ (minutes ch cm - minutes bh bm)) (JS.ofZ 60))
  /\ Routes.calculateEntryHours utcOffset
       (pausedEntry (clock sh sm) (clock eh em) (clock bh bm) (clock ch cm) service)
     = Routes.calculateEntryHours 0
         (pausedEntry (clock sh sm) (clock eh em) (clock bh bm) (clock ch cm) service)
  /\ Routes.calculateEntryHours 0 (pausedEntry "08:00" "08:50" "08:10" "08:20" service)
     = JS.parseFloat "0.6666666666666667"
  /\ DatabaseStorage.calculateHours "08:00" "08:50" (Some "08:10") (Some "08:20")
     = JS.parseFloat "0.6666666666666666"
  /\ JS.same (JS.parseFloat "0.6666666666666667") (JS.parseFloat "0.6666666666666666") = false.
Proof.
  intros Hs He Hb Hc Hoff.
  assert (Hpaused : forall off, -1440 <= off <= 1440 ->
            Routes.calculateEntryHours off
              (pausedEntry (clock sh sm) (clock eh em) (clock bh bm) (clock ch cm) service)
            = JS.sub (JS.div (JS.ofZ (minutes eh em - minutes sh sm)) (JS.ofZ 60))
                     (JS.div (JS.ofZ (minutes ch cm - minutes bh bm)) (JS.ofZ 60))).
  { intros off Hoff'. unfold Routes.calculateEntryHours, pausedEntry.
    cbn [Routes.startTime Routes.endTime Routes.breakStartTime Routes.breakEndTime].
    destruct (clock_nonempty bh bm) as (a & r & Hbs).
    destruct (clock_nonempty ch cm) as (a' & r' & Hbe).
    rewrite Hbs, Hbe, <- Hbs, <- Hbe.
    rewrite !getTime_difference by assumption. reflexivity. }
  split.
  { unfold Routes.calculateEntryHours, spanEntry.
    cbn [Routes.startTime Routes.endTime Routes.breakStartTime Routes.breakEndTime].
    rewrite getTime_difference by assumption.
    symmetry. apply calculateHours_span; assumption. }
  split; [apply Hpaused; exact Hoff | ].
  split; [rewrite (Hpaused utcOffset Hoff), (Hpaused 0) by lia; reflexivity | ].
  split; [vm_compute; reflexivity | ].
  split; vm_compute; reflexivity.
Qed.

Lemma billing_hours_and_stored_hours_witness :
  Routes.calculateEntryHours (-180) (spanEntry "08:30" "16:45" None)
  = DatabaseStorage.calculateHours "08:30" "16:45" None None
  /\ Routes.calculateEntryHours (-180) (pausedEntry "08:30" "16:45" "12:00" "12:40" None)
     = Routes.calculateEntryHours 0 (pausedEntry "08:30" "16:45" "12:00" "12:40" None).
Proof.
  pose proof (billing_hours_and_stored_hours (-180) 8 30 16 45 12 0 12 40 None) as H.
  assert (Hv : forall h m, (0 <=? h) && (h <? 24) && (0 <=? m) && (m <? 60) = true ->
                           validClock h m).
  { intros h m Hb. unfold validClock.
    apply andb_prop in Hb. destruct Hb as [Hb H4].
    apply andb_prop in Hb. destruct Hb as [Hb H3].
    apply andb_prop in Hb. destruct Hb as [H1 H2].
    apply Z.leb_le in H1, H3. apply Z.ltb_lt in H2, H4. lia. }
  destruct (H (Hv 8 30 eq_refl) (Hv 16 45 eq_refl) (Hv 12 0 eq_refl) (Hv 12 40 eq_refl)
              ltac:(lia))
    as (H1 & _ & H3 & _).
  split; [exact H1 | exact H3].
Defined.

(** ** A third field of a time *)

Lemma split_colonFree_cons (h rest : string) :
  colonFree h = true ->
  JS.split ":" (h ++ String ":" rest) = h :: JS.split ":" rest.
Proof.
  induction h as [ | c h IH]; cbn; intros Hh.
  - reflexivity.
  - apply andb_prop in Hh. destruct Hh as [Hc Hh].
    apply negb_true_iff in Hc. rewrite Hc, (IH Hh). reflexivity.
Qed.

Lemma split_colonFree (m : string) : colonFree m = true -> JS.split ":" m = [m].
Proof.
  induction m as [ | c m IH]; cbn; intros Hm.
  - reflexivity.
  - apply andb_prop in Hm. destruct Hm as [Hc Hm].
    apply negb_true_iff in Hc. rewrite Hc, (IH Hm). reflexivity.
Qed.

Lemma hourAndMinute_third_field (h m rest : string) :
  colonFree h = true -> colonFree m = true ->
  hourAndMinute (h ++ ":" ++ m ++ ":" ++ rest) = hourAndMinute (h ++ ":" ++ m).
Proof.
  intros Hh Hm. unfold hourAndMinute.
  change (h ++ ":" ++ m ++ ":" ++ rest) with (h ++ String ":" (m ++ String ":" rest)).
  change (h ++ ":" ++ m) with (h ++ String ":" m).
  rewrite !split_colonFree_cons by assumption.
  rewrite (split_colonFree m Hm). reflexivity.
Qed.

(** X14.  The stores read the first two colon-separated fields of a time
    and ignore what follows a second colon: a time given with seconds
    counts as its hour and minute, in [timeToMinutes], in
    [DatabaseStorage.calculateHours] and in
    [MemStorage.calculateHoursAndValue].  The billing helper of the routes
    counts the seconds: from 08:00:30 to 08:01:00 it gives half a minute
    where the store gives a whole one. *)
Theorem seconds_are_ignored (h m rest : string) :
  colonFree h = true -> colonFree m = true ->
  let long := h ++ ":" ++ m ++ ":" ++ rest in
  let short := h ++ ":" ++ m in
  DatabaseStorage.timeToMinutes long = DatabaseStorage.timeToMinutes short
  /\ (forall other bs be,
        DatabaseStorage.calculateHours long other bs be
        = DatabaseStorage.calculateHours short other bs be
        /\ DatabaseStorage.calculateHours other long bs be
           = DatabaseStorage.calculateHours other short bs be)
  /\ (forall other rate bs be,
        MemStorage.calculateHoursAndValue long other rate bs be
        = MemStorage.calculateHoursAndValue short other rate bs be
        /\ MemStorage.calculateHoursAndValue other long rate bs be
           = MemStorage.calculateHoursAndValue other short rate bs be)
  /\ DatabaseStorage.calculateHours "08:00:30" "08:01:00" None None
     = JS.div (JS.ofZ 1) (JS.ofZ 60)
  /\ Routes.calculateEntryHours 0 (spanEntry "08:00:30" "08:01:00" None)
     = JS.div (JS.ofZ 1) (JS.ofZ 120).
Proof.
  intros Hh Hm. cbn zeta.
  pose proof (hourAndMinute_third_field h m rest Hh Hm) as H.
  unfold DatabaseStorage.calculateHours, MemStorage.calculateHoursAndValue,
    DatabaseStorage.timeToMinutes.
  rewrite H.
  split; [reflexivity | ].
  split; [intros; split; reflexivity | ].
  split; [intros; split; reflexivity | ].
  split; vm_compute; reflexivity.
Qed.

Lemma seconds_are_ignored_witness :
  DatabaseStorage.calculateHours "08:00:59" "17:00" None None
  = DatabaseStorage.calculateHours "08:00" "17:00" None None.
Proof.
  destruct (seconds_are_ignored "08" "00" "59" eq_refl eq_refl) as (_ & H & _).
  exact (proj1 (H "17:00" None None)).
Defined.
(** ** The groups of a report *)

Lemma DatabaseStorage_totalClients (filters : Filters.t) (db : DatabaseStorage.t) :
  let rows := filter (DatabaseStorage.conditions filters) (DatabaseStorage.timeEntries db) in
  Report.totalClients (DatabaseStorage.getReportData filters db)
  = Z.of_nat (List.length (distinct (map TimeEntry.clientId rows) [])).
Proof.
  intros rows. subst rows. unfold DatabaseStorage.getReportData.
  cbn [Report.totalClients].
  set (rows := filter (DatabaseStorage.conditions filters) (DatabaseStorage.timeEntries db)).
  match goal with
  | |- context [distinct (map ?f (DatabaseStorage.leftJoinClients db rows)) []] =>
      replace (map f (DatabaseStorage.leftJoinClients db rows))
        with (map TimeEntry.clientId rows)
        by (unfold DatabaseStorage.leftJoinClients; rewrite map_map; reflexivity)
  end.
  reflexivity.
Qed.

Lemma ofClient_nonempty (c : Z) (rows : list TimeEntry.t) :
  In c (map TimeEntry.clientId rows) -> 1 <= Z.of_nat (List.length (ofClient c rows)).
Proof.
  intros Hin. apply in_map_iff in Hin. destruct Hin as [e [Hc Hin]].
  assert (Hin' : In e (ofClient c rows)).
  { unfold ofClient. apply filter_In. split; [exact Hin | ]. apply Z.eqb_eq. exact Hc. }
  destruct (ofClient c rows); [contradiction | cbn [List.length]; lia].
Qed.

Lemma NoDup_all_equal (c : Z) (l : list Z) :
  NoDup l -> (forall x, In x l -> x = c) -> (List.length l <= 1)%nat.
Proof.
  intros Hnd Hall. destruct l as [ | a [ | b l]]; cbn; [lia | lia | ].
  exfalso. inversion Hnd as [ | ? ? Hnot _]; subst. apply Hnot.
  rewrite (Hall a) by (now left). rewrite (Hall b) by (right; now left). now left.
Qed.

Lemma conditions_clientId (filters : Filters.t) (c : Z) (row : TimeEntry.t) :
  Filters.clientId filters = Some c -> c <> 0 ->
  DatabaseStorage.conditions filters row = true -> TimeEntry.clientId row = c.
Proof.
  intros Hc Hne. unfold DatabaseStorage.conditions. rewrite Hc.
  intros H. apply andb_prop in H. destruct H as [H _].
  apply andb_prop in H. destruct H as [_ H].
  destruct c; [contradiction | | ]; apply Z.eqb_eq in H; exact H.
Qed.

Lemma filterEntries_clientId (filters : Filters.t) (c : Z) (entries : list TimeEntry.t)
    (e : TimeEntry.t) :
  Filters.clientId filters = Some c -> c <> 0 ->
  In e (MemStorage.filterEntries filters entries) -> TimeEntry.clientId e = c.
Proof.
  intros Hc Hne. unfold MemStorage.filterEntries. rewrite Hc. intros H.
  assert (Hin : In e (filter (fun entry => TimeEntry.clientId entry =? c)
                        (let filteredEntries := entries in
                         let filteredEntries :=
                           match Filters.startDate filters with
                           | Some (String a b) =>
                               filter (fun entry => String.leb (String a b) (TimeEntry.date entry))
                                      filteredEntries
                           | _ => filteredEntries
                           end in
                         match Filters.endDate filters with
                         | Some (String a b) =>
                             filter (fun entry => String.leb (TimeEntry.date entry) (String a b))
                                    filteredEntries
                         | _ => filteredEntries
                         end))).
  { cbn zeta in *. destruct c; [contradiction | | ];
      destruct (Filters.consultantId filters) as [[ | k | k] | ]; try exact H;
      apply filter_In in H; destruct H as [H _]; exact H. }
  apply filter_In in Hin. destruct Hin as [_ Hin]. apply Z.eqb_eq in Hin. exact Hin.
Qed.

(** X15.  The groups of a report and [totalClients].  In both stores
    every group of the breakdown holds at least one entry.
    [DatabaseStorage.getReportData] has as many groups as [totalClients]
    counts; [MemStorage.getReportData] may have fewer, since [totalClients]
    also counts the clients that are missing from the store.  Under a
    client filter [c] other than [0], every group is the group of [c] and
    [totalClients] is at most 1. *)
Theorem report_groups_and_totalClients
    (filters : Filters.t) (db : DatabaseStorage.t) (st : MemStorage.t) :
  let r := DatabaseStorage.getReportData filters db in
  let r' := MemStorage.getReportData filters st in
  Z.of_nat (List.length (Report.clientBreakdown r)) = Report.totalClients r
  /\ Z.of_nat (List.length (Report.clientBreakdown r')) <= Report.totalClients r'
  /\ Forall (fun g => 1 <= ClientGroup.entries g) (Report.clientBreakdown r)
  /\ Forall (fun g => 1 <= ClientGroup.entries g) (Report.clientBreakdown r')
  /\ forall c,
       Filters.clientId filters = Some c -> c <> 0 ->
       Forall (fun g => ClientGroup.clientId g = c) (Report.clientBreakdown r)
       /\ Report.totalClients r <= 1
       /\ Forall (fun g => ClientGroup.clientId g = c) (Report.clientBreakdown r')
       /\ Report.totalClients r' <= 1.
Proof.
  cbn zeta.
  pose proof (DatabaseStorage_breakdown filters db) as Hdb.
  pose proof (DatabaseStorage_totalClients filters db) as Hdbn.
  pose proof (MemStorage_breakdown filters st) as Hmem.
  cbn zeta in Hdb, Hdbn, Hmem.
  set (rows := filter (DatabaseStorage.conditions filters) (DatabaseStorage.timeEntries db))
    in *.
  set (rows' := MemStorage.filterEntries filters (JsMap.values (MemStorage.timeEntries st)))
    in *.
  assert (Hmemn : Report.totalClients (MemStorage.getReportData filters st)
                  = Z.of_nat (List.length (distinct (map TimeEntry.clientId rows') [])))
    by reflexivity.
  rewrite Hdb, Hdbn, Hmem, Hmemn.
  rewrite !(Permutation_length (sortByValue_Permutation _)), !length_map.
  split; [reflexivity | ].
  split.
  { pose proof (filter_length_le (hasClient st) (distinct (map TimeEntry.clientId rows') [])).
    lia. }
  split.
  { apply (Permutation_Forall (Permutation_sym (sortByValue_Permutation _))).
    apply Forall_forall. intros g Hg. apply in_map_iff in Hg.
    destruct Hg as [c [Hg Hc]]. subst g. cbn [dbGroup ClientGroup.entries].
    apply ofClient_nonempty. apply (proj2 (distinct_nil_spec _)). exact Hc. }
  split.
  { apply (Permutation_Forall (Permutation_sym (sortByValue_Permutation _))).
    apply Forall_forall. intros g Hg. apply in_map_iff in Hg.
    destruct Hg as [c [Hg Hc]]. subst g. cbn [memGroup ClientGroup.entries].
    apply filter_In in Hc. destruct Hc as [Hc _].
    apply ofClient_nonempty. apply (proj2 (distinct_nil_spec _)). exact Hc. }
  intros c Hc Hne.
  assert (Hids : forall x, In x (distinct (map TimeEntry.clientId rows) []) -> x = c).
  { intros x Hx. apply (proj1 (proj2 (distinct_nil_spec _) x)) in Hx.
    apply in_map_iff in Hx. destruct Hx as [e [He Hin]]. subst x.
    unfold rows in Hin. apply filter_In in Hin.
    exact (conditions_clientId filters c e Hc Hne (proj2 Hin)). }
  assert (Hids' : forall x, In x (distinct (map TimeEntry.clientId rows') []) -> x = c).
  { intros x Hx. apply (proj1 (proj2 (distinct_nil_spec _) x)) in Hx.
    apply in_map_iff in Hx. destruct Hx as [e [He Hin]]. subst x.
    exact (filterEntries_clientId filters c _ e Hc Hne Hin). }
  split.
  { apply (Permutation_Forall (Permutation_sym (sortByValue_Permutation _))).
    apply Forall_forall. intros g Hg. apply in_map_iff in Hg.
    destruct Hg as [x [Hg Hx]]. subst g. cbn [dbGroup ClientGroup.clientId].
    exact (Hids x Hx). }
  split.
  { pose proof (NoDup_all_equal c _ (proj1 (distinct_nil_spec _)) Hids). lia. }
  split.
  { apply (Permutation_Forall (Permutation_sym (sortByValue_Permutation _))).
    apply Forall_forall. intros g Hg. apply in_map_iff in Hg.
    destruct Hg as [x [Hg Hx]]. subst g. cbn [memGroup ClientGroup.clientId].
    apply filter_In in Hx. exact (Hids' x (proj1 Hx)). }
  pose proof (NoDup_all_equal c _ (proj1 (distinct_nil_spec _)) Hids'). lia.
Qed.
(** ** The order of the breakdown *)

Lemma binary_round_aux_sign (s : bool) (m e : Z) (l : location) :
  SFltb (S754_zero false) (binary_round_aux JS.prec JS.emax s m e l)
  = SFltb (binary_round_aux JS.prec JS.emax (negb s) m e l) (S754_zero false).
Proof.
  unfold binary_round_aux.
  destruct (shr_fexp JS.prec JS.emax m e l) as [mrs e'].
  destruct (shr_fexp JS.prec JS.emax _ e' loc_Exact) as [mrs' e''].
  destruct (shr_m mrs'); [reflexivity | | reflexivity].
  destruct (e'' <=? JS.emax - JS.prec); destruct s; reflexivity.
Qed.

Lemma binary_normalize_sign (z e : Z) :
  SFltb (S754_zero false) (binary_normalize JS.prec JS.emax z e false)
  = SFltb (binary_normalize JS.prec JS.emax (- z) e false) (S754_zero false).
Proof.
  destruct z as [ | p | p]; cbn [binary_normalize Z.opp]; [reflexivity | | ];
    unfold binary_round;
    destruct (shl_align p e _) as [mz ez].
  - apply (binary_round_aux_sign false).
  - apply (binary_round_aux_sign true).
Qed.

(** The comparator is antisymmetric in sign: [x - y] is positive exactly
    when [y - x] is negative. *)
Lemma sub_sign_flip (x y : JS.number) :
  SFltb (JS.ofZ 0) (JS.sub x y) = SFltb (JS.sub y x) (JS.ofZ 0).
Proof.
  change (JS.ofZ 0) with (S754_zero false).
  destruct x as [sx | sx | | sx mx ex], y as [sy | sy | | sy my ey];
    try reflexivity;
    try (destruct sx, sy; reflexivity).
  unfold JS.sub, SFsub.
  rewrite (Z.min_comm ey ex).
  set (a := cond_Zopp sx (Zpos (fst (shl_align mx ex (Z.min ex ey))))).
  set (b := cond_Zopp sy (Zpos (fst (shl_align my ey (Z.min ex ey))))).
  replace (b - a) with (- (a - b)) by lia.
  apply binary_normalize_sign.
Qed.

Lemma negative_not_positive (x : JS.number) :
  SFltb x (JS.ofZ 0) = true -> SFltb (JS.ofZ 0) x = false.
Proof.
  change (JS.ofZ 0) with (S754_zero false).
  destruct x as [s | s | | s m e]; try discriminate; destruct s; try discriminate;
    reflexivity.
Qed.

Lemma insertGroup_descending (g : ClientGroup.t) (l : list ClientGroup.t) :
  byValueDescending l -> byValueDescending (insertGroup g l).
Proof.
  induction l as [ | h t IH]; intros Hl.
  - cbn. auto.
  - cbn [insertGroup].
    destruct (SFltb (JS.sub (ClientGroup.value h) (ClientGroup.value g)) (JS.ofZ 0)) eqn:E.
    + split; [ | exact Hl]. apply negative_not_positive. exact E.
    + destruct Hl as [Hh Ht]. specialize (IH Ht).
      split; [ | exact IH].
      destruct t as [ | b t'].
      * cbn [insertGroup]. rewrite sub_sign_flip. exact E.
      * cbn [insertGroup] in *.
        destruct (SFltb (JS.sub (ClientGroup.value b) (ClientGroup.value g)) (JS.ofZ 0)).
        -- rewrite sub_sign_flip. exact E.
        -- exact Hh.
Qed.

Lemma sortByValue_descending (gs : list ClientGroup.t) : byValueDescending (sortByValue gs).
Proof.
  unfold sortByValue.
  assert (H : forall acc, byValueDescending acc ->
                byValueDescending (fold_left (fun sorted g => insertGroup g sorted) gs acc)).
  { induction gs as [ | g gs IH]; intros acc Hacc; cbn [fold_left]; [exact Hacc | ].
    apply IH. apply insertGroup_descending. exact Hacc. }
  apply H. exact I.
Qed.

(** X16.  The breakdown of a report comes out in the order its comparator
    asks for, greatest value first: when no group has the value [NaN]
    (with which the comparator is inconsistent), no group is followed by
    one that [(a, b) => b.value - a.value] puts before it, in either
    store. *)
Theorem breakdown_is_sorted
    (filters : Filters.t) (db : DatabaseStorage.t) (st : MemStorage.t) :
  Forall (fun g => isNaN (ClientGroup.value g) = false)
         (Report.clientBreakdown (DatabaseStorage.getReportData filters db)) ->
  Forall (fun g => isNaN (ClientGroup.value g) = false)
         (Report.clientBreakdown (MemStorage.getReportData filters st)) ->
  byValueDescending (Report.clientBreakdown (DatabaseStorage.getReportData filters db))
  /\ byValueDescending (Report.clientBreakdown (MemStorage.getReportData filters st)).
Proof.
  intros _ _. split; apply sortByValue_descending.
Qed.

Lemma breakdown_is_sorted_witness :
  map ClientGroup.clientId
      (Report.clientBreakdown (DatabaseStorage.getReportData noFilters (shortRows 1 2)))
  = [2; 1]
  /\ byValueDescending
       (Report.clientBreakdown (DatabaseStorage.getReportData noFilters (shortRows 1 2))).
Proof.
  split; [vm_compute; reflexivity | ].
  refine (proj1 (breakdown_is_sorted noFilters (shortRows 1 2) MemStorage.initial _ _)).
  - vm_compute. repeat constructor.
  - vm_compute. repeat constructor.
Defined.
(** ** The statistics of the dashboard *)

Lemma distinct_snoc (xs seen : list Z) (x : Z) :
  distinct (xs ++ [x]) seen
  = (distinct xs seen
     ++ if existsb (Z.eqb x) seen || existsb (Z.eqb x) xs then [] else [x])%list.
Proof.
  revert seen. induction xs as [ | a xs IH]; intros seen; cbn [app distinct existsb].
  - rewrite orb_false_r. destruct (existsb (Z.eqb x) seen); reflexivity.
  - destruct (existsb (Z.eqb a) seen) eqn:Ea.
    + rewrite IH. f_equal.
      destruct (x =? a) eqn:Exa; [ | reflexivity].
      apply Z.eqb_eq in Exa. subst a. rewrite Ea. reflexivity.
    + cbn [app]. rewrite IH. cbn [existsb]. f_equal. f_equal.
      destruct (x =? a); cbn [orb]; [now rewrite orb_true_r | reflexivity].
Qed.

Lemma sumOf_snoc {A : Type} (f : A -> string) (l : list A) (x : A) :
  sumOf f (l ++ [x]) = JS.add (sumOf f l) (JS.parseFloat (f x)).
Proof. unfold sumOf. rewrite fold_left_app. reflexivity. Qed.

Section Accumulate.

Variable key : TimeEntry.t -> Z.
Variable lookup : Z -> option string.

Let known (e : TimeEntry.t) : bool :=
  match lookup (key e) with
  | Some _ => true
  | None => false
  end.

Let totalsOf (l : list TimeEntry.t) (k : Z) : Z * Totals.t :=
  (k, {| Totals.name := match lookup k with Some n => n | None => EmptyString end;
         Totals.hours := sumOf TimeEntry.totalHours (filter (fun e => key e =? k) l);
         Totals.value := sumOf TimeEntry.totalValue (filter (fun e => key e =? k) l) |}).

Let ids (l : list TimeEntry.t) : list Z := distinct (map key (filter known l)) [].

Lemma JsMap_get_map {V : Type} (T : Z -> V) (k : Z) (l : list Z) :
  JsMap.get k (map (fun i => (i, T i)) l)
  = if existsb (Z.eqb k) l then Some (T k) else None.
Proof.
  unfold JsMap.get. induction l as [ | a l IH]; cbn; [reflexivity | ].
  rewrite (Z.eqb_sym k a).
  destruct (a =? k) eqn:E; cbn.
  - apply Z.eqb_eq in E. now subst.
  - exact IH.
Qed.

Lemma JsMap_set_map {V : Type} (T T' : Z -> V) (k : Z) (l : list Z) :
  NoDup l -> In k l ->
  (forall i, i <> k -> T' i = T i) ->
  JsMap.set k (T' k) (map (fun i => (i, T i)) l) = map (fun i => (i, T' i)) l.
Proof.
  intros Hnd Hin Hother.
  induction l as [ | a l IH]; [contradiction | ].
  inversion Hnd as [ | ? ? Hnot Hnd']; subst.
  cbn [map JsMap.set fst].
  destruct (a =? k) eqn:E.
  - apply Z.eqb_eq in E. subst a. f_equal.
    apply map_ext_in. intros i Hi. rewrite Hother; [reflexivity | ].
    intros Heq. subst i. contradiction.
  - apply Z.eqb_neq in E. rewrite (Hother a E). f_equal.
    apply IH; [exact Hnd' | ].
    destruct Hin as [Heq | Hin]; [congruence | exact Hin].
Qed.

Lemma filter_key_snoc (l : list TimeEntry.t) (x : TimeEntry.t) (k : Z) :
  filter (fun e => key e =? k) (l ++ [x])
  = (filter (fun e => key e =? k) l ++ if key x =? k then [x] else [])%list.
Proof. rewrite filter_app. cbn. destruct (key x =? k); reflexivity. Qed.

Lemma totalsOf_other (l : list TimeEntry.t) (x : TimeEntry.t) (k : Z) :
  k <> key x -> totalsOf (l ++ [x]) k = totalsOf l k.
Proof.
  intros Hne. unfold totalsOf. rewrite filter_key_snoc.
  replace (key x =? k) with false by (symmetry; apply Z.eqb_neq; congruence).
  rewrite app_nil_r. reflexivity.
Qed.

Lemma accumulate_spec (l : list TimeEntry.t) :
  fold_left (accumulate key (fun e => lookup (key e))) l [] = map (totalsOf l) (ids l).
Proof.
  induction l as [ | x l IH] using rev_ind; [reflexivity | ].
  rewrite fold_left_app. cbn [fold_left]. rewrite IH. clear IH.
  unfold accumulate.
  assert (Hids : forall i, In i (ids l) -> lookup i <> None).
  { intros i Hi. unfold ids in Hi.
    apply (proj1 (proj2 (distinct_nil_spec _) i)) in Hi.
    apply in_map_iff in Hi. destruct Hi as [e [He Hin]]. subst i.
    apply filter_In in Hin. destruct Hin as [_ Hk]. unfold known in Hk.
    destruct (lookup (key e)); [discriminate | discriminate]. }
  destruct (lookup (key x)) as [name | ] eqn:Hname.
  - assert (Hknown : known x = true) by (unfold known; now rewrite Hname).
    assert (Hnew : ids (l ++ [x])
                   = (ids l ++ if existsb (Z.eqb (key x)) (ids l) then [] else [key x])%list).
    { unfold ids. rewrite filter_app. cbn [filter]. rewrite Hknown.
      rewrite map_app. cbn [map]. rewrite distinct_snoc. cbn [existsb orb].
      f_equal.
      rewrite (existsb_eqb_Permutation (key x)
                 (distinct (map key (filter known l)) []) (map key (filter known l)));
        [reflexivity | ].
      intros i. apply (proj2 (distinct_nil_spec _)). }
    rewrite Hnew.
    change (map (totalsOf l) (ids l))
      with (map (fun i => (i, snd (totalsOf l i))) (ids l)).
    rewrite JsMap_get_map.
    destruct (existsb (Z.eqb (key x)) (ids l)) eqn:Hin.
    + rewrite app_nil_r.
      apply existsb_eqb_In in Hin.
      change (map (totalsOf (l ++ [x])) (ids l))
        with (map (fun i => (i, snd (totalsOf (l ++ [x]) i))) (ids l)).
      rewrite <- (JsMap_set_map (fun i => snd (totalsOf l i))
                    (fun i => snd (totalsOf (l ++ [x]) i)) (key x) (ids l)).
      * f_equal. unfold totalsOf. cbn [snd Totals.name Totals.hours Totals.value].
        rewrite filter_key_snoc, Z.eqb_refl, !sumOf_snoc. reflexivity.
      * apply (proj1 (distinct_nil_spec _)).
      * exact Hin.
      * intros i Hne. rewrite totalsOf_other by exact Hne. reflexivity.
    + assert (Hnot : ~ In (key x) (ids l)).
      { intros H. apply existsb_eqb_In in H. congruence. }
      rewrite JsMap_set_absent.
      2: { rewrite JsMap_get_map, Hin. reflexivity. }
      rewrite map_app. cbn [map]. f_equal.
      * apply map_ext_in. intros i Hi.
        rewrite totalsOf_other; [reflexivity | ].
        intros Heq. subst i. contradiction.
      * unfold totalsOf. rewrite Hname, filter_key_snoc, Z.eqb_refl.
        assert (Hempty : filter (fun e => key e =? key x) l = []).
        { destruct (filter (fun e => key e =? key x) l) as [ | e r] eqn:Hf; [reflexivity | ].
          exfalso. apply Hnot.
          assert (He : In e (filter (fun e => key e =? key x) l)) by (rewrite Hf; now left).
          apply filter_In in He. destruct He as [He Hk]. apply Z.eqb_eq in Hk.
          unfold ids. apply (proj2 (proj2 (distinct_nil_spec _) (key x))).
          apply in_map_iff. exists e. split; [exact Hk | ].
          apply filter_In. split; [exact He | ].
          unfold known. rewrite Hk, Hname. reflexivity. }
        rewrite Hempty. reflexivity.
  - assert (Hknown : known x = false) by (unfold known; now rewrite Hname).
    assert (Hnew : ids (l ++ [x]) = ids l).
    { unfold ids. rewrite filter_app. cbn [filter]. rewrite Hknown, app_nil_r.
      reflexivity. }
    rewrite Hnew. apply map_ext_in. intros i Hi. symmetry.
    apply totalsOf_other. intros Heq. subst i.
    exact (Hids _ Hi Hname).
Qed.

End Accumulate.

(** X17.  [MemStorage.getDashboardStats]: the statistics by consultant
    have one line for each consultant of the store that has entries in the
    month, in the order in which they first have one, no consultant twice;
    a line carries the name of the consultant and the sums of the hours
    and of the values of the entries of that consultant in the month,
    taken from left to right.  The same holds by client.
    [activeConsultants] is the number of lines by consultant, and the
    entries of a consultant or client that is missing from the store count
    in the monthly totals and in no line. *)
Theorem dashboard_statistics
    (nowYear nowMonth : Z) (month year : option Z) (st : MemStorage.t) :
  let stats := MemStorage.getDashboardStats nowYear nowMonth month year st in
  let monthly :=
    filter (fun entry =>
              prefix (MemStorage.monthPrefix nowYear nowMonth month year)
                     (TimeEntry.date entry))
           (JsMap.values (MemStorage.timeEntries st)) in
  let consultantIds :=
    distinct (map TimeEntry.consultantId
                (filter (fun e => hasConsultant st (TimeEntry.consultantId e)) monthly)) [] in
  let clientIds :=
    distinct (map TimeEntry.clientId
                (filter (fun e => hasClient st (TimeEntry.clientId e)) monthly)) [] in
  DashboardStats.consultantStats stats = map (consultantStatOf st monthly) consultantIds
  /\ DashboardStats.clientStats stats = map (clientStatOf st monthly) clientIds
  /\ DashboardStats.activeConsultants stats = Z.of_nat (List.length consultantIds)
  /\ NoDup consultantIds
  /\ NoDup clientIds
  /\ DashboardStats.monthlyHours stats = sumOf TimeEntry.totalHours monthly
  /\ DashboardStats.monthlyRevenue stats = sumOf TimeEntry.totalValue monthly.
Proof.
  cbn zeta. unfold MemStorage.getDashboardStats.
  cbn [DashboardStats.consultantStats DashboardStats.clientStats
       DashboardStats.activeConsultants DashboardStats.monthlyHours
       DashboardStats.monthlyRevenue].
  set (monthly := filter _ (JsMap.values (MemStorage.timeEntries st))).
  pose proof (accumulate_spec TimeEntry.consultantId
                (fun k => option_map Consultant.name
                            (JsMap.get k (MemStorage.consultants st))) monthly) as Hcon.
  pose proof (accumulate_spec TimeEntry.clientId
                (fun k => option_map Client.name (JsMap.get k (MemStorage.clients st)))
                monthly) as Hcli.
  cbn beta zeta in Hcon, Hcli.
  change (fun e : TimeEntry.t =>
            option_map Consultant.name
              (JsMap.get (TimeEntry.consultantId e) (MemStorage.consultants st)))
    with (MemStorage.consultantName st) in Hcon.
  change (fun e : TimeEntry.t =>
            option_map Client.name (JsMap.get (TimeEntry.clientId e) (MemStorage.clients st)))
    with (MemStorage.clientName st) in Hcli.
  rewrite Hcon, Hcli. clear Hcon Hcli.
  assert (Hfc : filter (fun e =>
                          match option_map Consultant.name
                                  (JsMap.get (TimeEntry.consultantId e)
                                             (MemStorage.consultants st)) with
                          | Some _ => true
                          | None => false
                          end) monthly
                = filter (fun e => hasConsultant st (TimeEntry.consultantId e)) monthly).
  { apply filter_ext. intros e. unfold hasConsultant.
    destruct (JsMap.get _ _); reflexivity. }
  assert (Hfk : filter (fun e =>
                          match option_map Client.name
                                  (JsMap.get (TimeEntry.clientId e) (MemStorage.clients st)) with
                          | Some _ => true
                          | None => false
                          end) monthly
                = filter (fun e => hasClient st (TimeEntry.clientId e)) monthly).
  { apply filter_ext. intros e. unfold hasClient.
    destruct (JsMap.get _ _); reflexivity. }
  rewrite Hfc, Hfk. rewrite !map_map, !length_map.
  split.
  { apply map_ext. intros k. unfold consultantStatOf.
    cbn [fst snd Totals.name Totals.hours Totals.value].
    destruct (JsMap.get k (MemStorage.consultants st)); reflexivity. }
  split.
  { apply map_ext. intros k. unfold clientStatOf.
    cbn [fst snd Totals.name Totals.hours Totals.value].
    destruct (JsMap.get k (MemStorage.clients st)); reflexivity. }
  split; [reflexivity | ].
  split; [apply (proj1 (distinct_nil_spec _)) | ].
  split; [apply (proj1 (distinct_nil_spec _)) | ].
  split; reflexivity.
Qed.
(** ** The month of the dashboard *)

Lemma month_checked :
  forallb (fun m => (padStart2 (JS.toString (JS.ofZ (m + 1))) =? twoDigit (m + 1))%string)
          (upto 12) = true.
Proof. vm_compute. reflexivity. Qed.

Lemma month_padded (m : Z) :
  1 <= m <= 12 -> padStart2 (JS.toString (JS.ofZ m)) = twoDigit m.
Proof.
  intros Hm. pose proof month_checked as H. rewrite forallb_forall in H.
  specialize (H (m - 1) (in_upto 12 (m - 1) ltac:(lia))).
  replace (m - 1 + 1) with m in H by lia.
  apply String.eqb_eq. exact H.
Qed.

Lemma twoDigit_distinct_checked :
  forallb (fun m =>
    forallb (fun m' => Bool.eqb ((twoDigit (m + 1) =? twoDigit (m' + 1))%string) (m =? m'))
            (upto 12)) (upto 12) = true.
Proof. vm_compute. reflexivity. Qed.

Lemma twoDigit_months (m m' : Z) :
  1 <= m <= 12 -> 1 <= m' <= 12 -> twoDigit m = twoDigit m' -> m = m'.
Proof.
  intros Hm Hm' Heq. pose proof twoDigit_distinct_checked as H.
  rewrite forallb_forall in H.
  specialize (H (m - 1) (in_upto 12 (m - 1) ltac:(lia))).
  rewrite forallb_forall in H.
  specialize (H (m' - 1) (in_upto 12 (m' - 1) ltac:(lia))).
  replace (m - 1 + 1) with m in H by lia.
  replace (m' - 1 + 1) with m' in H by lia.
  rewrite Heq, String.eqb_refl in H.
  apply Bool.eqb_prop in H. symmetry in H. apply Z.eqb_eq in H. lia.
Qed.

Lemma prefix_app (a b c : string) : prefix (a ++ b) (a ++ c) = prefix b c.
Proof.
  induction a as [ | x a IH]; cbn [append prefix]; [reflexivity | ].
  destruct (ascii_dec x x) as [_ | Hne]; [exact IH | contradiction].
Qed.

Lemma prefix_twoDigit (m m' : Z) (rest : string) :
  prefix (twoDigit m) (twoDigit m' ++ rest) = true <-> twoDigit m = twoDigit m'.
Proof.
  unfold twoDigit. cbn [append prefix].
  destruct (ascii_dec (digitChar (m / 10)) (digitChar (m' / 10))) as [E1 | N1];
    [ | split; [discriminate | intros H; inversion H; contradiction]].
  destruct (ascii_dec (digitChar (m mod 10)) (digitChar (m' mod 10))) as [E2 | N2];
    [ | split; [discriminate | intros H; inversion H; contradiction]].
  rewrite E1, E2. destruct rest; split; reflexivity.
Qed.

(** X18.  The month of [MemStorage.getDashboardStats].  A month from 1 to
    12 is written with two digits after the year and a hyphen, so that the
    month 3 selects the dates that start with the year and ["-03"]; a month
    that is missing or [0] is the current month.  Of the dates of the
    year, written as the year, a hyphen, a two-digit month and what
    follows, exactly those of the asked month are selected. *)
Theorem dashboard_month
    (nowYear nowMonth : Z) (month year : option Z) (m m' : Z) (rest : string) :
  1 <= m <= 12 -> 1 <= m' <= 12 ->
  orId month nowMonth = m ->
  let Y := JS.toString (JS.ofZ (orId year nowYear)) in
  MemStorage.monthPrefix nowYear nowMonth month year = Y ++ "-" ++ twoDigit m
  /\ (prefix (MemStorage.monthPrefix nowYear nowMonth month year)
             (Y ++ "-" ++ twoDigit m' ++ rest) = true <-> m' = m)
  /\ MemStorage.monthPrefix nowYear nowMonth None year
     = MemStorage.monthPrefix nowYear nowMonth (Some nowMonth) year
  /\ MemStorage.monthPrefix nowYear nowMonth (Some 0) year
     = MemStorage.monthPrefix nowYear nowMonth None year.
Proof.
  intros Hm Hm' Hmonth. cbn zeta.
  assert (Hp : MemStorage.monthPrefix nowYear nowMonth month year
               = JS.toString (JS.ofZ (orId year nowYear)) ++ "-" ++ twoDigit m).
  { unfold MemStorage.monthPrefix. rewrite Hmonth, month_padded by exact Hm. reflexivity. }
  split; [exact Hp | ].
  split.
  { rewrite Hp, prefix_app.
    change ("-" ++ twoDigit m) with (String "-" (twoDigit m)).
    change ("-" ++ twoDigit m' ++ rest) with (String "-" (twoDigit m' ++ rest)).
    cbn [prefix]. destruct (ascii_dec "-" "-") as [_ | Hne]; [ | contradiction].
    rewrite prefix_twoDigit. split.
    - intros H. symmetry. apply twoDigit_months; assumption.
    - intros H. now subst. }
  split.
  - unfold MemStorage.monthPrefix. cbn [orId].
    destruct nowMonth; reflexivity.
  - reflexivity.
Qed.

Lemma dashboard_month_witness :
  MemStorage.monthPrefix 2025 7 (Some 3) (Some 2024) = "2024-03"
  /\ MemStorage.monthPrefix 2025 7 None None = "2025-07"
  /\ prefix (MemStorage.monthPrefix 2025 7 (Some 3) (Some 2024)) "2024-03-15" = true.
Proof.
  destruct (dashboard_month 2025 7 (Some 3) (Some 2024) 3 3 "-15"
              ltac:(lia) ltac:(lia) eq_refl) as (_ & H & _).
  split; [vm_compute; reflexivity | split; [vm_compute; reflexivity | ]].
  exact (proj2 H eq_refl).
Defined.
(** ** The two stores on the same data *)

Lemma filter_filter {A : Type} (p q : A -> bool) (l : list A) :
  filter q (filter p l) = filter (fun x => p x && q x) l.
Proof.
  induction l as [ | x l IH]; cbn; [reflexivity | ].
  destruct (p x); cbn; [destruct (q x); now rewrite IH | exact IH].
Qed.

Lemma filterEntries_conditions (filters : Filters.t) (l : list TimeEntry.t) :
  MemStorage.filterEntries filters l = filter (DatabaseStorage.conditions filters) l.
Proof.
  unfold MemStorage.filterEntries, DatabaseStorage.conditions. cbn zeta.
  destruct (Filters.startDate filters) as [[ | a b] | ];
    destruct (Filters.endDate filters) as [[ | a' b'] | ];
    destruct (Filters.clientId filters) as [[ | c | c] | ];
    destruct (Filters.consultantId filters) as [[ | k | k] | ];
    first
      [ symmetry; apply filter_all; intros; reflexivity
      | rewrite ?filter_filter; apply filter_ext; intros e;
        repeat match goal with
               | |- context [String.leb ?x ?y] => destruct (String.leb x y)
               | |- context [?x =? ?y] => destruct (x =? y)
               end; reflexivity ].
Qed.

Lemma find_values_keyed (m : JsMap.t Client.t) (c : Z) :
  Forall (fun p => Client.id (snd p) = fst p) m ->
  find (fun client => Client.id client =? c) (JsMap.values m) = JsMap.get c m.
Proof.
  unfold JsMap.values, JsMap.get. intros Hk.
  induction Hk as [ | [k v] m Hp Hm IH]; cbn; [reflexivity | ].
  cbn in Hp. rewrite Hp. destruct (k =? c); [reflexivity | exact IH].
Qed.

(** X19.  The two stores give the same report on the same data.  When the
    tables of the database hold the clients and the time entries of a
    [MemStorage] in the same order, the clients being filed under their
    ids, every time entry having its client in the store and every client
    a name that is not empty, [DatabaseStorage.getReportData] and
    [MemStorage.getReportData] return the same totals, the same counts and
    the same breakdown, for every filter by client and by consultant (a
    filter by date is compared by the database, under its collation). *)
Theorem reports_agree (filters : Filters.t) (db : DatabaseStorage.t) (st : MemStorage.t) :
  Filters.startDate filters = None ->
  Filters.endDate filters = None ->
  DatabaseStorage.clients db = JsMap.values (MemStorage.clients st) ->
  DatabaseStorage.timeEntries db = JsMap.values (MemStorage.timeEntries st) ->
  Forall (fun p => Client.id (snd p) = fst p) (MemStorage.clients st) ->
  Forall (fun p => Client.name (snd p) <> EmptyString) (MemStorage.clients st) ->
  Forall (fun e => hasClient st (TimeEntry.clientId e) = true)
         (JsMap.values (MemStorage.timeEntries st)) ->
  DatabaseStorage.getReportData filters db = MemStorage.getReportData filters st.
Proof.
  intros _ _ Hclients Hentries Hkeyed Hnamed Hknown.
  pose proof (DatabaseStorage_breakdown filters db) as Hdb.
  pose proof (DatabaseStorage_totalClients filters db) as Hdbn.
  pose proof (MemStorage_breakdown filters st) as Hmem.
  cbn zeta in Hdb, Hdbn, Hmem.
  rewrite filterEntries_conditions in Hmem.
  rewrite Hentries in Hdb, Hdbn.
  set (rows := filter (DatabaseStorage.conditions filters)
                 (JsMap.values (MemStorage.timeEntries st))) in *.
  assert (Hids : filter (hasClient st) (distinct (map TimeEntry.clientId rows) [])
                 = distinct (map TimeEntry.clientId rows) []).
  { apply filter_all. intros c Hc.
    apply (proj1 (proj2 (distinct_nil_spec _) c)) in Hc.
    apply in_map_iff in Hc. destruct Hc as [e [He Hin]]. subst c.
    unfold rows in Hin. apply filter_In in Hin.
    rewrite Forall_forall in Hknown. exact (Hknown e (proj1 Hin)). }
  assert (Hgroups : map (dbGroup db rows) (distinct (map TimeEntry.clientId rows) [])
                    = map (memGroup st rows) (distinct (map TimeEntry.clientId rows) [])).
  { apply map_ext_in. intros c Hc. rewrite <- Hids in Hc.
    apply filter_In in Hc. destruct Hc as [_ Hc]. unfold hasClient in Hc.
    unfold dbGroup, memGroup. f_equal.
    rewrite Hclients, (find_values_keyed _ c Hkeyed).
    destruct (JsMap.get c (MemStorage.clients st)) as [client | ] eqn:Hget;
      [ | discriminate].
    apply JsMap_get_In in Hget. rewrite Forall_forall in Hnamed.
    specialize (Hnamed _ Hget). cbn [snd] in Hnamed.
    destruct (Client.name client); [contradiction | reflexivity]. }
  rewrite Hids, <- Hgroups, <- Hdb in Hmem.
  assert (Hn : Report.totalClients (MemStorage.getReportData filters st)
               = Report.totalClients (DatabaseStorage.getReportData filters db)).
  { rewrite Hdbn. unfold MemStorage.getReportData. cbn [Report.totalClients].
    rewrite filterEntries_conditions. reflexivity. }
  assert (Hh : Report.totalHours (MemStorage.getReportData filters st)
               = Report.totalHours (DatabaseStorage.getReportData filters db)).
  { unfold MemStorage.getReportData, DatabaseStorage.getReportData.
    cbn [Report.totalHours]. rewrite filterEntries_conditions, Hentries.
    symmetry. apply (sumOf_joined TimeEntry.totalHours). }
  assert (Hv : Report.totalValue (MemStorage.getReportData filters st)
               = Report.totalValue (DatabaseStorage.getReportData filters db)).
  { unfold MemStorage.getReportData, DatabaseStorage.getReportData.
    cbn [Report.totalValue]. rewrite filterEntries_conditions, Hentries.
    symmetry. apply (sumOf_joined TimeEntry.totalValue). }
  assert (He : Report.totalEntries (MemStorage.getReportData filters st)
               = Report.totalEntries (DatabaseStorage.getReportData filters db)).
  { unfold MemStorage.getReportData, DatabaseStorage.getReportData.
    cbn [Report.totalEntries]. rewrite filterEntries_conditions, Hentries.
    unfold DatabaseStorage.leftJoinClients. rewrite length_map. reflexivity. }
  destruct (DatabaseStorage.getReportData filters db) as [h v n k b].
  destruct (MemStorage.getReportData filters st) as [h' v' n' k' b'].
  cbn [Report.totalHours Report.totalValue Report.totalEntries Report.totalClients
       Report.clientBreakdown] in *.
  congruence.
Qed.

Lemma reports_agree_witness :
  DatabaseStorage.getReportData noFilters seeded
  = MemStorage.getReportData noFilters MemStorage.initial.
Proof.
  apply (reports_agree noFilters seeded MemStorage.initial eq_refl eq_refl eq_refl eq_refl).
  - repeat constructor.
  - repeat constructor; discriminate.
  - repeat constructor.
Defined.
(** ** The month of the time-entry list *)

Lemma compare_app (a b c : string) : String.compare (a ++ b) (a ++ c) = String.compare b c.
Proof.
  induction a as [ | x a IH]; cbn [append String.compare]; [reflexivity | ].
  unfold Ascii.compare. rewrite N.compare_refl. exact IH.
Qed.

Lemma leb_app (a b c : string) : String.leb (a ++ b) (a ++ c) = String.leb b c.
Proof. unfold String.leb. rewrite compare_app. reflexivity. Qed.

Lemma month_window_checked :
  forallb (fun m =>
    forallb (fun m' =>
      forallb (fun d =>
        Bool.eqb
          (String.leb (twoDigit (m + 1) ++ "-01") (twoDigit (m' + 1) ++ "-" ++ twoDigit (d + 1))
           && String.leb (twoDigit (m' + 1) ++ "-" ++ twoDigit (d + 1))
                         (twoDigit (m + 1) ++ "-31"))
          (m' =? m))
        (upto 31)) (upto 12)) (upto 12) = true.
Proof. vm_compute. reflexivity. Qed.

(** X20.  The month window of [GET /api/time-entries].  For a month from
    1 to 12 and a year other than [0], the entries are asked for between
    the year, the zero-padded month and ["-01"], and the same with
    ["-31"]; the dates of that year, written with a two-digit month and a
    two-digit day from 01 to 31, that lie between the two as strings
    compare are exactly the dates of the month.  Without a month, or
    without a year, all entries are asked for. *)
Theorem month_window (year m m' d : Z) :
  1 <= m <= 12 -> 1 <= m' <= 12 -> 1 <= d <= 31 -> year <> 0 ->
  let Y := JS.toString (JS.ofZ year) in
  let date := Y ++ "-" ++ twoDigit m' ++ "-" ++ twoDigit d in
  Routes.monthRange (Some m) (Some year)
  = Some (Y ++ "-" ++ twoDigit m ++ "-01", Y ++ "-" ++ twoDigit m ++ "-31")
  /\ (String.leb (Y ++ "-" ++ twoDigit m ++ "-01") date
      && String.leb date (Y ++ "-" ++ twoDigit m ++ "-31") = true <-> m' = m)
  /\ Routes.monthRange None (Some year) = None
  /\ Routes.monthRange (Some 0) (Some year) = None
  /\ Routes.monthRange (Some m) None = None
  /\ Routes.monthRange (Some m) (Some 0) = None.
Proof.
  intros Hm Hm' Hd Hy. cbn zeta.
  split.
  { unfold Routes.monthRange. rewrite month_padded by exact Hm.
    destruct m; [lia | | lia]. destruct year; [contradiction | | ]; reflexivity. }
  split.
  { rewrite !leb_app.
    pose proof month_window_checked as H. rewrite forallb_forall in H.
    specialize (H (m - 1) (in_upto 12 (m - 1) ltac:(lia))).
    rewrite forallb_forall in H.
    specialize (H (m' - 1) (in_upto 12 (m' - 1) ltac:(lia))).
    rewrite forallb_forall in H.
    specialize (H (d - 1) (in_upto 31 (d - 1) ltac:(lia))).
    replace (m - 1 + 1) with m in H by lia.
    replace (m' - 1 + 1) with m' in H by lia.
    replace (d - 1 + 1) with d in H by lia.
    apply Bool.eqb_prop in H. rewrite H. split.
    - intros E. apply Z.eqb_eq in E. lia.
    - intros E. apply Z.eqb_eq. lia. }
  split; [reflexivity | ].
  split; [reflexivity | ].
  split; [reflexivity | ].
  unfold Routes.monthRange. cbn [JS.truthyId]. rewrite andb_false_r. reflexivity.
Qed.

Lemma month_window_witness :
  Routes.monthRange (Some 2) (Some 2024) = Some ("2024-02-01", "2024-02-31")
  /\ String.leb "2024-02-01" "2024-02-29" && String.leb "2024-02-29" "2024-02-31" = true.
Proof.
  destruct (month_window 2024 2 2 29 ltac:(lia) ltac:(lia) ltac:(lia) ltac:(lia))
    as (H1 & H2 & _).
  split; [exact H1 | exact (proj2 H2 eq_refl)].
Defined.
(** ** The summary lines of an invoice *)

Lemma sameLine_eq (a b : string * string) : sameLine a b = true <-> a = b.
Proof.
  unfold sameLine. destruct a as [a1 a2], b as [b1 b2]. cbn [fst snd].
  rewrite andb_true_iff, !String.eqb_eq. split.
  - intros [H1 H2]. now subst.
  - intros H. inversion H. auto.
Qed.

Lemma sameLine_refl (a : string * string) : sameLine a a = true.
Proof. apply sameLine_eq. reflexivity. Qed.

Lemma sameLine_neq (a b : string * string) : a <> b -> sameLine a b = false.
Proof.
  intros H. destruct (sameLine a b) eqn:E; [ | reflexivity].
  apply sameLine_eq in E. contradiction.
Qed.

Lemma line_eq_dec (a b : string * string) : {a = b} + {a <> b}.
Proof. decide equality; apply string_dec. Qed.

Lemma map_fixed {A : Type} (f : A -> A) (l : list A) :
  (forall x, In x l -> f x = x) -> map f l = l.
Proof.
  intros H. induction l as [ | x l IH]; cbn [map]; [reflexivity | ].
  rewrite (H x) by (now left). f_equal. apply IH. intros y Hy. apply H. now right.
Qed.

Section Lines.

Variables (project sector : string) (hours value : JS.number).

Let k : string * string := (project, sector).

Let fresh : BillingGroup.t :=
  {| BillingGroup.project := project;
     BillingGroup.sector := sector;
     BillingGroup.serviceType := "Padrão";
     BillingGroup.hours := hours;
     BillingGroup.value := value;
     BillingGroup.entries := 1 |}.

Lemma addToGroup_absent (groups : list BillingGroup.t) :
  ~ In k (map lineKey groups) ->
  Routes.addToGroup project sector hours value groups = (groups ++ [fresh])%list.
Proof.
  induction groups as [ | g r IH]; cbn [Routes.addToGroup map app]; intros Hk.
  - reflexivity.
  - assert (Hg : sameLine (lineKey g) k = false).
    { apply sameLine_neq. intros E. apply Hk. left. exact E. }
    unfold sameLine, lineKey, k in Hg. cbn [fst snd] in Hg. rewrite Hg.
    cbn [andb]. rewrite IH; [reflexivity | ].
    intros H. apply Hk. right. exact H.
Qed.

Lemma addToGroup_present (groups : list BillingGroup.t) :
  Forall (fun g => BillingGroup.serviceType g = "Padrão") groups ->
  NoDup (map lineKey groups) ->
  In k (map lineKey groups) ->
  Routes.addToGroup project sector hours value groups
  = map (fun g => if sameLine (lineKey g) k then bumped hours value g else g) groups.
Proof.
  induction groups as [ | g r IH]; cbn [Routes.addToGroup map]; intros Hwf Hnd Hin.
  - contradiction.
  - inversion Hwf as [ | ? ? Hg Hwf']; subst.
    inversion Hnd as [ | ? ? Hnot Hnd']; subst.
    replace ((BillingGroup.project g =? project)%string
             && (BillingGroup.sector g =? sector)%string
             && (BillingGroup.serviceType g =? "Padrão")%string)
      with (sameLine (lineKey g) k)
      by (rewrite Hg, String.eqb_refl, andb_true_r; reflexivity).
    destruct (sameLine (lineKey g) k) eqn:E.
    + apply sameLine_eq in E. rewrite map_fixed; [reflexivity | ].
      intros g' Hg'. rewrite sameLine_neq; [reflexivity | ].
      intros E'. apply Hnot. rewrite E, <- E'. apply in_map. exact Hg'.
    + f_equal. apply IH; [exact Hwf' | exact Hnd' | ].
      destruct Hin as [Hin | Hin]; [ | exact Hin].
      apply sameLine_eq in Hin. congruence.
Qed.

End Lines.

Lemma entriesOf_snoc (k : string * string) (l : list TimeEntryDetailed.t)
    (d : TimeEntryDetailed.t) :
  entriesOf k (l ++ [d]) = entriesOf k l + if sameLine (lineOf d) k then 1 else 0.
Proof.
  unfold entriesOf. rewrite filter_app, length_app. cbn [filter].
  destruct (sameLine (lineOf d) k); cbn [List.length]; lia.
Qed.

Lemma countedEntries_app (a b : list BillingGroup.t) :
  countedEntries (a ++ b) = countedEntries a + countedEntries b.
Proof.
  unfold countedEntries. induction a as [ | g a IH]; cbn [app fold_right]; [lia | ].
  rewrite IH. lia.
Qed.

Lemma countedEntries_bumped (k : string * string) (hours value : JS.number)
    (groups : list BillingGroup.t) :
  NoDup (map lineKey groups) -> In k (map lineKey groups) ->
  countedEntries
    (map (fun g => if sameLine (lineKey g) k then bumped hours value g else g) groups)
  = countedEntries groups + 1.
Proof.
  unfold countedEntries.
  induction groups as [ | g r IH]; cbn [map fold_right]; intros Hnd Hin; [contradiction | ].
  inversion Hnd as [ | ? ? Hnot Hnd']; subst.
  destruct (sameLine (lineKey g) k) eqn:E.
  - apply sameLine_eq in E. cbn [bumped BillingGroup.entries].
    rewrite map_fixed; [lia | ].
    intros g' Hg'. rewrite sameLine_neq; [reflexivity | ].
    intros E'. apply Hnot. rewrite E, <- E'. apply in_map. exact Hg'.
  - rewrite IH; [lia | exact Hnd' | ].
    destruct Hin as [Hin | Hin]; [ | exact Hin].
    apply sameLine_eq in Hin. congruence.
Qed.

(** X21.  The summary of an invoice ([POST /api/billing/generate-pdf]).
    For entries that come with their service the grouping completes, and
    its lines are told apart by the description of the service and the
    name of the sector: no two lines share both, every selected entry
    goes to the line of its own service and sector, each line counts
    exactly the selected entries that go to it (at least one), and the
    counts of the lines add up to the number of selected entries. *)
Theorem invoice_lines (utcOffset : Z) (selected : list TimeEntryDetailed.t) :
  exists groups,
    Routes.groupedData utcOffset selected = Routes.Normal groups
    /\ NoDup (map lineKey groups)
    /\ Forall (fun g =>
                 BillingGroup.serviceType g = "Padrão"
                 /\ BillingGroup.entries g = entriesOf (lineKey g) selected
                 /\ 1 <= BillingGroup.entries g)
              groups
    /\ (forall d, In d selected -> In (lineOf d) (map lineKey groups))
    /\ countedEntries groups = Z.of_nat (List.length selected).
Proof.
  unfold Routes.groupedData.
  induction selected as [ | d l IH] using rev_ind.
  - exists []. cbn. repeat split; try constructor. intros d [].
  - destruct IH as (gs & Hgs & Hnd & Hall & Hcover & Hsum).
    rewrite fold_left_app, Hgs. cbn [fold_left Routes.groupStep].
    unfold Routes.calculateEntryValue. cbn [Routes.billingOf Routes.service].
    set (hours := Routes.calculateEntryHours utcOffset (Routes.billingOf d)).
    set (value := JS.mul _ _).
    fold (Routes.billingOf d). fold hours.
    set (k := lineOf d).
    change (Service.description (TimeEntryDetailed.service d)) with (fst k).
    change (Routes.sectorName (TimeEntry.sectorId (TimeEntryDetailed.entry d)))
      with (snd k).
    assert (Hwf : Forall (fun g => BillingGroup.serviceType g = "Padrão") gs).
    { revert Hall. apply Forall_impl. tauto. }
    eexists. split; [reflexivity | ].
    destruct (in_dec line_eq_dec k (map lineKey gs)) as [Hin | Hout].
    + rewrite (addToGroup_present (fst k) (snd k) hours value gs Hwf Hnd)
        by (destruct k; exact Hin).
      replace (fst k, snd k) with k by (destruct k; reflexivity).
      assert (Hkeys : map lineKey
                        (map (fun g => if sameLine (lineKey g) k
                                       then bumped hours value g else g) gs)
                      = map lineKey gs).
      { rewrite map_map. apply map_ext. intros g.
        destruct (sameLine (lineKey g) k); reflexivity. }
      rewrite Hkeys.
      split; [exact Hnd | ].
      split.
      { apply Forall_forall. intros g' Hg'. apply in_map_iff in Hg'.
        destruct Hg' as [g [Hg' Hg]]. rewrite Forall_forall in Hall.
        destruct (Hall g Hg) as (H1 & H2 & H3). subst g'.
        rewrite entriesOf_snoc. fold k.
        destruct (sameLine (lineKey g) k) eqn:E.
        - apply sameLine_eq in E.
          change (lineKey (bumped hours value g)) with (lineKey g).
          rewrite E, sameLine_refl. cbn [bumped BillingGroup.serviceType BillingGroup.entries].
          rewrite H2 in H3 |- *. rewrite E in H3 |- *.
          split; [exact H1 | split; [reflexivity | lia]].
        - rewrite sameLine_neq by (intros E'; rewrite E', sameLine_refl in E; discriminate).
          repeat split; [exact H1 | lia | exact H3]. }
      split.
      { intros d' Hd'. apply in_app_or in Hd'. destruct Hd' as [Hd' | [Hd' | []]].
        - exact (Hcover d' Hd').
        - subst d'. exact Hin. }
      rewrite (countedEntries_bumped k hours value gs Hnd Hin), length_app.
      cbn [List.length]. lia.
    + rewrite (addToGroup_absent (fst k) (snd k) hours value gs)
        by (destruct k; exact Hout).
      rewrite map_app. cbn [map]. unfold lineKey at 2. cbn [BillingGroup.project BillingGroup.sector].
      replace (fst k, snd k) with k by (destruct k; reflexivity).
      split.
      { apply NoDup_app; [exact Hnd | repeat constructor; intros [] | ].
        intros x Hx [Hk | []]. subst x. exact (Hout Hx). }
      assert (Hzero : entriesOf k l = 0).
      { unfold entriesOf.
        destruct (filter (fun d0 => sameLine (lineOf d0) k) l) as [ | d0 r] eqn:Hf;
          [reflexivity | ].
        exfalso. apply Hout.
        assert (Hd0 : In d0 (filter (fun d0 => sameLine (lineOf d0) k) l))
          by (rewrite Hf; now left).
        apply filter_In in Hd0. destruct Hd0 as [Hd0 Hk]. apply sameLine_eq in Hk.
        rewrite <- Hk. exact (Hcover d0 Hd0). }
      split.
      { apply Forall_app. split.
        - apply Forall_forall. intros g Hg. rewrite Forall_forall in Hall.
          destruct (Hall g Hg) as (H1 & H2 & H3).
          rewrite entriesOf_snoc. fold k.
          rewrite sameLine_neq.
          + repeat split; [exact H1 | lia | exact H3].
          + intros E. apply Hout. rewrite E. apply in_map. exact Hg.
        - constructor; [ | constructor].
          cbn [BillingGroup.serviceType BillingGroup.entries].
          unfold lineKey. cbn [BillingGroup.project BillingGroup.sector].
          replace (fst k, snd k) with k by (destruct k; reflexivity).
          rewrite entriesOf_snoc, Hzero. fold k. rewrite sameLine_refl.
          repeat split; lia. }
      split.
      { intros d' Hd'. apply in_or_app. apply in_app_or in Hd'.
        destruct Hd' as [Hd' | [Hd' | []]].
        - left. exact (Hcover d' Hd').
        - right. subst d'. now left. }
      rewrite countedEntries_app, length_app, Hsum. cbn. lia.
Qed.
